(** * Events platform: data model, audit diffing, tag associations,
      event filters and the access-control gate.

    A shallow embedding of the request handlers of
    [src/routers/event_route.py], [src/routers/frontend_route.py] and
    [src/core/auth.py] over a relational model of the tables declared in
    [src/models/*.py].

    Conventions.
    - A Python [str] is a [string]; Python [int] is [Z].  An integer of
      the request that a statement binds as an INTEGER parameter is
      checked against the 32-bit range there, as the driver does.  The
      subject of a verified token is looked up as it is: the server
      issues tokens whose subject is a stored id, and the lookup of a
      subject beyond INTEGER is left out of the model.
    - [Decimal] is sign, coefficient and exponent, printed as Python does.
    - The [datetime] values of requests and rows are naive (no tzinfo),
      as the TIMESTAMP columns are; the one aware value is the stamp
      [datetime.now(timezone.utc)] of the edit page.
    - A table is the list of its rows in the order a scan meets them:
      INSERT and UPDATE put the row they write last.  A SELECT without
      ORDER BY answers in that order, which the database does not
      promise; statements about such listings speak of their rows, not of
      their order.
    - A request handler is a state transformer over the database that
      either commits or raises; a raise leaves the stored state as it was
      (the session is closed without commit by [get_db]).
    - [Return] of a mutating handler carries the row as it was committed
      and stands for the success answer.  The body of that answer is built
      by [_resolve_tags] from the objects the session holds, which are not
      refreshed after the commit ([expire_on_commit=False]); it is not
      modelled, and no statement below speaks of it.
    - The token decoder and the database's ILIKE are parameters of the
      handlers; the clock, the fresh uuid, the outcome of the upload, the
      salted password hash, the text of an exception and the driver's
      handling of aware timestamps are read from an environment record. *)

From Stdlib Require Import ZArith List String Ascii Bool Lia.
From Stdlib Require Import DecimalString Permutation Sorted.
From Stdlib Require Import DecimalN.
Import ListNotations.

Local Open Scope string_scope.
Local Open Scope Z_scope.

(* ================================================================== *)
(** ** Python values and their [str()] *)
(* ================================================================== *)

Module Py.

(** [decimal.Decimal]: [_sign], [_int] (the coefficient, whose digit
    string has no leading zero) and [_exp].  Only finite numbers: the
    request schema rejects NaN and the infinities. *)
Record Decimal := mkDecimal {
  d_sign : bool;      (* true = negative *)
  d_int  : N;
  d_exp  : Z
}.

(** The fields of a [datetime.datetime]; whether it carries a [tzinfo]
    is told by the [value] that holds it. *)
Record datetime := mkDatetime {
  year : Z; month : Z; day : Z;
  hour : Z; minute : Z; second : Z; microsecond : Z
}.

(** The values that reach the handlers. *)
Inductive value :=
| VNone
| VBool (b : bool)
| VInt (z : Z)
| VStr (s : string)
| VDecimal (d : Decimal)
| VDatetime (t : datetime)      (* naive: no tzinfo *)
| VDatetimeTz (t : datetime)    (* aware, [tzinfo=timezone.utc] *)
| VList (l : list Z).

(** *** Strings *)

Fixpoint repeat_char (c : ascii) (n : nat) : string :=
  match n with
  | O => EmptyString
  | S k => String c (repeat_char c k)
  end.

Definition str_of_N (n : N) : string :=
  NilZero.string_of_uint (N.to_uint n).

(** [str(int)].  CPython refuses to convert an integer of more than
    4300 digits either way ([sys.int_max_str_digits]); the ids of stored
    rows are far below that, and statements about the [int()] of request
    text bound its length. *)
Definition str_of_Z (z : Z) : string :=
  if z <? 0 then "-" ++ str_of_N (Z.to_N (- z))
  else str_of_N (Z.to_N z).

(** ["%0wd" % z] for a non-negative [z]. *)
Definition zero_pad (w : nat) (z : Z) : string :=
  let s := str_of_Z z in
  repeat_char "0"%char (w - String.length s) ++ s.

(** ["%+d" % z] *)
Definition signed_str (z : Z) : string :=
  if z <? 0 then str_of_Z z else "+" ++ str_of_Z z.

(** *** [Decimal.__str__] (the non-engineering branch) *)
Definition str_of_Decimal (d : Decimal) : string :=
  let sign := if d_sign d then "-" else EmptyString in
  let digits := str_of_N (d_int d) in
  let len := Z.of_nat (String.length digits) in
  let leftdigits := d_exp d + len in
  let dotplace :=
    if (d_exp d <=? 0) && (-6 <? leftdigits) then leftdigits else 1 in
  let '(intpart, fracpart) :=
    if dotplace <=? 0 then
      ("0", "." ++ repeat_char "0"%char (Z.to_nat (- dotplace)) ++ digits)
    else if len <=? dotplace then
      (digits ++ repeat_char "0"%char (Z.to_nat (dotplace - len)), EmptyString)
    else
      (substring 0 (Z.to_nat dotplace) digits,
       "." ++ substring (Z.to_nat dotplace)
                        (String.length digits - Z.to_nat dotplace) digits) in
  let exp :=
    if leftdigits =? dotplace then EmptyString
    else "E" ++ signed_str (leftdigits - dotplace) in
  sign ++ intpart ++ fracpart ++ exp.

(** *** [datetime.__str__], that is [isoformat(sep=' ')] *)
Definition str_of_datetime (t : datetime) : string :=
  zero_pad 4 (year t) ++ "-" ++ zero_pad 2 (month t) ++ "-"
    ++ zero_pad 2 (day t) ++ " " ++ zero_pad 2 (hour t) ++ ":"
    ++ zero_pad 2 (minute t) ++ ":" ++ zero_pad 2 (second t)
    ++ (if microsecond t =? 0 then EmptyString
        else "." ++ zero_pad 6 (microsecond t)).

Fixpoint join_ints (l : list Z) : string :=
  match l with
  | [] => EmptyString
  | [x] => str_of_Z x
  | x :: rest => str_of_Z x ++ ", " ++ join_ints rest
  end.

(** [str(v)] *)
Definition str (v : value) : string :=
  match v with
  | VNone => "None"
  | VBool true => "True"
  | VBool false => "False"
  | VInt z => str_of_Z z
  | VStr s => s
  | VDecimal d => str_of_Decimal d
  | VDatetime t => str_of_datetime t
  | VDatetimeTz t => str_of_datetime t ++ "+00:00"
  | VList l => "[" ++ join_ints l ++ "]"
  end.

(** Truth value of an object, as [if x:] and [x and y] test it. *)
Definition truthy (v : value) : bool :=
  match v with
  | VNone => false
  | VBool b => b
  | VInt z => negb (z =? 0)
  | VStr s => negb (String.eqb s EmptyString)
  | VDecimal d => negb (N.eqb (d_int d) 0)
  | VDatetime _ => true
  | VDatetimeTz _ => true
  | VList l => match l with [] => false | _ => true end
  end.

(** *** Character classes and [str.strip], [str.isdigit], [int(str)] *)

Definition is_space (c : ascii) : bool :=
  let n := nat_of_ascii c in
  (Nat.eqb n 32 || (Nat.leb 9 n && Nat.leb n 13) ||
   (Nat.leb 28 n && Nat.leb n 31))%bool.

Definition is_digit (c : ascii) : bool :=
  let n := nat_of_ascii c in (Nat.leb 48 n && Nat.leb n 57)%bool.

Fixpoint lstrip (s : string) : string :=
  match s with
  | String c r => if is_space c then lstrip r else s
  | EmptyString => EmptyString
  end.

Fixpoint rstrip (s : string) : string :=
  match s with
  | EmptyString => EmptyString
  | String c r =>
      match rstrip r with
      | EmptyString => if is_space c then EmptyString else String c EmptyString
      | r' => String c r'
      end
  end.

Definition strip (s : string) : string := rstrip (lstrip s).

Fixpoint all_digits (s : string) : bool :=
  match s with
  | EmptyString => true
  | String c r => is_digit c && all_digits r
  end.

(** [s.isdigit()] on the ASCII range. *)
Definition isdigit (s : string) : bool :=
  negb (String.eqb s EmptyString) && all_digits s.

Definition digit_val (c : ascii) : Z := Z.of_nat (nat_of_ascii c) - 48.

(** Digits with single underscores between them, read left to right;
    [prev] tells whether the previous character was a digit. *)
Fixpoint read_digits (s : string) (acc : Z) (prev : bool) : option Z :=
  match s with
  | EmptyString => if prev then Some acc else None
  | String c r =>
      if is_digit c then read_digits r (acc * 10 + digit_val c) true
      else if (Ascii.eqb c "_" && prev)%bool then read_digits r acc false
      else None
  end.

(** [int(s)] for a string of at most 4300 digits: [None] stands for
    [ValueError]. *)
Definition int_of_str (s : string) : option Z :=
  match strip s with
  | String "-" r => option_map Z.opp (read_digits r 0 false)
  | String "+" r => read_digits r 0 false
  | r => read_digits r 0 false
  end.

(** [s.split(",")] *)
Fixpoint split_comma_aux (s : string) (cur : string) : list string :=
  match s with
  | EmptyString => [cur]
  | String c r =>
      if Ascii.eqb c ","
      then cur :: split_comma_aux r EmptyString
      else split_comma_aux r (cur ++ String c EmptyString)
  end.

Definition split_comma (s : string) : list string := split_comma_aux s EmptyString.

End Py.

Import Py.


(* ================================================================== *)
(** ** The tables ([src/models]) *)
(* ================================================================== *)

(** Table [users]. *)
Module User.
Record t := mk {
  id : Z;
  email : string;
  password_hash : string;
  role : string;
  created_at : datetime
}.
End User.

(** Table [organizers]. *)
Module Organizer.
Record t := mk {
  id : Z;
  name : string;
  website : option string;
  contact_email : option string;
  description : option string
}.
End Organizer.

(** Table [cities]. *)
Module City.
Record t := mk { id : Z; name : string; country_id : Z }.
End City.

(** Table [tags]. *)
Module Tag.
Record t := mk { id : Z; name : string }.
End Tag.

(** Table [event_tags]; the primary key is the pair. *)
Module EventTag.
Record t := mk { event_id : Z; tag_id : Z }.

Definition eqb (a b : t) : bool :=
  (event_id a =? event_id b) && (tag_id a =? tag_id b).
End EventTag.

(** Table [bookmarks]; the primary key is the pair. *)
Module Bookmark.
Record t := mk { user_id : Z; event_id : Z; added_at : datetime }.
End Bookmark.

(** Table [events], one field per mapped column, typed as the column is.
    [price] is the NUMERIC(10,2) value counted in hundredths. *)
Module Event.
Record t := mk {
  id : Z;
  title : string;
  organizer_id : Z;
  date_start : datetime;
  description : option string;
  image_url : option string;
  website_url : option string;
  price : Z;
  date_end : option datetime;
  registration_deadline : option datetime;
  city_id : option Z;
  location_address : option string;
  is_online : bool;
  created_at : datetime;
  updated_at : option datetime
}.
End Event.

(** Table [event_audit_log]. *)
Module EventAuditLog.
(** The object built by [EventAuditLog(event_id=..., changed_by=...,
    changed_column=..., old_value=..., new_value=...)]: [id] and
    [change_date] are filled in by the database on INSERT. *)
Record pending := mkPending {
  p_event_id : Z;
  p_changed_by : option Z;
  p_changed_column : string;
  p_old_value : option string;
  p_new_value : option string
}.

Record t := mk {
  id : Z;
  event_id : Z;
  changed_by : option Z;
  changed_column : string;
  old_value : option string;
  new_value : option string;
  change_date : datetime
}.

Definition stored (new_id : Z) (now : datetime) (p : pending) : t :=
  mk new_id (p_event_id p) (p_changed_by p) (p_changed_column p)
     (p_old_value p) (p_new_value p) now.
End EventAuditLog.

(** The database: every table, and the sequences that number new rows. *)
Record DB := mkDB {
  users : list User.t;
  organizers : list Organizer.t;
  cities : list City.t;
  tags : list Tag.t;
  events : list Event.t;
  event_tags : list EventTag.t;
  bookmarks : list Bookmark.t;
  event_audit_log : list EventAuditLog.t;
  organizers_id_seq : Z;
  tags_id_seq : Z;
  events_id_seq : Z;
  event_audit_log_id_seq : Z;
  users_id_seq : Z
}.

Definition set_organizers (db : DB) (l : list Organizer.t) (next : Z) : DB :=
  mkDB (users db) l (cities db) (tags db) (events db) (event_tags db)
       (bookmarks db) (event_audit_log db) next (tags_id_seq db)
       (events_id_seq db) (event_audit_log_id_seq db) (users_id_seq db).

Definition set_tags (db : DB) (l : list Tag.t) (next : Z) : DB :=
  mkDB (users db) (organizers db) (cities db) l (events db) (event_tags db)
       (bookmarks db) (event_audit_log db) (organizers_id_seq db) next
       (events_id_seq db) (event_audit_log_id_seq db) (users_id_seq db).

Definition set_events (db : DB) (l : list Event.t) (next : Z) : DB :=
  mkDB (users db) (organizers db) (cities db) (tags db) l (event_tags db)
       (bookmarks db) (event_audit_log db) (organizers_id_seq db)
       (tags_id_seq db) next (event_audit_log_id_seq db) (users_id_seq db).

Definition set_event_tags (db : DB) (l : list EventTag.t) : DB :=
  mkDB (users db) (organizers db) (cities db) (tags db) (events db) l
       (bookmarks db) (event_audit_log db) (organizers_id_seq db)
       (tags_id_seq db) (events_id_seq db) (event_audit_log_id_seq db) (users_id_seq db).

Definition set_users (db : DB) (l : list User.t) (next : Z) : DB :=
  mkDB l (organizers db) (cities db) (tags db) (events db) (event_tags db)
       (bookmarks db) (event_audit_log db) (organizers_id_seq db)
       (tags_id_seq db) (events_id_seq db) (event_audit_log_id_seq db) next.

Definition set_bookmarks (db : DB) (l : list Bookmark.t) : DB :=
  mkDB (users db) (organizers db) (cities db) (tags db) (events db)
       (event_tags db) l (event_audit_log db) (organizers_id_seq db)
       (tags_id_seq db) (events_id_seq db) (event_audit_log_id_seq db) (users_id_seq db).

Definition set_event_audit_log (db : DB) (l : list EventAuditLog.t) (next : Z)
  : DB :=
  mkDB (users db) (organizers db) (cities db) (tags db) (events db)
       (event_tags db) (bookmarks db) l (organizers_id_seq db)
       (tags_id_seq db) (events_id_seq db) next (users_id_seq db).

(** The range of an INTEGER column, and of a parameter the driver binds
    as INTEGER. *)
Definition in_int32 (z : Z) : bool := (- 2 ^ 31 <=? z) && (z <? 2 ^ 31).

(** Lookups by primary key in the stored rows.  A handler that looks up
    an id taken from the request binds it first ([bind_integer] below). *)
Definition get_user (db : DB) (uid : Z) : option User.t :=
  find (fun u => User.id u =? uid) (users db).

Definition get_event_row (db : DB) (eid : Z) : option Event.t :=
  find (fun e => Event.id e =? eid) (events db).

Definition get_tag (db : DB) (tid : Z) : option Tag.t :=
  find (fun t => Tag.id t =? tid) (tags db).

Definition has_organizer (db : DB) (oid : Z) : bool :=
  existsb (fun o => Organizer.id o =? oid) (organizers db).

Definition has_city (db : DB) (cid : Z) : bool :=
  existsb (fun c => City.id c =? cid) (cities db).

Definition has_tag (db : DB) (tid : Z) : bool :=
  existsb (fun t => Tag.id t =? tid) (tags db).

Definition has_event (db : DB) (eid : Z) : bool :=
  existsb (fun e => Event.id e =? eid) (events db).

Definition has_user (db : DB) (uid : Z) : bool :=
  existsb (fun u => User.id u =? uid) (users db).

Definition has_event_tag (db : DB) (et : EventTag.t) : bool :=
  existsb (EventTag.eqb et) (event_tags db).

(** The tag ids associated with an event, in storage order. *)
Definition tag_ids_of (db : DB) (eid : Z) : list Z :=
  map EventTag.tag_id
      (filter (fun et => EventTag.event_id et =? eid) (event_tags db)).

(** The tables an event update never writes. *)
Definition same_other_tables (db db' : DB) : Prop :=
  users db' = users db /\ organizers db' = organizers db /\
  cities db' = cities db /\ tags db' = tags db /\
  bookmarks db' = bookmarks db.

(* ================================================================== *)
(** ** Exceptions, and handlers as transactions *)
(* ================================================================== *)

(** What the database driver reports on a failed statement. *)
Inductive db_error :=
| NotNullViolation
| ForeignKeyViolation
| UniqueViolation
| DataError.

Inductive exn :=
| HTTPException (status_code : Z) (detail : string)
| DBAPIError (e : db_error)
| AttributeError (msg : string)
| ValueError (msg : string)
| KeyError (key : string)
| AssertionError (msg : string).

Inductive result (A : Type) :=
| Return (a : A)
| Raise (e : exn).
Arguments Return {A} a.
Arguments Raise {A} e.

(** Code running inside one session: it reads and writes the working
    state of the open transaction, or raises. *)
Definition Session (A : Type) : Type := DB -> result (A * DB).

Definition ret {A} (a : A) : Session A := fun db => Return (a, db).

Definition bind {A B} (m : Session A) (k : A -> Session B) : Session B :=
  fun db =>
    match m db with
    | Return (a, db') => k a db'
    | Raise e => Raise e
    end.

Definition raise {A} (e : exn) : Session A := fun _ => Raise e.

Definition get_db : Session DB := fun db => Return (db, db).

Definition put_db (db' : DB) : Session unit := fun _ => Return (tt, db').

(** A statement with the request's [z] as an INTEGER parameter
    ([db.get(Model, z)], [WHERE column == z]): the driver refuses a value
    outside the range before the statement reaches the server. *)
Definition bind_integer (z : Z) : Session unit :=
  if in_int32 z then ret tt else raise (DBAPIError DataError).

(** [try: m except Exception as e: h e] *)
Definition try_except {A} (m : Session A) (h : exn -> Session A) : Session A :=
  fun db =>
    match m db with
    | Return r => Return r
    | Raise e => h e db
    end.

Declare Scope session_scope.
Delimit Scope session_scope with session.
Notation "x <- m ;; k" := (bind m (fun x => k))
  (at level 61, m at next level, right associativity) : session_scope.
Notation "m ;;; k" := (bind m (fun _ => k))
  (at level 61, right associativity) : session_scope.

(** One request: the handler body runs in a fresh session; what it wrote
    is kept when it returns (every mutating handler ends in
    [db.commit()]) and discarded when it raises. *)
Definition run_request {A} (m : Session A) (db : DB) : DB * result A :=
  match m db with
  | Return (a, db') => (db', Return a)
  | Raise e => (db, Raise e)
  end.

(* ================================================================== *)
(** ** The mapped [Event] instance held by a session *)
(* ================================================================== *)

(** The mapped columns of [Event], by attribute name. *)
Inductive column :=
| col_id | col_title | col_organizer_id | col_date_start | col_description
| col_image_url | col_website_url | col_price | col_date_end
| col_registration_deadline | col_city_id | col_location_address
| col_is_online | col_created_at | col_updated_at.

Definition column_name (c : column) : string :=
  match c with
  | col_id => "id" | col_title => "title"
  | col_organizer_id => "organizer_id" | col_date_start => "date_start"
  | col_description => "description" | col_image_url => "image_url"
  | col_website_url => "website_url" | col_price => "price"
  | col_date_end => "date_end"
  | col_registration_deadline => "registration_deadline"
  | col_city_id => "city_id" | col_location_address => "location_address"
  | col_is_online => "is_online" | col_created_at => "created_at"
  | col_updated_at => "updated_at"
  end.

Definition column_eqb (a b : column) : bool :=
  String.eqb (column_name a) (column_name b).

(** A loaded instance: each attribute holds whatever Python value was
    last assigned to it; nothing is checked before the flush. *)
Definition instance : Type := column -> value.

Definition getattr (ev : instance) (c : column) : value := ev c.

Definition setattr (ev : instance) (c : column) (v : value) : instance :=
  fun c' => if column_eqb c' c then v else ev c'.

Definition of_option {A} (inj : A -> value) (o : option A) : value :=
  match o with Some a => inj a | None => VNone end.

(** The [Decimal] a NUMERIC(10,2) column is read back as. *)
Definition decimal_of_hundredths (z : Z) : Decimal :=
  mkDecimal (z <? 0) (Z.to_N (Z.abs z)) (-2).

(** Loading a row into an instance. *)
Definition load (r : Event.t) : instance :=
  fun c =>
    match c with
    | col_id => VInt (Event.id r)
    | col_title => VStr (Event.title r)
    | col_organizer_id => VInt (Event.organizer_id r)
    | col_date_start => VDatetime (Event.date_start r)
    | col_description => of_option VStr (Event.description r)
    | col_image_url => of_option VStr (Event.image_url r)
    | col_website_url => of_option VStr (Event.website_url r)
    | col_price => VDecimal (decimal_of_hundredths (Event.price r))
    | col_date_end => of_option VDatetime (Event.date_end r)
    | col_registration_deadline =>
        of_option VDatetime (Event.registration_deadline r)
    | col_city_id => of_option VInt (Event.city_id r)
    | col_location_address => of_option VStr (Event.location_address r)
    | col_is_online => VBool (Event.is_online r)
    | col_created_at => VDatetime (Event.created_at r)
    | col_updated_at => of_option VDatetime (Event.updated_at r)
    end.

(** *** Writing an instance back: the column types of [models/event.py] *)

Definition db_raise {A} (e : db_error) : result A := Raise (DBAPIError e).

(** [String(n)] and [Text] ([max_len = None]). *)
Definition as_string (max_len : option nat) (v : value)
  : result (option string) :=
  match v with
  | VNone => Return None
  | VStr s =>
      match max_len with
      | Some n => if Nat.leb (String.length s) n then Return (Some s)
                  else db_raise DataError
      | None => Return (Some s)
      end
  | _ => db_raise DataError
  end.

(** [Integer] *)
Definition as_integer (v : value) : result (option Z) :=
  match v with
  | VNone => Return None
  | VInt z => if in_int32 z then Return (Some z) else db_raise DataError
  | _ => db_raise DataError
  end.

(** [TIMESTAMP], that is TIMESTAMP WITHOUT TIME ZONE.  A naive
    [datetime] is stored as it is.  What becomes of an aware one is the
    driver's doing: asyncpg refuses the parameter, psycopg hands it over
    and the server keeps its wall-clock time (sessions run in UTC).
    [aware_ok] tells which. *)
Definition as_timestamp (aware_ok : bool) (v : value)
  : result (option datetime) :=
  match v with
  | VNone => Return None
  | VDatetime t => Return (Some t)
  | VDatetimeTz t => if aware_ok then Return (Some t) else db_raise DataError
  | _ => db_raise DataError
  end.

Definition as_boolean (v : value) : result (option bool) :=
  match v with
  | VNone => Return None
  | VBool b => Return (Some b)
  | _ => db_raise DataError
  end.

(** The magnitude of a [Decimal] in hundredths, rounded half away from
    zero as NUMERIC(10,2) stores it. *)
Definition hundredths_magnitude (d : Decimal) : Z :=
  let c := Z.of_N (d_int d) in
  let e := d_exp d + 2 in
  if 0 <=? e then c * 10 ^ e
  else let q := 10 ^ (- e) in (2 * c + q) / (2 * q).

(** [Numeric(10, 2)]: at most eight digits before the point. *)
Definition as_numeric_10_2 (v : value) : result (option Z) :=
  match v with
  | VNone => Return None
  | VDecimal d =>
      let m := hundredths_magnitude d in
      if m <? 10 ^ 10 then Return (Some (if d_sign d then - m else m))
      else db_raise DataError
  | _ => db_raise DataError
  end.

(** [nullable=False] *)
Definition not_null {A} (r : result (option A)) : result A :=
  match r with
  | Return (Some a) => Return a
  | Return None => db_raise NotNullViolation
  | Raise e => Raise e
  end.

Definition rbind {A B} (r : result A) (k : A -> result B) : result B :=
  match r with
  | Return a => k a
  | Raise e => Raise e
  end.

Notation "x <-r m ;; k" := (rbind m (fun x => k))
  (at level 61, m at next level, right associativity).

(** The row an instance is written as.  [id] and [created_at] are never
    assigned by the handlers and are taken from [keep]. *)
Definition to_row (aware_ok : bool) (keep_id : Z)
           (keep_created_at : datetime) (ev : instance) : result Event.t :=
  title <-r not_null (as_string (Some 100%nat) (ev col_title)) ;;
  organizer_id <-r not_null (as_integer (ev col_organizer_id)) ;;
  date_start <-r not_null (as_timestamp aware_ok (ev col_date_start)) ;;
  description <-r as_string None (ev col_description) ;;
  image_url <-r as_string (Some 500%nat) (ev col_image_url) ;;
  website_url <-r as_string (Some 500%nat) (ev col_website_url) ;;
  price <-r not_null (as_numeric_10_2 (ev col_price)) ;;
  date_end <-r as_timestamp aware_ok (ev col_date_end) ;;
  registration_deadline <-r
    as_timestamp aware_ok (ev col_registration_deadline) ;;
  city_id <-r as_integer (ev col_city_id) ;;
  location_address <-r as_string (Some 255%nat) (ev col_location_address) ;;
  is_online <-r not_null (as_boolean (ev col_is_online)) ;;
  updated_at <-r as_timestamp aware_ok (ev col_updated_at) ;;
  Return (Event.mk keep_id title organizer_id date_start description
            image_url website_url price date_end registration_deadline
            city_id location_address is_online keep_created_at updated_at).

(** The foreign keys of [events]: [organizer_id] and [city_id]. *)
Definition event_fk_ok (db : DB) (r : Event.t) : bool :=
  has_organizer db (Event.organizer_id r) &&
  match Event.city_id r with
  | Some c => has_city db c
  | None => true
  end.

Definition lift {A} (r : result A) : Session A :=
  fun db => match r with Return a => Return (a, db) | Raise e => Raise e end.

Local Open Scope session_scope.

(** UPDATE writes a new version of the row; a scan without ORDER BY
    then meets it after the rows that stayed in place. *)
Definition replace_event (r : Event.t) (l : list Event.t) : list Event.t :=
  if existsb (fun e => Event.id e =? Event.id r) l
  then (filter (fun e => negb (Event.id e =? Event.id r)) l ++ [r])%list
  else l.

(** UPDATE of one [events] row from a dirty instance. *)
Definition flush_update (aware_ok : bool) (old : Event.t) (ev : instance)
  : Session Event.t :=
  r <- lift (to_row aware_ok (Event.id old) (Event.created_at old) ev) ;;
  db <- get_db ;;
  if event_fk_ok db r
  then put_db (set_events db (replace_event r (events db)) (events_id_seq db))
       ;;; ret r
  else raise (DBAPIError ForeignKeyViolation).

(** INSERT of a new [events] row: the id comes from the sequence and
    [created_at] from the server default [now()]. *)
Definition flush_insert (aware_ok : bool) (now : datetime) (ev : instance)
  : Session Event.t :=
  db <- get_db ;;
  r <- lift (to_row aware_ok (events_id_seq db) now ev) ;;
  if event_fk_ok db r
  then put_db (set_events db (events db ++ [r])%list (events_id_seq db + 1))
       ;;; ret r
  else raise (DBAPIError ForeignKeyViolation).

(** INSERT of one [event_tags] row: both INTEGER parameters, the
    primary key, then both foreign keys. *)
Definition insert_event_tag (et : EventTag.t) : Session unit :=
  bind_integer (EventTag.event_id et) ;;;
  bind_integer (EventTag.tag_id et) ;;;
  db <- get_db ;;
  if has_event_tag db et then raise (DBAPIError UniqueViolation)
  else if has_event db (EventTag.event_id et) && has_tag db (EventTag.tag_id et)
  then put_db (set_event_tags db (event_tags db ++ [et])%list)
  else raise (DBAPIError ForeignKeyViolation).

(** Both ids of an association row fit INTEGER. *)
Definition tag_in_range (et : EventTag.t) : bool :=
  in_int32 (EventTag.event_id et) && in_int32 (EventTag.tag_id et).

Fixpoint insert_event_tags (l : list EventTag.t) : Session unit :=
  match l with
  | [] => ret tt
  | et :: rest => insert_event_tag et ;;; insert_event_tags rest
  end.

(** [EventTag.__table__.delete().where(EventTag.event_id == event_id)] *)
Definition delete_event_tags (eid : Z) : Session unit :=
  db <- get_db ;;
  put_db (set_event_tags db
            (filter (fun et => negb (EventTag.event_id et =? eid))
                    (event_tags db))).

(** INSERT of one [event_audit_log] row. *)
Definition insert_audit_log (now : datetime) (p : EventAuditLog.pending)
  : Session unit :=
  db <- get_db ;;
  if has_event db (EventAuditLog.p_event_id p) &&
     match EventAuditLog.p_changed_by p with
     | Some u => has_user db u
     | None => true
     end
  then
    if Nat.leb (String.length (EventAuditLog.p_changed_column p)) 50
    then put_db (set_event_audit_log db
                   (event_audit_log db ++
                    [EventAuditLog.stored (event_audit_log_id_seq db) now p])%list
                   (event_audit_log_id_seq db + 1))
    else raise (DBAPIError DataError)
  else raise (DBAPIError ForeignKeyViolation).

Fixpoint insert_audit_logs (now : datetime) (l : list EventAuditLog.pending)
  : Session unit :=
  match l with
  | [] => ret tt
  | p :: rest => insert_audit_log now p ;;; insert_audit_logs now rest
  end.

(** [db.commit()] at the end of an update handler.  The unit of work
    writes the dirty [Event], then the pending [EventAuditLog] rows and
    the pending [EventTag] rows, all in the open transaction. *)
Definition commit (aware_ok : bool) (now : datetime) (row : Event.t)
           (event : instance) (added : list EventAuditLog.pending)
           (new_tags : list EventTag.t) : Session Event.t :=
  r <- flush_update aware_ok row event ;;
  insert_audit_logs now added ;;;
  insert_event_tags new_tags ;;;
  ret r.

(* ================================================================== *)
(** ** Request schema [EventUpdate] ([src/schemas/event_schema.py]) *)
(* ================================================================== *)

Module EventUpdate.
(** Every field is [Optional[...] = None].  The outer [option] records
    whether the request body named the field ([model_fields_set]); the
    inner one is the field's value, [None] for JSON [null]. *)
Record t := mk {
  title : option (option string);
  description : option (option string);
  city_id : option (option Z);
  website_url : option (option string);
  price : option (option Decimal);
  date_start : option (option datetime);
  date_end : option (option datetime);
  registration_deadline : option (option datetime);
  location_address : option (option string);
  is_online : option (option bool);
  tag_ids : option (option (list Z))
}.

(** The value of a field the request supplied, as a Python value. *)
Definition field_value {A} (inj : A -> value) (f : option (option A))
  : option value :=
  option_map (of_option inj) f.

(** [supplied p c]: the value the payload explicitly carries for the
    [Event] column [c], if any. *)
Definition supplied (p : t) (c : column) : option value :=
  match c with
  | col_title => field_value VStr (title p)
  | col_description => field_value VStr (description p)
  | col_city_id => field_value VInt (city_id p)
  | col_website_url => field_value VStr (website_url p)
  | col_price => field_value VDecimal (price p)
  | col_date_start => field_value VDatetime (date_start p)
  | col_date_end => field_value VDatetime (date_end p)
  | col_registration_deadline =>
      field_value VDatetime (registration_deadline p)
  | col_location_address => field_value VStr (location_address p)
  | col_is_online => field_value VBool (is_online p)
  | _ => None
  end.

(** The attribute [payload.tag_ids]: the default [None] when unset. *)
Definition get_tag_ids (p : t) : option (list Z) :=
  match tag_ids p with
  | Some (Some l) => Some l
  | _ => None
  end.

Definition dump_field {A} (c : column) (inj : A -> value)
           (f : option (option A)) : list (column * value) :=
  match f with
  | Some v => [(c, of_option inj v)]
  | None => []
  end.

(** [payload.model_dump(exclude_unset=True, exclude={"tag_ids"})]: the
    fields that were set, in the order the class declares them. *)
Definition model_dump_exclude_unset (p : t) : list (column * value) :=
  (dump_field col_title VStr (title p)
   ++ dump_field col_description VStr (description p)
   ++ dump_field col_city_id VInt (city_id p)
   ++ dump_field col_website_url VStr (website_url p)
   ++ dump_field col_price VDecimal (price p)
   ++ dump_field col_date_start VDatetime (date_start p)
   ++ dump_field col_date_end VDatetime (date_end p)
   ++ dump_field col_registration_deadline VDatetime
                 (registration_deadline p)
   ++ dump_field col_location_address VStr (location_address p)
   ++ dump_field col_is_online VBool (is_online p))%list.

(** *** Validation of a request body

    The body is the decoded JSON object: its members in the order the
    client wrote them, each value already of the Python type the schema
    coerces it to.  A duplicated key takes its last value; unknown keys
    are ignored; a value of the wrong type is a validation error. *)
Definition body : Type := list (string * value).

Fixpoint body_get (k : string) (b : body) : option value :=
  match b with
  | [] => None
  | (k', v) :: rest =>
      match body_get k rest with
      | Some v' => Some v'
      | None => if String.eqb k' k then Some v else None
      end
  end.

Definition parse_field {A} (prj : value -> option A) (o : option value)
  : option (option (option A)) :=
  match o with
  | None => Some None
  | Some VNone => Some (Some None)
  | Some v => match prj v with
              | Some a => Some (Some (Some a))
              | None => None
              end
  end.

Definition prj_str v := match v with VStr s => Some s | _ => None end.
Definition prj_int v := match v with VInt z => Some z | _ => None end.
Definition prj_bool v := match v with VBool b => Some b | _ => None end.
Definition prj_decimal v :=
  match v with VDecimal d => Some d | _ => None end.
Definition prj_datetime v :=
  match v with VDatetime t => Some t | _ => None end.
Definition prj_list v := match v with VList l => Some l | _ => None end.

Definition obind {A B} (o : option A) (k : A -> option B) : option B :=
  match o with Some a => k a | None => None end.

(** [EventUpdate.model_validate(body)]; [None] is the 422 response. *)
Definition validate (b : body) : option t :=
  obind (parse_field prj_str (body_get "title" b)) (fun f1 =>
  obind (parse_field prj_str (body_get "description" b)) (fun f2 =>
  obind (parse_field prj_int (body_get "city_id" b)) (fun f3 =>
  obind (parse_field prj_str (body_get "website_url" b)) (fun f4 =>
  obind (parse_field prj_decimal (body_get "price" b)) (fun f5 =>
  obind (parse_field prj_datetime (body_get "date_start" b)) (fun f6 =>
  obind (parse_field prj_datetime (body_get "date_end" b)) (fun f7 =>
  obind (parse_field prj_datetime (body_get "registration_deadline" b))
        (fun f8 =>
  obind (parse_field prj_str (body_get "location_address" b)) (fun f9 =>
  obind (parse_field prj_bool (body_get "is_online" b)) (fun f10 =>
  obind (parse_field prj_list (body_get "tag_ids" b)) (fun f11 =>
  Some (mk f1 f2 f3 f4 f5 f6 f7 f8 f9 f10 f11)))))))))))).

(** The fields other than [tag_ids], in the order of declaration. *)
Definition declared_columns : list column :=
  [col_title; col_description; col_city_id; col_website_url; col_price;
   col_date_start; col_date_end; col_registration_deadline;
   col_location_address; col_is_online].

(** The supplied fields as the declaration orders them. *)
Definition supplied_items (p : t) : list (column * value) :=
  flat_map (fun c => match supplied p c with
                     | Some v => [(c, v)]
                     | None => []
                     end)
           declared_columns.

(** A payload that sets nothing. *)
Definition empty : t :=
  mk None None None None None None None None None None None.
End EventUpdate.

(* ================================================================== *)
(** ** The audit diff loop shared by both update handlers *)
(* ================================================================== *)

(** One turn of
    [for field, new_val in update_data.items(): ...]:
    compare the stringified values, queue an [EventAuditLog] when they
    differ, then assign the attribute. *)
Definition audit_step (event_id : Z) (changed_by : Z)
           (st : instance * list EventAuditLog.pending)
           (item : column * value)
  : instance * list EventAuditLog.pending :=
  let '(event, added) := st in
  let '(field, new_val) := item in
  let old_val := getattr event field in
  let added' :=
    if negb (String.eqb (str old_val) (str new_val))
    then (added ++ [EventAuditLog.mkPending event_id (Some changed_by)
                      (column_name field)
                      (Some (str old_val)) (Some (str new_val))])%list
    else added in
  (setattr event field new_val, added').

Definition audit_loop (event_id : Z) (changed_by : Z)
           (update_data : list (column * value)) (event : instance)
  : instance * list EventAuditLog.pending :=
  fold_left (audit_step event_id changed_by) update_data (event, []).

(** The three things the loop does with one item, named. *)
Definition item_differs (event : instance) (item : column * value) : bool :=
  negb (String.eqb (str (getattr event (fst item))) (str (snd item))).

Definition item_entry (event_id changed_by : Z) (event : instance)
           (item : column * value) : EventAuditLog.pending :=
  EventAuditLog.mkPending event_id (Some changed_by)
    (column_name (fst item))
    (Some (str (getattr event (fst item)))) (Some (str (snd item))).

Definition item_assign (event : instance) (item : column * value)
  : instance :=
  setattr event (fst item) (snd item).

(** The rows INSERT gives to a batch of pending audit entries. *)
Fixpoint numbered (next : Z) (now : datetime)
         (l : list EventAuditLog.pending) : list EventAuditLog.t :=
  match l with
  | [] => []
  | p :: rest =>
      EventAuditLog.stored next now p :: numbered (next + 1) now rest
  end.

(** The database a successful [commit] leaves. *)
Definition committed (db : DB) (r : Event.t) (now : datetime)
           (added : list EventAuditLog.pending) (new_tags : list EventTag.t)
  : DB :=
  set_event_tags
    (set_event_audit_log
       (set_events db (replace_event r (events db)) (events_id_seq db))
       (event_audit_log db ++ numbered (event_audit_log_id_seq db) now added)
       (event_audit_log_id_seq db + Z.of_nat (List.length added)))
    (event_tags db ++ new_tags).

(** The association rows once those of [eid] are deleted. *)
Definition without_tags_of (db : DB) (eid : Z) : DB :=
  set_event_tags db
    (filter (fun et => negb (EventTag.event_id et =? eid)) (event_tags db)).

(** What one request reads from outside the database. *)
Record Env := mkEnv {
  utcnow : datetime;       (* the application clock, in UTC *)
  db_now : datetime;       (* the database clock, [func.now()] *)
  uuid4 : string;          (* a fresh [uuid.uuid4()] *)
  s3_upload_ok : bool;     (* whether the object-store upload succeeds *)
  bcrypt_salted : string -> string;  (* [hash_password] with a fresh salt *)
  adapts_aware : bool;     (* the driver behind [DATABASE_URL] takes an
                              aware [datetime] for a TIMESTAMP parameter
                              (psycopg) or refuses it (asyncpg) *)
  exception_text : exn -> string     (* [str(e)] of a raised exception;
                                        for a database error, the server's
                                        or the driver's message followed by
                                        the statement and its parameters *)
}.

(** An uploaded form file. *)
Record UploadFile := mkUploadFile {
  filename : string;
  content_type : string;
  contents : string
}.

(** [ALLOWED] / [ALLOWED_IMG] *)
Definition ALLOWED (content_type : string) : option string :=
  if String.eqb content_type "image/jpeg" then Some "jpg"
  else if String.eqb content_type "image/png" then Some "png"
  else if String.eqb content_type "image/webp" then Some "webp"
  else None.

(* ================================================================== *)
(** ** Sorting and small string helpers used by the listings *)
(* ================================================================== *)

Section Sort.
Context {A : Type} (leb : A -> A -> bool).

Fixpoint insert_sorted (x : A) (l : list A) : list A :=
  match l with
  | [] => [x]
  | y :: rest => if leb x y then x :: l else y :: insert_sorted x rest
  end.

(** [ORDER BY]: a stable insertion sort over the scanned rows. *)
Fixpoint order_by (l : list A) : list A :=
  match l with
  | [] => []
  | x :: rest => insert_sorted x (order_by rest)
  end.
End Sort.

Fixpoint lex_leb (a b : list Z) : bool :=
  match a, b with
  | x :: a', y :: b' =>
      if x <? y then true else if y <? x then false else lex_leb a' b'
  | _, _ => true
  end.

Definition datetime_fields (t : datetime) : list Z :=
  [year t; month t; day t; hour t; minute t; second t; microsecond t].

(** Chronological order of two timestamps. *)
Definition datetime_leb (s t : datetime) : bool :=
  lex_leb (datetime_fields s) (datetime_fields t).

Definition lower_char (c : ascii) : ascii :=
  let n := nat_of_ascii c in
  if (Nat.leb 65 n && Nat.leb n 90)%bool then ascii_of_nat (n + 32) else c.

Fixpoint lower (s : string) : string :=
  match s with
  | EmptyString => EmptyString
  | String c r => String (lower_char c) (lower r)
  end.

(** [needle in s] *)
Fixpoint contains (needle s : string) : bool :=
  String.prefix needle s ||
  match s with
  | EmptyString => false
  | String _ r => contains needle r
  end.

(** [v == "literal"]: only a [str] can equal a [str]. *)
Definition eq_str (v : value) (s : string) : bool :=
  match v with
  | VStr s' => String.eqb s' s
  | _ => false
  end.

(** How the framework reads a query-string value declared [bool]. *)
Definition bool_of_query (s : string) : option bool :=
  let l := lower s in
  if existsb (String.eqb l) ["1"; "on"; "t"; "true"; "y"; "yes"]
  then Some true
  else if existsb (String.eqb l) ["0"; "off"; "f"; "false"; "n"; "no"]
  then Some false
  else None.

(** Token claims the handlers read. *)
Record Claims := mkClaims {
  sub : option string;
  role_claim : option string
}.

(** Who a request is from, in the terms of the access-control gate. *)
Inductive caller :=
| Anonymous
| AuthenticatedUser (u : User.t)
| Admin (u : User.t).


Definition is_admin (c : caller) : bool :=
  match c with
  | Admin _ => true
  | _ => false
  end.

(** The library calls these functions make, and the storage setting they
    read:
    - [jwt_encode]: [jwt.encode(claims with exp, SECRET_KEY, ALGORITHM)];
    - [checkpw]: [bcrypt.checkpw(plain, hashed)], [None] when the stored
      hash is not one bcrypt accepts and the call raises;
    - [S3_PUBLIC_BASE]: the module constant, read from the environment;
    - [generate_presigned_url]: the S3 client call for a key, [None] when
      it raises. *)
Record Services := mkServices {
  jwt_encode : Claims -> string;
  checkpw : string -> string -> option bool;
  S3_PUBLIC_BASE : string;
  generate_presigned_url : string -> option string
}.

(* ================================================================== *)
(** ** Sample data for the worked examples *)
(* ================================================================== *)

Module Sample.

Definition day_of_june (d : Z) : datetime := mkDatetime 2024 6 d 18 0 0 0.

Definition admin : User.t :=
  User.mk 1 "admin@admin.com" "$2b$12$admin" "admin" (day_of_june 1).

Definition visitor : User.t :=
  User.mk 2 "visitor@example.org" "$2b$12$visitor" "user" (day_of_june 1).

(** Events A, B and C of the filter example: A and B in city 1, C in
    city 2; A and C online, B not. *)
Definition event_A : Event.t :=
  Event.mk 1 "Rust meetup" 1 (day_of_june 10) (Some "Monthly meetup") None
    None 1000 None None (Some 1) None true (day_of_june 1) None.

Definition event_B : Event.t :=
  Event.mk 2 "Python workshop" 1 (day_of_june 3) None None None 0 None None
    (Some 1) (Some "Main street 1") false (day_of_june 1) None.

Definition event_C : Event.t :=
  Event.mk 3 "Go conference" 1 (day_of_june 5) None None None 2550 None None
    (Some 2) None true (day_of_june 2) None.

(** Event 1 carries tags 1 and 2. *)
Definition db : DB :=
  mkDB [admin; visitor]
       [Organizer.mk 1 "ACME" None None None]
       [City.mk 1 "Kyiv" 1; City.mk 2 "Lviv" 1]
       [Tag.mk 1 "rust"; Tag.mk 2 "python"; Tag.mk 3 "go"]
       [event_A; event_B; event_C]
       [EventTag.mk 1 1; EventTag.mk 1 2]
       []
       []
       2 4 4 1 3.

(** The text of the database errors of the examples: the opening words
    of the server's and the driver's messages, without the statement and
    the parameters that follow them. *)
Definition messages (e : exn) : string :=
  match e with
  | DBAPIError ForeignKeyViolation =>
      "insert or update on table violates foreign key constraint"
  | DBAPIError NotNullViolation =>
      "null value in column violates not-null constraint"
  | DBAPIError UniqueViolation =>
      "duplicate key value violates unique constraint"
  | DBAPIError DataError => "invalid input for query argument"
  | HTTPException _ detail => detail
  | AttributeError msg | ValueError msg | AssertionError msg => msg
  | KeyError key => key
  end.

(** A deployment on psycopg, and the same on asyncpg. *)
Definition env : Env :=
  mkEnv (mkDatetime 2024 7 1 12 0 0 0) (mkDatetime 2024 7 1 12 0 0 5)
        "3f2b8c1e" true (fun password => "$2b$12$" ++ password)
        true messages.

Definition env_asyncpg : Env :=
  mkEnv (utcnow env) (db_now env) (uuid4 env) (s3_upload_ok env)
        (bcrypt_salted env) false messages.

(** Three tokens that verify: the admin's, the visitor's, and one naming
    the visitor while carrying the role claim of an admin. *)
Definition jwt_decode (token : string) : option Claims :=
  if String.eqb token "admin-token" then Some (mkClaims (Some "1") (Some "admin"))
  else if String.eqb token "visitor-token"
  then Some (mkClaims (Some "2") (Some "user"))
  else if String.eqb token "visitor-token-role-admin"
  then Some (mkClaims (Some "2") (Some "admin"))
  else None.

(** No example searches by text; any matcher will do. *)
Definition ilike (subject pattern : string) : bool := true.

Definition price_12_50 : Decimal := mkDecimal false 1250 (-2).
Definition price_10_00 : Decimal := mkDecimal false 1000 (-2).

(** [{"price": "10.00"}], [{"price": "12.50"}] *)
Definition payload_same_price : EventUpdate.t :=
  EventUpdate.mk None None None None (Some (Some price_10_00)) None None None
    None None None.

Definition payload_new_price : EventUpdate.t :=
  EventUpdate.mk None None None None (Some (Some price_12_50)) None None None
    None None None.

(** [{"tag_ids": ids}] *)
Definition payload_tags (ids : list Z) : EventUpdate.t :=
  EventUpdate.mk None None None None None None None None None None
    (Some (Some ids)).

(** [{"price": "12.50", "title": "Rust night"}], price written first. *)
Definition body_price_then_title : EventUpdate.body :=
  [("price", VDecimal price_12_50); ("title", VStr "Rust night")].

(** Event A once an update has stamped it. *)
Definition event_A_touched : Event.t :=
  Event.mk 1 "Rust meetup" 1 (day_of_june 10) (Some "Monthly meetup") None
    None 1000 None None (Some 1) None true (day_of_june 1)
    (Some (utcnow env)).


(** The token service and password check of the examples: the service
    issues the tokens [jwt_decode] verifies, and a stored hash is the
    salt prefix followed by the password. *)
Definition services : Services :=
  mkServices
    (fun c => match sub c with
              | Some s => if String.eqb s "1" then "admin-token"
                          else "visitor-token"
              | None => "visitor-token"
              end)
    (fun plain hashed => Some (String.eqb ("$2b$12$" ++ plain) hashed))
    "https://cdn.example.org/"
    (fun key => None).

(** Event A once its price is patched to 12.50. *)
Definition event_A_repriced : Event.t :=
  Event.mk 1 "Rust meetup" 1 (day_of_june 10) (Some "Monthly meetup") None
    None 1250 None None (Some 1) None true (day_of_june 1)
    (Some (utcnow env)).

(** The row a creation of "Elixir day" stores, without and with image. *)
Definition event_D : Event.t :=
  Event.mk 4 "Elixir day" 1 (day_of_june 20) None None None 1000 None None
    None None false (db_now env) None.

Definition event_D_with_image : Event.t :=
  Event.mk 4 "Elixir day" 1 (day_of_june 20) None
    (Some "uploads/3f2b8c1e.png") None 1000 None None None None false
    (db_now env) None.

Definition logo : UploadFile := mkUploadFile "logo.png" "image/png" "PNG".

End Sample.

Section App.

(** [jwt.decode(token, SECRET_KEY, algorithms=[ALGORITHM])] at the time
    of the request: the claims of a token that verifies, [None] for a
    [JWTError] (bad signature, expired, malformed). *)
Variable jwt_decode : string -> option Claims.

(** The database's [subject ILIKE pattern]. *)
Variable ilike : string -> string -> bool.

(* ---------------------------------------------------------------- *)
(** *** [src/core/auth.py] *)

Definition credentials_exception : exn :=
  HTTPException 401 "Could not validate credentials".

(** [token] is what [oauth2_scheme] extracts: [None] when the request
    has no bearer Authorization header, which the scheme rejects. *)
Definition get_current_user (db : DB) (token : option string)
  : result User.t :=
  match token with
  | None => Raise (HTTPException 401 "Not authenticated")
  | Some tok =>
      match jwt_decode tok with
      | None => Raise credentials_exception
      | Some payload =>
          match sub payload with
          | None => Raise credentials_exception
          | Some s =>
              match int_of_str s with
              | None => Raise credentials_exception
              | Some user_id =>
                  match get_user db user_id with
                  | None => Raise credentials_exception
                  | Some user => Return user
                  end
              end
          end
      end
  end.

Definition forbidden : exn := HTTPException 403 "Admin access required".

Definition require_admin (db : DB) (token : option string)
  : result User.t :=
  current_user <-r get_current_user db token ;;
  if negb (String.eqb (User.role current_user) "admin")
  then Raise forbidden
  else Return current_user.

(** An endpoint declared with [admin: User = Depends(require_admin)]:
    the dependency is resolved first, the body runs only with its
    result. *)
Definition depends_require_admin {A} (body : User.t -> Session A)
           (db : DB) (token : option string) : DB * result A :=
  match require_admin db token with
  | Raise e => (db, Raise e)
  | Return admin => run_request (body admin) db
  end.

(** An endpoint declared with [Depends(get_current_user)]. *)
Definition depends_current_user {A} (body : User.t -> Session A)
           (db : DB) (token : option string) : DB * result A :=
  match get_current_user db token with
  | Raise e => (db, Raise e)
  | Return user => run_request (body user) db
  end.

(* ---------------------------------------------------------------- *)
(** *** Cookie authentication ([src/routers/frontend_route.py]) *)

Definition _get_user_from_cookie (cookie : option string)
  : option (Z * string) :=
  match cookie with
  | None => None
  | Some token =>
      if String.eqb token EmptyString then None
      else
        match jwt_decode token with
        | None => None
        | Some payload =>
            match sub payload with
            | None => None
            | Some s =>
                match int_of_str s with
                | None => None
                | Some user_id =>
                    Some (user_id,
                          match role_claim payload with
                          | Some r => r
                          | None => "user"
                          end)
                end
            end
        end
  end.

Definition get_current_user_cookie (db : DB) (cookie : option string)
  : option User.t :=
  match _get_user_from_cookie cookie with
  | None => None
  | Some (user_id, _) => get_user db user_id
  end.

Definition _require_admin (user : option User.t) : Session unit :=
  match user with
  | None => raise forbidden
  | Some u =>
      if negb (String.eqb (User.role u) "admin")
      then raise forbidden
      else ret tt
  end.

(** A page handler declared with
    [user = Depends(get_current_user_cookie)]. *)
Definition depends_cookie_user {A} (body : option User.t -> Session A)
           (db : DB) (cookie : option string) : DB * result A :=
  run_request (body (get_current_user_cookie db cookie)) db.

(** The caller classes of the gate, bearer surface and cookie surface. *)
Definition classify (db : DB) (token : option string) : caller :=
  match get_current_user db token with
  | Raise _ => Anonymous
  | Return u => if String.eqb (User.role u) "admin" then Admin u
                else AuthenticatedUser u
  end.

Definition classify_cookie (db : DB) (cookie : option string) : caller :=
  match get_current_user_cookie db cookie with
  | None => Anonymous
  | Some u => if String.eqb (User.role u) "admin" then Admin u
              else AuthenticatedUser u
  end.

(* ---------------------------------------------------------------- *)
(** *** Event listing and detail ([src/routers/event_route.py]) *)

(** [int(x) if x and x.strip() else None] for a [str] parameter. *)
Definition int_if_present (x : option string) : result (option Z) :=
  match x with
  | None => Return None
  | Some s =>
      if truthy (VStr s) && truthy (VStr (strip s))
      then match int_of_str s with
           | Some z => Return (Some z)
           | None => Raise (ValueError "invalid literal for int()")
           end
      else Return None
  end.

(** The same expression applied to the parameter [city_id], which the
    signature declares [Optional[int]]: an [int] has no [strip]. *)
Definition int_if_present_of_int (x : option Z) : result (option Z) :=
  match x with
  | None => Return None
  | Some z =>
      if truthy (VInt z)
      then Raise (AttributeError "'int' object has no attribute 'strip'")
      else Return None
  end.

(** [Event.title.ilike(pat) | Event.description.ilike(pat)] *)
Definition matches_search (search : string) (e : Event.t) : bool :=
  let pat := "%" ++ search ++ "%" in
  ilike (Event.title e) pat ||
  match Event.description e with
  | Some d => ilike d pat
  | None => false
  end.

Definition where_search (search : option string) (e : Event.t) : bool :=
  match search with
  | Some s => if truthy (VStr s) then matches_search s e else true
  | None => true
  end.

Definition where_city (_city_id : option Z) (e : Event.t) : bool :=
  match _city_id with
  | Some c => match Event.city_id e with
              | Some c' => c' =? c
              | None => false
              end
  | None => true
  end.

Definition where_organizer (_organizer_id : option Z) (e : Event.t)
  : bool :=
  match _organizer_id with
  | Some o => Event.organizer_id e =? o
  | None => true
  end.

Definition where_online (_is_online : option bool) (e : Event.t) : bool :=
  match _is_online with
  | Some b => Bool.eqb (Event.is_online e) b
  | None => true
  end.

(** [.join(EventTag, Event.id == EventTag.event_id)
     .where(EventTag.tag_id == _tag_id)] *)
Definition where_tag (db : DB) (_tag_id : option Z) (e : Event.t) : bool :=
  match _tag_id with
  | Some t => has_event_tag db (EventTag.mk (Event.id e) t)
  | None => true
  end.

(** The INTEGER parameter of a filter that is applied: the query fails
    when the value is out of range. *)
Definition bound_integer (x : option Z) : result unit :=
  match x with
  | Some z => if in_int32 z then Return tt else db_raise DataError
  | None => Return tt
  end.

(** [GET /api/v1/events].  The parameters are as the signature types
    them: [city_id] an [int], [is_online] a [bool], the others [str].
    The query has no ORDER BY: the rows come as the scan meets them. *)
Definition list_events (db : DB) (search : option string)
           (city_id : option Z) (organizer_id : option string)
           (is_online : option bool) (tag_id : option string)
  : result (list Event.t) :=
  _city_id <-r int_if_present_of_int city_id ;;
  _organizer_id <-r int_if_present organizer_id ;;
  _tag_id <-r int_if_present tag_id ;;
  let _is_online :=
    if eq_str (of_option VBool is_online) "true" then Some true
    else if eq_str (of_option VBool is_online) "false" then Some false
    else None in
  _ <-r bound_integer _city_id ;;
  _ <-r bound_integer _organizer_id ;;
  _ <-r bound_integer _tag_id ;;
  Return
    (filter (fun e =>
               where_search search e && where_city _city_id e &&
               where_organizer _organizer_id e &&
               where_online _is_online e && where_tag db _tag_id e)
            (events db)).

(** The same endpoint from the raw query string: the framework converts
    [city_id] and [is_online] first and answers 422 when it cannot. *)
Definition get_api_events (db : DB) (search : option string)
           (city_id : option string) (organizer_id : option string)
           (is_online : option string) (tag_id : option string)
  : result (list Event.t) :=
  let convert {A} (f : string -> option A) (x : option string) :=
    match x with
    | None => Some None
    | Some s => option_map Some (f s)
    end in
  match convert int_of_str city_id, convert bool_of_query is_online with
  | Some c, Some o => list_events db search c organizer_id o tag_id
  | _, _ => Raise (HTTPException 422 "Unprocessable Entity")
  end.

(** [GET /api/v1/event/{event_id}] *)
Definition get_event (db : DB) (event_id : Z) : result Event.t :=
  if in_int32 event_id
  then match get_event_row db event_id with
       | None => Raise (HTTPException 404 "Event not found")
       | Some event => Return event
       end
  else db_raise DataError.

(* ---------------------------------------------------------------- *)
(** *** Event mutations of the API *)

(** A new, not yet flushed [Event(...)]: attributes the constructor was
    not given read as [None]. *)
Definition new_event (title : string) (organizer_id : Z)
           (date_start : datetime) (price : Decimal) (city_id : option Z)
           (description website_url : option string)
           (date_end registration_deadline : option datetime)
           (location_address : option string) (is_online : bool)
  : instance :=
  fun c =>
    match c with
    | col_title => VStr title
    | col_organizer_id => VInt organizer_id
    | col_date_start => VDatetime date_start
    | col_price => VDecimal price
    | col_city_id => of_option VInt city_id
    | col_description => of_option VStr description
    | col_website_url => of_option VStr website_url
    | col_date_end => of_option VDatetime date_end
    | col_registration_deadline => of_option VDatetime registration_deadline
    | col_location_address => of_option VStr location_address
    | col_is_online => VBool is_online
    | _ => VNone
    end.

(** [[int(t.strip()) for t in tag_ids.split(",") if t.strip().isdigit()]],
    [None] standing for the [ValueError] the handler catches. *)
Fixpoint parse_tag_ids (parts : list string) : option (list Z) :=
  match parts with
  | [] => Some []
  | t :: rest =>
      if isdigit (strip t)
      then match int_of_str (strip t), parse_tag_ids rest with
           | Some z, Some l => Some (z :: l)
           | _, _ => None
           end
      else parse_tag_ids rest
  end.

Definition parsed_ids (tag_ids : string) : list Z :=
  match parse_tag_ids (split_comma tag_ids) with
  | Some l => l
  | None => []
  end.

(** The [except Exception as e:] branch of [create_event]: what is
    raised in place of [e], chosen by the text of [e]. *)
Definition database_error (env : Env) (e : exn) : exn :=
  if contains "foreign key" (lower (exception_text env e))
  then HTTPException 400 "Invalid organizer_id, city_id, or tag_id."
  else HTTPException 500 ("Database error: " ++ exception_text env e).

(** [POST /api/v1/event]; [Return] carries the row as committed. *)
Definition create_event (env : Env)
           (title : string) (organizer_id : Z) (date_start : datetime)
           (price : Decimal) (city_id : option Z)
           (description website_url : option string)
           (date_end registration_deadline : option datetime)
           (location_address : option string) (is_online : bool)
           (tag_ids : option string) (image : option UploadFile)
           (admin : User.t) : Session Event.t :=
  let event := new_event title organizer_id date_start price city_id
                 description website_url date_end registration_deadline
                 location_address is_online in
  event <-
    match image with
    | None => ret event
    | Some img =>
        match ALLOWED (content_type img) with
        | None => raise (HTTPException 415 "Unsupported file type")
        | Some ext =>
            let key := "uploads/" ++ uuid4 env ++ "." ++ ext in
            if s3_upload_ok env
            then ret (setattr event col_image_url (VStr key))
            else raise (HTTPException 500 "Image upload failed")
        end
    end ;;
  try_except
    (r <- flush_insert (adapts_aware env) (db_now env) event ;;
     match tag_ids with
     | Some s =>
         if truthy (VStr s)
         then insert_event_tags
                (map (EventTag.mk (Event.id r)) (parsed_ids s))
         else ret tt
     | None => ret tt
     end ;;;
     ret r)
    (fun e => raise (database_error env e)).

(** The audit entries [update_event] queues for a payload, and the
    instance it then commits. *)
Definition update_records (event_id : Z) (payload : EventUpdate.t)
           (admin : User.t) (row : Event.t) : list EventAuditLog.pending :=
  snd (audit_loop event_id (User.id admin)
         (EventUpdate.model_dump_exclude_unset payload) (load row)).

Definition update_instance (env : Env) (event_id : Z)
           (payload : EventUpdate.t) (admin : User.t) (row : Event.t)
  : instance :=
  setattr (fst (audit_loop event_id (User.id admin)
                  (EventUpdate.model_dump_exclude_unset payload) (load row)))
          col_updated_at (VDatetime (utcnow env)).

(** Whether the payload supplies column [c] with a value whose [str]
    differs from that of the stored one. *)
Definition field_changed (row : Event.t) (payload : EventUpdate.t)
           (c : column) : bool :=
  match EventUpdate.supplied payload c with
  | Some v => negb (String.eqb (str (getattr (load row) c)) (str v))
  | None => false
  end.

(** Names listed in the order a request body wrote them. *)
Definition in_supplied_order (b : EventUpdate.body) (names : list string)
  : Prop :=
  names = filter (fun k => existsb (String.eqb k) names) (map fst b).

(** [PATCH /api/v1/event/{event_id}]; [Return] carries the row as
    committed. *)
Definition update_event (env : Env) (event_id : Z)
           (payload : EventUpdate.t) (admin : User.t) : Session Event.t :=
  bind_integer event_id ;;;
  db <- get_db ;;
  match get_event_row db event_id with
  | None => raise (HTTPException 404 "Event not found")
  | Some row =>
      let update_data := EventUpdate.model_dump_exclude_unset payload in
      let '(event, added) :=
        audit_loop event_id (User.id admin) update_data (load row) in
      new_tags <-
        match EventUpdate.get_tag_ids payload with
        | Some ids =>
            delete_event_tags event_id ;;;
            ret (map (EventTag.mk event_id) ids)
        | None => ret []
        end ;;
      let event := setattr event col_updated_at (VDatetime (utcnow env)) in
      commit (adapts_aware env) (db_now env) row event added new_tags
  end.

(** [db.delete(event)] with the [cascade="all, delete-orphan"]
    relationships of [Event]. *)
Definition delete_cascade (eid : Z) : Session unit :=
  db <- get_db ;;
  put_db
    (mkDB (users db) (organizers db) (cities db) (tags db)
       (filter (fun e => negb (Event.id e =? eid)) (events db))
       (filter (fun et => negb (EventTag.event_id et =? eid))
               (event_tags db))
       (filter (fun b => negb (Bookmark.event_id b =? eid)) (bookmarks db))
       (filter (fun a => negb (EventAuditLog.event_id a =? eid))
               (event_audit_log db))
       (organizers_id_seq db) (tags_id_seq db) (events_id_seq db)
       (event_audit_log_id_seq db) (users_id_seq db)).

(** [DELETE /api/v1/event/{event_id}] *)
Definition delete_event (event_id : Z) (admin : User.t) : Session unit :=
  bind_integer event_id ;;;
  db <- get_db ;;
  match get_event_row db event_id with
  | None => raise (HTTPException 404 "Not found")
  | Some event => delete_cascade event_id
  end.

(* ---------------------------------------------------------------- *)
(** *** Pages ([src/routers/frontend_route.py]) *)

(** What a page handler answers with. *)
Inductive page :=
| RedirectResponse (url : string) (status : Z)
| TemplateResponse (name : string) (status : Z).

(** [if _organizer_id:] and [if _tag_id:] test truth, so [0] filters
    nothing. *)
Definition if_truthy (x : option Z) : option Z :=
  match x with
  | Some z => if truthy (VInt z) then Some z else None
  | None => None
  end.

(** [GET /]: the [events] handed to the index template. *)
Definition page_index (db : DB) (search : option string)
           (is_online : option string) (organizer_id : option string)
           (tag_id : option string) : result (list Event.t) :=
  _organizer_id <-r int_if_present organizer_id ;;
  _tag_id <-r int_if_present tag_id ;;
  let online :=
    if eq_str (of_option VStr is_online) "true" then Some true
    else if eq_str (of_option VStr is_online) "false" then Some false
    else None in
  _ <-r bound_integer (if_truthy _organizer_id) ;;
  _ <-r bound_integer (if_truthy _tag_id) ;;
  Return
    (order_by (fun a b => datetime_leb (Event.date_start a)
                                       (Event.date_start b))
       (filter (fun e =>
                  where_search search e && where_online online e &&
                  where_organizer (if_truthy _organizer_id) e &&
                  where_tag db (if_truthy _tag_id) e)
               (events db))).

(** [GET /admin/events]: the [events] handed to the admin template. *)
Definition page_admin_events (user : option User.t)
  : Session (list Event.t) :=
  _require_admin user ;;;
  db <- get_db ;;
  ret (order_by (fun a b => Event.id b <=? Event.id a) (events db)).

(** [POST /admin/events/new].  [contents = await image.read()] stands
    outside the [if image and image.filename:] block. *)
Definition do_admin_event_create (env : Env)
           (title : string) (organizer_id : Z) (date_start : datetime)
           (date_end registration_deadline : option datetime)
           (price : Decimal) (city_id : option Z)
           (location_address website_url description : option string)
           (is_online : option string) (tag_ids : list Z)
           (image : option UploadFile)
           (user : option User.t) : Session page :=
  _require_admin user ;;;
  let event :=
    new_event title organizer_id date_start price (if_truthy city_id)
      description website_url date_end registration_deadline
      location_address (eq_str (of_option VStr is_online) "true") in
  let rejected :=
    match image with
    | Some img =>
        truthy (VStr (filename img)) &&
        match ALLOWED (content_type img) with
        | None => true
        | Some _ => false
        end
    | None => false
    end in
  if rejected then ret (TemplateResponse "admin/event_form.html" 400)
  else
    match image with
    | None =>
        raise (AttributeError "'NoneType' object has no attribute 'read'")
    | Some img =>
        event <-
          (if truthy (VStr (contents img))
           then match ALLOWED (content_type img) with
                | None => raise (KeyError (content_type img))
                | Some ext =>
                    if s3_upload_ok env
                    then ret (setattr event col_image_url
                                (VStr ("uploads/" ++ uuid4 env ++ "." ++ ext)))
                    else ret event
                end
           else ret event) ;;
        r <- flush_insert (adapts_aware env) (db_now env) event ;;
        insert_event_tags (map (EventTag.mk (Event.id r)) tag_ids) ;;;
        ret (RedirectResponse "/admin/events" 302)
    end.

(** The [updates] dict of [do_admin_event_edit], in the order it is
    written. *)
Definition edit_updates
           (title : string) (organizer_id : Z) (date_start : datetime)
           (date_end registration_deadline : option datetime)
           (price : Decimal) (city_id : option Z)
           (location_address website_url description : option string)
           (is_online : option string) : list (column * value) :=
  [ (col_title, VStr title);
    (col_organizer_id, VInt organizer_id);
    (col_date_start, VDatetime date_start);
    (col_date_end, of_option VDatetime date_end);
    (col_registration_deadline, of_option VDatetime registration_deadline);
    (col_price, VDecimal price);
    (col_city_id, of_option VInt (if_truthy city_id));
    (col_location_address, of_option VStr location_address);
    (col_website_url, of_option VStr website_url);
    (col_description, of_option VStr description);
    (col_is_online, VBool (eq_str (of_option VStr is_online) "true")) ].

(** The image block of [do_admin_event_edit]: a named, allowed,
    non-empty file is uploaded and, if that works, becomes [image_url]. *)
Definition with_uploaded_image (env : Env) (image : option UploadFile)
           (event : instance) : instance :=
  match image with
  | Some img =>
      if truthy (VStr (filename img))
      then match ALLOWED (content_type img) with
           | Some ext =>
               if truthy (VStr (contents img)) && s3_upload_ok env
               then setattr event col_image_url
                      (VStr ("uploads/" ++ uuid4 env ++ "." ++ ext))
               else event
           | None => event
           end
      else event
  | None => event
  end.

(** The audit entries [do_admin_event_edit] queues for a form, and the
    instance it then commits. *)
Definition edit_records (event_id : Z) (updates : list (column * value))
           (user : User.t) (row : Event.t) : list EventAuditLog.pending :=
  snd (audit_loop event_id (User.id user) updates (load row)).

Definition edit_instance (env : Env) (event_id : Z)
           (updates : list (column * value)) (image : option UploadFile)
           (user : User.t) (row : Event.t) : instance :=
  setattr (with_uploaded_image env image
             (fst (audit_loop event_id (User.id user) updates (load row))))
          col_updated_at (VDatetimeTz (utcnow env)).

(** [POST /admin/events/{event_id}/edit] *)
Definition do_admin_event_edit (env : Env) (event_id : Z)
           (title : string) (organizer_id : Z) (date_start : datetime)
           (date_end registration_deadline : option datetime)
           (price : Decimal) (city_id : option Z)
           (location_address website_url description : option string)
           (is_online : option string) (tag_ids : list Z)
           (image : option UploadFile)
           (user : option User.t) : Session page :=
  _require_admin user ;;;
  bind_integer event_id ;;;
  db <- get_db ;;
  match get_event_row db event_id, user with
  | None, _ => raise (HTTPException 404 "Not Found")
  | Some row, None =>
      raise (AttributeError "'NoneType' object has no attribute 'id'")
  | Some row, Some u =>
      let updates :=
        edit_updates title organizer_id date_start date_end
          registration_deadline price city_id location_address
          website_url description is_online in
      let '(event, added) :=
        audit_loop event_id (User.id u) updates (load row) in
      let event := with_uploaded_image env image event in
      delete_event_tags event_id ;;;
      let new_tags := map (EventTag.mk event_id) tag_ids in
      let event := setattr event col_updated_at (VDatetimeTz (utcnow env)) in
      commit (adapts_aware env) (db_now env) row event added new_tags ;;;
      ret (RedirectResponse "/admin/events" 302)
  end.

(** [POST /admin/events/{event_id}/delete] *)
Definition do_admin_event_delete (event_id : Z) (user : option User.t)
  : Session page :=
  _require_admin user ;;;
  bind_integer event_id ;;;
  db <- get_db ;;
  match get_event_row db event_id with
  | Some event => delete_cascade event_id
  | None => ret tt
  end ;;;
  ret (RedirectResponse "/admin/events" 302).

(* ---------------------------------------------------------------- *)
(** *** Tags, organizers, bookmarks and registration *)

(** INSERT into [tags]: [name] is [String(50)], unique. *)
Definition insert_tag (name : string) : Session Tag.t :=
  db <- get_db ;;
  if negb (Nat.leb (String.length name) 50) then raise (DBAPIError DataError)
  else if existsb (fun t => String.eqb (Tag.name t) name) (tags db)
  then raise (DBAPIError UniqueViolation)
  else
    let tag := Tag.mk (tags_id_seq db) name in
    put_db (set_tags db (tags db ++ [tag])%list (tags_id_seq db + 1)) ;;;
    ret tag.

(** [db.delete(tag)].  [Tag.event_tags] is a plain one-to-many
    relationship: the unit of work detaches the children by clearing
    their [tag_id], which is part of their primary key, and refuses. *)
Definition delete_tag_row (tag_id : Z) : Session unit :=
  db <- get_db ;;
  if existsb (fun et => EventTag.tag_id et =? tag_id) (event_tags db)
  then raise (AssertionError
                "Dependency rule tried to blank-out primary key column")
  else put_db (set_tags db
                 (filter (fun t => negb (Tag.id t =? tag_id)) (tags db))
                 (tags_id_seq db)).

(** [POST /api/v1/tags] *)
Definition create_tag (name : string) (admin : User.t) : Session Tag.t :=
  insert_tag name.

(** [DELETE /api/v1/tags/{tag_id}] *)
Definition delete_tag (tag_id : Z) (admin : User.t) : Session unit :=
  bind_integer tag_id ;;;
  db <- get_db ;;
  match get_tag db tag_id with
  | None => raise (HTTPException 404 "Tag not found")
  | Some tag => delete_tag_row tag_id
  end.

(** [POST /admin/tags] *)
Definition do_admin_tag_create (name : string) (user : option User.t)
  : Session page :=
  _require_admin user ;;;
  db <- get_db ;;
  if existsb (fun t => String.eqb (Tag.name t) name) (tags db)
  then ret (TemplateResponse "admin/tags.html" 400)
  else insert_tag name ;;; ret (RedirectResponse "/admin/tags" 302).

(** [POST /admin/tags/{tag_id}/delete] *)
Definition do_admin_tag_delete (tag_id : Z) (user : option User.t)
  : Session page :=
  _require_admin user ;;;
  bind_integer tag_id ;;;
  db <- get_db ;;
  match get_tag db tag_id with
  | Some tag => delete_tag_row tag_id
  | None => ret tt
  end ;;;
  ret (RedirectResponse "/admin/tags" 302).

(** INSERT into [organizers]: [name] is [String(255)], unique. *)
Definition insert_organizer (name : string)
           (website contact_email description : option string)
  : Session Organizer.t :=
  db <- get_db ;;
  name <- lift (not_null (as_string (Some 255%nat) (VStr name))) ;;
  website <- lift (as_string (Some 500%nat) (of_option VStr website)) ;;
  contact_email <-
    lift (as_string (Some 255%nat) (of_option VStr contact_email)) ;;
  if existsb (fun o => String.eqb (Organizer.name o) name) (organizers db)
  then raise (DBAPIError UniqueViolation)
  else
    let org := Organizer.mk (organizers_id_seq db) name website
                 contact_email description in
    put_db (set_organizers db (organizers db ++ [org])%list
              (organizers_id_seq db + 1)) ;;;
    ret org.

(** [POST /api/v1/organizers] *)
Definition create_organizer (name : string)
           (website contact_email description : option string)
           (admin : User.t) : Session Organizer.t :=
  insert_organizer name website contact_email description.

(** [x or None] for an optional string. *)
Definition or_none (x : option string) : option string :=
  match x with
  | Some s => if truthy (VStr s) then Some s else None
  | None => None
  end.

(** [POST /admin/organizers] *)
Definition do_admin_organizer_create (name : string)
           (website contact_email description : option string)
           (user : option User.t) : Session page :=
  _require_admin user ;;;
  db <- get_db ;;
  if existsb (fun o => String.eqb (Organizer.name o) name) (organizers db)
  then ret (TemplateResponse "admin/organizers.html" 400)
  else
    insert_organizer name (or_none website) (or_none contact_email)
      (or_none description) ;;;
    ret (RedirectResponse "/admin/organizers" 302).

Definition has_bookmark (db : DB) (uid eid : Z) : bool :=
  existsb (fun b => (Bookmark.user_id b =? uid) && (Bookmark.event_id b =? eid))
          (bookmarks db).

(** INSERT into [bookmarks]. *)
Definition insert_bookmark (now : datetime) (uid eid : Z) : Session unit :=
  db <- get_db ;;
  if has_bookmark db uid eid then raise (DBAPIError UniqueViolation)
  else if has_user db uid && has_event db eid
  then put_db (set_bookmarks db
                 (bookmarks db ++ [Bookmark.mk uid eid now])%list)
  else raise (DBAPIError ForeignKeyViolation).

Definition delete_bookmark (uid eid : Z) : Session unit :=
  db <- get_db ;;
  put_db (set_bookmarks db
            (filter (fun b => negb ((Bookmark.user_id b =? uid) &&
                                    (Bookmark.event_id b =? eid)))
                    (bookmarks db))).

(** [POST /api/v1/bookmarks/{event_id}] *)
Definition add_bookmark (env : Env) (event_id : Z) (current_user : User.t)
  : Session unit :=
  bind_integer event_id ;;;
  db <- get_db ;;
  match get_event_row db event_id with
  | None => raise (HTTPException 404 "Event not found")
  | Some event =>
      if has_bookmark db (User.id current_user) event_id
      then raise (HTTPException 409 "Already bookmarked")
      else insert_bookmark (db_now env) (User.id current_user) event_id
  end.

(** [DELETE /api/v1/bookmarks/{event_id}] *)
Definition remove_bookmark (event_id : Z) (current_user : User.t)
  : Session unit :=
  bind_integer event_id ;;;
  db <- get_db ;;
  if has_bookmark db (User.id current_user) event_id
  then delete_bookmark (User.id current_user) event_id
  else raise (HTTPException 404 "Bookmark not found").

(** [POST /bookmarks/{event_id}] *)
Definition page_add_bookmark (env : Env) (event_id : Z)
           (user : option User.t) : Session page :=
  match user with
  | None => ret (RedirectResponse "/login" 302)
  | Some u =>
      bind_integer event_id ;;;
      db <- get_db ;;
      (if has_bookmark db (User.id u) event_id then ret tt
       else insert_bookmark (db_now env) (User.id u) event_id) ;;;
      ret (RedirectResponse ("/event/" ++ str_of_Z event_id) 302)
  end.

(** [POST /bookmarks/{event_id}/remove] *)
Definition page_remove_bookmark (event_id : Z) (referer : option string)
           (user : option User.t) : Session page :=
  match user with
  | None => ret (RedirectResponse "/login" 302)
  | Some u =>
      bind_integer event_id ;;;
      db <- get_db ;;
      (if has_bookmark db (User.id u) event_id
       then delete_bookmark (User.id u) event_id
       else ret tt) ;;;
      ret (RedirectResponse
             (match referer with Some r => r | None => "/bookmarks" end) 302)
  end.

(** [POST /register] *)
Definition do_register (env : Env) (email password : string)
  : Session page :=
  db <- get_db ;;
  if existsb (fun u => String.eqb (User.email u) email) (users db)
  then ret (TemplateResponse "register.html" 400)
  else
    if Nat.leb (String.length email) 255 &&
       Nat.leb (String.length (bcrypt_salted env password)) 255
    then
      put_db (set_users db
                (users db ++
                 [User.mk (users_id_seq db) email
                    (bcrypt_salted env password) "user" (db_now env)])%list
                (users_id_seq db + 1)) ;;;
      ret (RedirectResponse "/" 302)
    else raise (DBAPIError DataError).

(* ---------------------------------------------------------------- *)
(** *** The two update routes, behind their dependencies *)

(** [PATCH /api/v1/event/{event_id}] with a bearer token. *)
Definition patch_event (env : Env) (db : DB) (token : option string)
           (event_id : Z) (payload : EventUpdate.t) : DB * result Event.t :=
  depends_require_admin (update_event env event_id payload) db token.

(** [POST /admin/events/{event_id}/edit] with the session cookie. *)
Definition post_admin_event_edit (env : Env) (db : DB)
           (cookie : option string) (event_id : Z)
           (title : string) (organizer_id : Z) (date_start : datetime)
           (date_end registration_deadline : option datetime)
           (price : Decimal) (city_id : option Z)
           (location_address website_url description : option string)
           (is_online : option string) (tag_ids : list Z)
           (image : option UploadFile) : DB * result page :=
  depends_cookie_user
    (do_admin_event_edit env event_id title organizer_id date_start date_end
       registration_deadline price city_id location_address website_url
       description is_online tag_ids image)
    db cookie.

(* ---------------------------------------------------------------- *)
(** *** Every state-changing request of the application *)

Inductive mutation :=
| CreateEvent (title : string) (organizer_id : Z) (date_start : datetime)
    (price : Decimal) (city_id : option Z)
    (description website_url : option string)
    (date_end registration_deadline : option datetime)
    (location_address : option string) (is_online : bool)
    (tag_ids : option string) (image : option UploadFile)
| UpdateEvent (event_id : Z) (payload : EventUpdate.t)
| DeleteEvent (event_id : Z)
| CreateTag (name : string)
| DeleteTag (tag_id : Z)
| CreateOrganizer (name : string)
    (website contact_email description : option string)
| AddBookmark (event_id : Z)
| RemoveBookmark (event_id : Z)
| PageEventCreate (title : string) (organizer_id : Z) (date_start : datetime)
    (date_end registration_deadline : option datetime)
    (price : Decimal) (city_id : option Z)
    (location_address website_url description : option string)
    (is_online : option string) (tag_ids : list Z)
    (image : option UploadFile)
| PageEventEdit (event_id : Z)
    (title : string) (organizer_id : Z) (date_start : datetime)
    (date_end registration_deadline : option datetime)
    (price : Decimal) (city_id : option Z)
    (location_address website_url description : option string)
    (is_online : option string) (tag_ids : list Z)
    (image : option UploadFile)
| PageEventDelete (event_id : Z)
| PageTagCreate (name : string)
| PageTagDelete (tag_id : Z)
| PageOrganizerCreate (name : string)
    (website contact_email description : option string)
| PageAddBookmark (event_id : Z)
| PageRemoveBookmark (event_id : Z) (referer : option string)
| Register (email password : string).

(** Whether the request comes back with a result or with an exception. *)
Definition outcome {A} (r : DB * result A) : DB * result unit :=
  match r with
  | (db, Return _) => (db, Return tt)
  | (db, Raise e) => (db, Raise e)
  end.

(** The routes: each handler behind the dependencies its signature
    declares.  API routes read the bearer token, pages the cookie. *)
Definition handle (env : Env) (db : DB) (token cookie : option string)
           (m : mutation) : DB * result unit :=
  match m with
  | CreateEvent t o ds p c d w de rd la io tg img =>
      outcome (depends_require_admin
                 (create_event env t o ds p c d w de rd la io tg img) db token)
  | UpdateEvent eid payload =>
      outcome (patch_event env db token eid payload)
  | DeleteEvent eid =>
      outcome (depends_require_admin (delete_event eid) db token)
  | CreateTag n => outcome (depends_require_admin (create_tag n) db token)
  | DeleteTag tid => outcome (depends_require_admin (delete_tag tid) db token)
  | CreateOrganizer n w c d =>
      outcome (depends_require_admin (create_organizer n w c d) db token)
  | AddBookmark eid =>
      outcome (depends_current_user (add_bookmark env eid) db token)
  | RemoveBookmark eid =>
      outcome (depends_current_user (remove_bookmark eid) db token)
  | PageEventCreate t o ds de rd p c la w d io tg img =>
      outcome (depends_cookie_user
                 (do_admin_event_create env t o ds de rd p c la w d io tg img)
                 db cookie)
  | PageEventEdit eid t o ds de rd p c la w d io tg img =>
      outcome (post_admin_event_edit env db cookie eid t o ds de rd p c la w
                 d io tg img)
  | PageEventDelete eid =>
      outcome (depends_cookie_user (do_admin_event_delete eid) db cookie)
  | PageTagCreate n =>
      outcome (depends_cookie_user (do_admin_tag_create n) db cookie)
  | PageTagDelete tid =>
      outcome (depends_cookie_user (do_admin_tag_delete tid) db cookie)
  | PageOrganizerCreate n w c d =>
      outcome (depends_cookie_user (do_admin_organizer_create n w c d)
                 db cookie)
  | PageAddBookmark eid =>
      outcome (depends_cookie_user (page_add_bookmark env eid) db cookie)
  | PageRemoveBookmark eid ref =>
      outcome (depends_cookie_user (page_remove_bookmark eid ref) db cookie)
  | Register email password =>
      outcome (run_request (do_register env email password) db)
  end.

(** The admin-only mutations. *)
Definition admin_only (m : mutation) : bool :=
  match m with
  | AddBookmark _ | RemoveBookmark _ | PageAddBookmark _
  | PageRemoveBookmark _ _ | Register _ _ => false
  | _ => true
  end.

(** The surface a mutation is served on. *)
Definition on_api (m : mutation) : bool :=
  match m with
  | CreateEvent _ _ _ _ _ _ _ _ _ _ _ _ _ | UpdateEvent _ _ | DeleteEvent _
  | CreateTag _ | DeleteTag _ | CreateOrganizer _ _ _ _
  | AddBookmark _ | RemoveBookmark _ => true
  | _ => false
  end.

(** The event an update request is aimed at. *)
Definition updated_event (m : mutation) : option Z :=
  match m with
  | UpdateEvent eid _ => Some eid
  | PageEventEdit eid _ _ _ _ _ _ _ _ _ _ _ _ _ => Some eid
  | _ => None
  end.

(** The ways a request can leave the [events] table: untouched, one new
    row with no update timestamp, the rows of one id removed, or the row
    of the event an update request names rewritten with a timestamp. *)
Definition events_effect (env : Env) (db db' : DB) (m : mutation)
           (res : result unit) : Prop :=
  events db' = events db \/
  (exists r, events db' = (events db ++ [r])%list /\
             Event.updated_at r = None) \/
  (exists eid,
      events db' = filter (fun e => negb (Event.id e =? eid)) (events db)) \/
  (exists eid r,
      updated_event m = Some eid /\ res = Return tt /\
      has_event db eid = true /\
      events db' = replace_event r (events db) /\
      Event.id r = eid /\ Event.updated_at r = Some (utcnow env)).


(* ================================================================== *)
(** ** Further handlers and helpers of the same files *)
(* ================================================================== *)

(** *** Column bounds of a stored event ([src/models/event.py]) *)

Definition fits (max_len : nat) (o : option string) : bool :=
  match o with
  | Some s => Nat.leb (String.length s) max_len
  | None => true
  end.

(** The column types, which every row of the table obeys: [String(100)],
    [String(500)], [String(255)], [Numeric(10, 2)] and [Integer]. *)
Definition row_in_bounds (r : Event.t) : bool :=
  Nat.leb (String.length (Event.title r)) 100 &&
  fits 500 (Event.image_url r) && fits 500 (Event.website_url r) &&
  fits 255 (Event.location_address r) &&
  (Z.abs (Event.price r) <? 10 ^ 10) &&
  in_int32 (Event.id r) && in_int32 (Event.organizer_id r) &&
  match Event.city_id r with
  | Some c => in_int32 c
  | None => true
  end.

(** A stored row with only its update timestamp changed. *)
Definition touched (now : datetime) (r : Event.t) : Event.t :=
  Event.mk (Event.id r) (Event.title r) (Event.organizer_id r)
    (Event.date_start r) (Event.description r) (Event.image_url r)
    (Event.website_url r) (Event.price r) (Event.date_end r)
    (Event.registration_deadline r) (Event.city_id r)
    (Event.location_address r) (Event.is_online r) (Event.created_at r)
    (Some now).

(** What a column reads back for a value written to it: an aware
    [datetime] a TIMESTAMP column took comes back naive. *)
Definition without_tzinfo (v : value) : value :=
  match v with
  | VDatetimeTz t => VDatetime t
  | _ => v
  end.

(** The columns the handlers never assign. *)
Definition kept_column (c : column) : bool :=
  match c with
  | col_id | col_created_at => true
  | _ => false
  end.

(* ---------------------------------------------------------------- *)
(** *** [get_current_user_optional] ([src/core/auth.py]) *)

(** [token] is what [oauth2_scheme_optional] extracts; every exception
    inside the [try] is answered with [None]. *)
Definition get_current_user_optional (db : DB) (token : option string)
  : option User.t :=
  match token with
  | None => None
  | Some tok =>
      if negb (truthy (VStr tok)) then None
      else
        match jwt_decode tok with
        | None => None
        | Some payload =>
            match sub payload with
            | None => None
            | Some s =>
                match int_of_str s with
                | None => None
                | Some user_id => get_user db user_id
                end
            end
        end
  end.

(** The subject of a token, read as a number, is an id within INTEGER:
    every token the application issues carries the id of a stored user. *)
Definition subject_in_range (token : option string) : Prop :=
  forall tok payload s uid,
    token = Some tok -> jwt_decode tok = Some payload ->
    sub payload = Some s -> int_of_str s = Some uid ->
    in_int32 uid = true.

(* ---------------------------------------------------------------- *)
(** *** The audit log listings *)

(** [order_by(EventAuditLog.change_date.desc())] *)
Definition newest_first (a b : EventAuditLog.t) : bool :=
  datetime_leb (EventAuditLog.change_date b) (EventAuditLog.change_date a).

(** [GET /api/v1/audit] ([src/routers/audit_route.py]); the filter is
    applied under [if event_id:]. *)
Definition view_audit_log (event_id : option Z) (admin : User.t)
  : Session (list EventAuditLog.t) :=
  match if_truthy event_id with
  | Some e => bind_integer e
  | None => ret tt
  end ;;;
  db <- get_db ;;
  ret (order_by newest_first
         (filter (fun a =>
                    match if_truthy event_id with
                    | Some e => EventAuditLog.event_id a =? e
                    | None => true
                    end)
                 (event_audit_log db))).

(** [GET /admin/audit]: [.order_by(change_date.desc()).limit(200)]. *)
Definition page_admin_audit (user : option User.t)
  : Session (list EventAuditLog.t) :=
  _require_admin user ;;;
  db <- get_db ;;
  ret (firstn 200 (order_by newest_first (event_audit_log db))).

(* ---------------------------------------------------------------- *)
(** *** Bookmark listing ([src/routers/bookmark_route.py]) *)

(** [GET /api/v1/bookmarks]: the rows of the caller; the query has no
    ORDER BY. *)
Definition view_bookmarks (current_user : User.t)
  : Session (list Bookmark.t) :=
  db <- get_db ;;
  ret (filter (fun b => Bookmark.user_id b =? User.id current_user)
              (bookmarks db)).

(** The bookmarks of one user, as stored. *)
Definition bookmarks_of (db : DB) (uid : Z) : list Bookmark.t :=
  filter (fun b => Bookmark.user_id b =? uid) (bookmarks db).

Definition bookmark_key (b : Bookmark.t) : Z * Z :=
  (Bookmark.user_id b, Bookmark.event_id b).

(* ---------------------------------------------------------------- *)
(** *** The bootstrap script ([src/create_admin.py]) *)

(** INSERT into [users]: [email] and [password_hash] are [String(255)],
    [role] is [String(20)], [email] is unique. *)
Definition insert_user (now : datetime) (email password_hash role : string)
  : Session User.t :=
  db <- get_db ;;
  if Nat.leb (String.length email) 255 &&
     Nat.leb (String.length password_hash) 255 &&
     Nat.leb (String.length role) 20
  then
    if existsb (fun u => String.eqb (User.email u) email) (users db)
    then raise (DBAPIError UniqueViolation)
    else
      let user := User.mk (users_id_seq db) email password_hash role now in
      put_db (set_users db (users db ++ [user])%list (users_id_seq db + 1)) ;;;
      ret user
  else raise (DBAPIError DataError).

(** [create_first_admin()]: the account is looked up by its email, which
    is unique, and created only when the lookup finds nothing. *)
Definition create_first_admin (env : Env) : Session unit :=
  let email := "admin@admin.com" in
  let password := "admin_password" in
  db <- get_db ;;
  match find (fun u => String.eqb (User.email u) email) (users db) with
  | Some _ => ret tt
  | None =>
      insert_user (db_now env) email (bcrypt_salted env password) "admin" ;;;
      ret tt
  end.

(* ---------------------------------------------------------------- *)
(** *** Logging in ([src/routers/frontend_route.py], [src/core/auth.py]) *)

(** [create_access_token({"sub": str(user.id), "role": user.role})] *)
Definition create_access_token (svc : Services) (user : User.t) : string :=
  jwt_encode svc
    (mkClaims (Some (str_of_Z (User.id user))) (Some (User.role user))).

(** [POST /login]: the page answered and the token put in the cookie. *)
Definition do_login (svc : Services) (db : DB) (email password : string)
  : result (page * option string) :=
  let invalid := (TemplateResponse "login.html" 400, None) in
  match find (fun u => String.eqb (User.email u) email) (users db) with
  | None => Return invalid
  | Some user =>
      match checkpw svc password (User.password_hash user) with
      | None => Raise (ValueError "Invalid salt")
      | Some true =>
          Return (RedirectResponse "/" 302,
                  Some (create_access_token svc user))
      | Some false => Return invalid
      end
  end.

(* ---------------------------------------------------------------- *)
(** *** Display URLs of stored images ([make_presigned_url], [_presign]) *)

(** [s.lstrip("/")] and [s.rstrip("/")] *)
Fixpoint lstrip_slash (s : string) : string :=
  match s with
  | String c r => if Ascii.eqb c "/" then lstrip_slash r else s
  | EmptyString => EmptyString
  end.

Fixpoint rstrip_slash (s : string) : string :=
  match s with
  | EmptyString => EmptyString
  | String c r =>
      match rstrip_slash r with
      | EmptyString =>
          if Ascii.eqb c "/" then EmptyString else String c EmptyString
      | r' => String c r'
      end
  end.

(** The part of both functions before the S3 call: [None] from [inr]
    means the caller goes on to sign the key. *)
Definition presign_locally (svc : Services) (key : option string)
  : option string + string :=
  match key with
  | None => inl None
  | Some k =>
      if negb (truthy (VStr k)) then inl None
      else if String.prefix "http" k then inl (Some k)
      else if truthy (VStr (S3_PUBLIC_BASE svc))
      then inl (Some (rstrip_slash (S3_PUBLIC_BASE svc) ++ "/"
                      ++ lstrip_slash k))
      else inr k
  end.

(** [make_presigned_url(key)] of the API: the key itself when signing
    fails. *)
Definition make_presigned_url (svc : Services) (key : option string)
  : option string :=
  match presign_locally svc key with
  | inl answer => answer
  | inr k =>
      match generate_presigned_url svc (lstrip_slash k) with
      | Some url => Some url
      | None => Some k
      end
  end.

(** [_presign(key)] of the pages: nothing when signing fails. *)
Definition _presign (svc : Services) (key : option string)
  : option string :=
  match presign_locally svc key with
  | inl answer => answer
  | inr k => generate_presigned_url svc (lstrip_slash k)
  end.

(* ---------------------------------------------------------------- *)
(** *** Names for statements about requests *)

(** The event a bookmark request names. *)
Definition bookmark_mutation (m : mutation) : option Z :=
  match m with
  | AddBookmark e | RemoveBookmark e | PageAddBookmark e
  | PageRemoveBookmark e _ => Some e
  | _ => None
  end.

(** The user a request acts as: the bearer of the token on the API, the
    holder of the cookie on the pages. *)
Definition acting_user (db : DB) (token cookie : option string)
           (m : mutation) : option User.t :=
  if on_api m
  then match get_current_user db token with
       | Return u => Some u
       | Raise _ => None
       end
  else get_current_user_cookie db cookie.

(** Strings written in ASCII, the range on which [Py.isdigit] and
    [Py.strip] are those of Python. *)
Fixpoint is_ascii_str (s : string) : bool :=
  match s with
  | EmptyString => true
  | String c r => Nat.ltb (nat_of_ascii c) 128 && is_ascii_str r
  end.

(* ---------------------------------------------------------------- *)
(** *** The parts of [create_event] ([src/routers/event_route.py]) *)

(** Whether the image block lets the request through: no image, or one
    of an allowed type whose upload succeeds. *)
Definition image_accepted (env : Env) (image : option UploadFile) : bool :=
  match image with
  | None => true
  | Some img =>
      match ALLOWED (content_type img) with
      | Some _ => s3_upload_ok env
      | None => false
      end
  end.

(** The [Event(...)] the handler adds once the image block has run. *)
Definition created_instance (env : Env)
           (title : string) (organizer_id : Z) (date_start : datetime)
           (price : Decimal) (city_id : option Z)
           (description website_url : option string)
           (date_end registration_deadline : option datetime)
           (location_address : option string) (is_online : bool)
           (image : option UploadFile) : instance :=
  let event := new_event title organizer_id date_start price city_id
                 description website_url date_end registration_deadline
                 location_address is_online in
  match image with
  | Some img =>
      match ALLOWED (content_type img) with
      | Some ext =>
          setattr event col_image_url
            (VStr ("uploads/" ++ uuid4 env ++ "." ++ ext))
      | None => event
      end
  | None => event
  end.

(** The ids taken from the form field [tag_ids] ([if tag_ids:]). *)
Definition form_tag_ids (tag_ids : option string) : list Z :=
  match tag_ids with
  | Some s => if truthy (VStr s) then parsed_ids s else []
  | None => []
  end.

(** The database once a new row [r] and its associations with the tags
    [ids] are inserted. *)
Definition with_new_event (db : DB) (r : Event.t) (ids : list Z) : DB :=
  let db1 := set_events db (events db ++ [r])%list (events_id_seq db + 1) in
  set_event_tags db1
    (event_tags db1 ++ map (EventTag.mk (Event.id r)) ids)%list.

(* ---------------------------------------------------------------- *)
(** *** The instance of [do_admin_event_create] *)

(** The [Event(...)] the page handler adds for a form with a file part:
    the key is assigned only when the file has contents and the upload
    succeeds. *)
Definition page_created_instance (env : Env)
           (title : string) (organizer_id : Z) (date_start : datetime)
           (date_end registration_deadline : option datetime)
           (price : Decimal) (city_id : option Z)
           (location_address website_url description : option string)
           (is_online : option string) (img : UploadFile) (ext : string)
  : instance :=
  let event :=
    new_event title organizer_id date_start price (if_truthy city_id)
      description website_url date_end registration_deadline
      location_address (eq_str (of_option VStr is_online) "true") in
  if truthy (VStr (contents img)) && s3_upload_ok env
  then setattr event col_image_url
         (VStr ("uploads/" ++ uuid4 env ++ "." ++ ext))
  else event.

(* ================================================================== *)
(** ** Basic facts about columns, instances and the tables *)
(* ================================================================== *)

Lemma column_name_inj (a b : column) : column_name a = column_name b -> a = b.
Proof. destruct a, b; simpl; intros H; try reflexivity; discriminate H. Qed.

Lemma column_eqb_eq (a b : column) : column_eqb a b = true <-> a = b.
Proof.
  unfold column_eqb. rewrite String.eqb_eq. split.
  - apply column_name_inj.
  - intros ->. reflexivity.
Qed.

Lemma column_eqb_refl (a : column) : column_eqb a a = true.
Proof. apply column_eqb_eq. reflexivity. Qed.

Lemma column_eqb_neq (a b : column) : a <> b -> column_eqb a b = false.
Proof.
  intros H. destruct (column_eqb a b) eqn:E; [|reflexivity].
  apply column_eqb_eq in E. contradiction.
Qed.

Lemma getattr_setattr_same (ev : instance) c v : getattr (setattr ev c v) c = v.
Proof. unfold getattr, setattr. now rewrite column_eqb_refl. Qed.

Lemma getattr_setattr_other (ev : instance) c c' v :
  c' <> c -> getattr (setattr ev c v) c' = getattr ev c'.
Proof. intros H. unfold getattr, setattr. now rewrite column_eqb_neq. Qed.

Lemma column_name_short (c : column) :
  Nat.leb (String.length (column_name c)) 50 = true.
Proof. destruct c; reflexivity. Qed.

(** *** The diff loop as a filter *)

Lemma audit_step_items event_id changed_by ev acc item :
  audit_step event_id changed_by (ev, acc) item =
  (item_assign ev item,
   if item_differs ev item
   then (acc ++ [item_entry event_id changed_by ev item])%list
   else acc).
Proof. destruct item as [c v]. reflexivity. Qed.

Lemma audit_loop_fold event_id changed_by :
  forall (l : list (column * value)) (ev : instance) acc,
    NoDup (map fst l) ->
    fold_left (audit_step event_id changed_by) l (ev, acc) =
    (fold_left item_assign l ev,
     (acc ++ map (item_entry event_id changed_by ev)
                 (filter (item_differs ev) l))%list).
Proof.
  induction l as [|item l IH]; intros ev acc Hnd; cbn [fold_left fst map].
  - simpl. now rewrite app_nil_r.
  - inversion Hnd as [|? ? Hnotin Hnd']; subst.
    rewrite audit_step_items, IH by assumption.
    assert (Hsame : forall it, In it l ->
              getattr (item_assign ev item) (fst it) = getattr ev (fst it)).
    { intros it Hin. unfold item_assign. apply getattr_setattr_other.
      intros Heq. apply Hnotin. rewrite <- Heq. now apply in_map. }
    assert (Hfilter : filter (item_differs (item_assign ev item)) l =
                      filter (item_differs ev) l).
    { apply filter_ext_in. intros it Hin. unfold item_differs.
      now rewrite Hsame. }
    assert (Hmap : map (item_entry event_id changed_by (item_assign ev item))
                       (filter (item_differs ev) l) =
                   map (item_entry event_id changed_by ev)
                       (filter (item_differs ev) l)).
    { apply map_ext_in. intros it Hin. apply filter_In in Hin.
      unfold item_entry. now rewrite Hsame by apply Hin. }
    rewrite Hfilter, Hmap. f_equal. cbn [filter].
    destruct (item_differs ev item); simpl.
    + now rewrite <- app_assoc.
    + reflexivity.
Qed.

Lemma audit_loop_records event_id changed_by l ev :
  NoDup (map fst l) ->
  snd (audit_loop event_id changed_by l ev) =
  map (item_entry event_id changed_by ev) (filter (item_differs ev) l).
Proof.
  intros H. unfold audit_loop. now rewrite audit_loop_fold.
Qed.


(** *** [model_dump] lists the supplied fields in declaration order *)

Lemma dump_field_supplied {A} c (inj : A -> value) f :
  EventUpdate.dump_field c inj f =
  match EventUpdate.field_value inj f with
  | Some v => [(c, v)]
  | None => []
  end.
Proof. destruct f; reflexivity. Qed.

Lemma model_dump_supplied_items (p : EventUpdate.t) :
  EventUpdate.model_dump_exclude_unset p = EventUpdate.supplied_items p.
Proof.
  unfold EventUpdate.model_dump_exclude_unset, EventUpdate.supplied_items,
    EventUpdate.declared_columns.
  rewrite !dump_field_supplied. simpl. now rewrite app_nil_r.
Qed.

Lemma supplied_items_In (p : EventUpdate.t) c v :
  In (c, v) (EventUpdate.supplied_items p) <->
  EventUpdate.supplied p c = Some v.
Proof.
  unfold EventUpdate.supplied_items. rewrite in_flat_map. split.
  - intros [c' [_ Hin]]. destruct (EventUpdate.supplied p c') eqn:E.
    + destruct Hin as [Heq|[]]. inversion Heq; subst. exact E.
    + destruct Hin.
  - intros H. exists c. split.
    + destruct c; simpl in H; try discriminate H;
        unfold EventUpdate.declared_columns; simpl; tauto.
    + rewrite H. now left.
Qed.

Lemma supplied_items_keys (p : EventUpdate.t) :
  map fst (EventUpdate.supplied_items p) =
  filter (fun c => match EventUpdate.supplied p c with
                   | Some _ => true
                   | None => false
                   end)
         EventUpdate.declared_columns.
Proof.
  unfold EventUpdate.supplied_items.
  induction EventUpdate.declared_columns as [|c l IH]; simpl.
  - reflexivity.
  - rewrite map_app, IH. destruct (EventUpdate.supplied p c); reflexivity.
Qed.

Lemma declared_columns_NoDup : NoDup EventUpdate.declared_columns.
Proof.
  unfold EventUpdate.declared_columns.
  repeat (constructor;
          [simpl; intros H;
           repeat (destruct H as [H|H]; [discriminate H|]); exact H|]).
  constructor.
Qed.

Lemma NoDup_filter {A} (f : A -> bool) (l : list A) :
  NoDup l -> NoDup (filter f l).
Proof.
  induction 1 as [|x l Hx Hnd IH]; simpl.
  - constructor.
  - destruct (f x); [|assumption].
    constructor; [|assumption]. intros Hin. apply filter_In in Hin. tauto.
Qed.

Lemma model_dump_NoDup (p : EventUpdate.t) :
  NoDup (map fst (EventUpdate.model_dump_exclude_unset p)).
Proof.
  rewrite model_dump_supplied_items, supplied_items_keys.
  apply NoDup_filter, declared_columns_NoDup.
Qed.

(* ================================================================== *)
(** ** Statements inside a session *)
(* ================================================================== *)

Lemma bind_Return {A B} (m : Session A) (k : A -> Session B) db b db' :
  bind m k db = Return (b, db') ->
  exists a db1, m db = Return (a, db1) /\ k a db1 = Return (b, db').
Proof.
  unfold bind. destruct (m db) as [[a db1]|e]; intros H.
  - exists a, db1. split; [reflexivity|assumption].
  - discriminate H.
Qed.

Lemma bind_Raise {A B} (m : Session A) (k : A -> Session B) db e :
  m db = Raise e -> bind m k db = Raise e.
Proof. unfold bind. intros ->. reflexivity. Qed.

Lemma bind_step {A B} (m : Session A) (k : A -> Session B) db a db1 :
  m db = Return (a, db1) -> bind m k db = k a db1.
Proof. unfold bind. intros ->. reflexivity. Qed.

Ltac session_unfold :=
  unfold bind, get_db, put_db, ret, raise, lift in *.

Lemma bind_integer_ok z db :
  in_int32 z = true -> bind_integer z db = Return (tt, db).
Proof. unfold bind_integer. now intros ->. Qed.

Lemma bind_integer_Raise z db :
  in_int32 z = false -> bind_integer z db = Raise (DBAPIError DataError).
Proof. unfold bind_integer. now intros ->. Qed.

Lemma bind_integer_Return z db u db' :
  bind_integer z db = Return (u, db') -> in_int32 z = true /\ db' = db.
Proof.
  unfold bind_integer. destruct (in_int32 z); [|discriminate].
  unfold ret. intros H. inversion H. auto.
Qed.

Lemma find_filter_gone (l : list Event.t) eid :
  find (fun e => Event.id e =? eid)
       (filter (fun e => negb (Event.id e =? eid)) l) = None.
Proof.
  induction l as [|e l IH]; simpl; [reflexivity|].
  destruct (Event.id e =? eid) eqn:E; simpl; [exact IH|].
  now rewrite E.
Qed.

Lemma find_filter_keep (l : list Event.t) eid gone :
  eid <> gone ->
  find (fun e => Event.id e =? eid)
       (filter (fun e => negb (Event.id e =? gone)) l) =
  find (fun e => Event.id e =? eid) l.
Proof.
  intros Hne. induction l as [|e l IH]; simpl; [reflexivity|].
  destruct (Event.id e =? gone) eqn:E; simpl.
  - apply Z.eqb_eq in E.
    destruct (Event.id e =? eid) eqn:E2; [|exact IH].
    apply Z.eqb_eq in E2. congruence.
  - now rewrite IH.
Qed.

Lemma find_app {A} (f : A -> bool) l1 l2 :
  find f (l1 ++ l2) =
  match find f l1 with Some x => Some x | None => find f l2 end.
Proof.
  induction l1 as [|y l1 IH]; simpl; [reflexivity|].
  destruct (f y); [reflexivity|exact IH].
Qed.

Lemma existsb_find_id (l : list Event.t) eid :
  existsb (fun e => Event.id e =? eid) l =
  match find (fun e => Event.id e =? eid) l with
  | Some _ => true
  | None => false
  end.
Proof.
  induction l as [|e l IH]; simpl; [reflexivity|].
  destruct (Event.id e =? eid); [reflexivity|exact IH].
Qed.

(** The row of [r]'s id is [r] after the UPDATE, and the other rows are
    the same. *)
Lemma find_replace_event (l : list Event.t) r eid :
  find (fun e => Event.id e =? eid) (replace_event r l) =
  if Event.id r =? eid
  then match find (fun e => Event.id e =? eid) l with
       | Some _ => Some r
       | None => None
       end
  else find (fun e => Event.id e =? eid) l.
Proof.
  unfold replace_event. rewrite existsb_find_id.
  destruct (Event.id r =? eid) eqn:E.
  - apply Z.eqb_eq in E. subst eid.
    destruct (find (fun e => Event.id e =? Event.id r) l) eqn:F.
    + rewrite find_app, find_filter_gone. simpl. now rewrite Z.eqb_refl.
    + exact F.
  - apply Z.eqb_neq in E.
    destruct (find (fun e => Event.id e =? Event.id r) l) eqn:F;
      [|reflexivity].
    rewrite find_app, find_filter_keep by congruence.
    destruct (find (fun e => Event.id e =? eid) l); [reflexivity|].
    simpl. destruct (Event.id r =? eid) eqn:E'; [|reflexivity].
    apply Z.eqb_eq in E'. contradiction.
Qed.

Lemma has_event_replace_event db r next eid :
  has_event (set_events db (replace_event r (events db)) next) eid =
  has_event db eid.
Proof.
  unfold has_event. simpl. rewrite !existsb_find_id, find_replace_event.
  destruct (Event.id r =? eid);
    destruct (find (fun e => Event.id e =? eid) (events db)); reflexivity.
Qed.

Lemma get_event_row_has_event db eid row :
  get_event_row db eid = Some row -> has_event db eid = true.
Proof.
  unfold get_event_row, has_event. intros H.
  apply find_some in H. apply existsb_exists. exists row. exact H.
Qed.

Lemma get_event_row_id db eid row :
  get_event_row db eid = Some row -> Event.id row = eid.
Proof.
  unfold get_event_row. intros H. apply find_some in H.
  now apply Z.eqb_eq.
Qed.

Lemma get_user_has_user db uid u :
  get_user db uid = Some u -> has_user db (User.id u) = true.
Proof.
  unfold get_user, has_user. intros H. apply find_some in H.
  apply existsb_exists. exists u. split; [apply H|apply Z.eqb_refl].
Qed.

Lemma to_row_Return {aw} i created ev r :
  to_row aw i created ev = Return r ->
  Event.id r = i /\
  as_timestamp aw (ev col_updated_at) = Return (Event.updated_at r).
Proof.
  unfold to_row, rbind. intros H.
  repeat match type of H with
         | context [match ?x with Return _ => _ | Raise _ => _ end] =>
             destruct x eqn:?; [|discriminate H]
         end.
  inversion H; subst. simpl. split; [reflexivity|congruence].
Qed.

(** *** UPDATE of the event row *)

Lemma flush_update_Return {aw} row ev db r db' :
  flush_update aw row ev db = Return (r, db') ->
  to_row aw (Event.id row) (Event.created_at row) ev = Return r /\
  event_fk_ok db r = true /\
  db' = set_events db (replace_event r (events db)) (events_id_seq db).
Proof.
  unfold flush_update. session_unfold.
  destruct (to_row aw (Event.id row) (Event.created_at row) ev) as [r0|e];
    [|discriminate].
  destruct (event_fk_ok db r0) eqn:Hfk; [|discriminate].
  intros H. inversion H; subst. auto.
Qed.

Lemma flush_update_ok {aw} row ev db r :
  to_row aw (Event.id row) (Event.created_at row) ev = Return r ->
  event_fk_ok db r = true ->
  flush_update aw row ev db =
  Return (r, set_events db (replace_event r (events db)) (events_id_seq db)).
Proof.
  intros Hrow Hfk. unfold flush_update. session_unfold.
  now rewrite Hrow, Hfk.
Qed.

(** *** INSERT of audit rows *)

Lemma insert_audit_logs_Return now :
  forall l db db',
    insert_audit_logs now l db = Return (tt, db') ->
    db' = set_event_audit_log db
            (event_audit_log db ++ numbered (event_audit_log_id_seq db) now l)
            (event_audit_log_id_seq db + Z.of_nat (List.length l)).
Proof.
  induction l as [|p l IH]; intros db db' H; simpl in H.
  - session_unfold. inversion H; subst. destruct db'; simpl.
    unfold set_event_audit_log; simpl. rewrite app_nil_r, Z.add_0_r.
    reflexivity.
  - apply bind_Return in H. destruct H as [[] [db1 [H1 H2]]].
    apply IH in H2. subst db'.
    unfold insert_audit_log in H1. session_unfold.
    destruct (has_event db (EventAuditLog.p_event_id p) &&
              match EventAuditLog.p_changed_by p with
              | Some u => has_user db u
              | None => true
              end); [|discriminate].
    destruct (Nat.leb (String.length (EventAuditLog.p_changed_column p)) 50);
      [|discriminate].
    inversion H1; subst. unfold set_event_audit_log; simpl.
    rewrite <- app_assoc. simpl. f_equal. lia.
Qed.

Lemma insert_audit_logs_ok now eid uid :
  forall l db,
    has_event db eid = true -> has_user db uid = true ->
    Forall (fun p => EventAuditLog.p_event_id p = eid /\
                     EventAuditLog.p_changed_by p = Some uid /\
                     Nat.leb (String.length (EventAuditLog.p_changed_column p))
                             50 = true) l ->
    insert_audit_logs now l db =
    Return (tt, set_event_audit_log db
                  (event_audit_log db ++
                   numbered (event_audit_log_id_seq db) now l)
                  (event_audit_log_id_seq db + Z.of_nat (List.length l))).
Proof.
  induction l as [|p l IH]; intros db He Hu Hall; simpl.
  - unfold ret. destruct db; unfold set_event_audit_log; simpl.
    now rewrite app_nil_r, Z.add_0_r.
  - inversion Hall as [|? ? [Hp1 [Hp2 Hp3]] Hall']; subst.
    unfold insert_audit_log at 1. session_unfold.
    rewrite Hp2, He, Hu, Hp3. simpl.
    rewrite IH by assumption.
    unfold set_event_audit_log; simpl. rewrite <- app_assoc. simpl.
    do 3 f_equal. lia.
Qed.

(** *** INSERT and DELETE of association rows *)

Lemma EventTag_eqb_eq (a b : EventTag.t) : EventTag.eqb a b = true <-> a = b.
Proof.
  unfold EventTag.eqb. rewrite andb_true_iff, !Z.eqb_eq.
  destruct a, b; simpl. split.
  - intros [-> ->]. reflexivity.
  - intros H. inversion H. auto.
Qed.

Lemma EventTag_eqb_neq (a b : EventTag.t) : a <> b -> EventTag.eqb a b = false.
Proof.
  intros H. destruct (EventTag.eqb a b) eqn:E; [|reflexivity].
  apply EventTag_eqb_eq in E. contradiction.
Qed.

Lemma set_event_tags_same db : set_event_tags db (event_tags db) = db.
Proof. destruct db; reflexivity. Qed.

(** One INSERT, case by case. *)
Lemma insert_event_tag_eq et db :
  insert_event_tag et db =
  if in_int32 (EventTag.event_id et) && in_int32 (EventTag.tag_id et)
  then if has_event_tag db et then Raise (DBAPIError UniqueViolation)
       else if has_event db (EventTag.event_id et) &&
               has_tag db (EventTag.tag_id et)
            then Return (tt, set_event_tags db (event_tags db ++ [et]))
            else Raise (DBAPIError ForeignKeyViolation)
  else Raise (DBAPIError DataError).
Proof.
  unfold insert_event_tag, bind_integer. session_unfold.
  destruct (in_int32 (EventTag.event_id et)); [|reflexivity].
  destruct (in_int32 (EventTag.tag_id et)); [|reflexivity].
  simpl. destruct (has_event_tag db et); [reflexivity|].
  destruct (has_event db (EventTag.event_id et) &&
            has_tag db (EventTag.tag_id et)); reflexivity.
Qed.

Lemma insert_event_tag_Return et db db' :
  insert_event_tag et db = Return (tt, db') ->
  has_event_tag db et = false /\
  db' = set_event_tags db (event_tags db ++ [et]).
Proof.
  rewrite insert_event_tag_eq.
  destruct (in_int32 (EventTag.event_id et) && in_int32 (EventTag.tag_id et));
    [|discriminate].
  destruct (has_event_tag db et); [discriminate|].
  destruct (has_event db (EventTag.event_id et) &&
            has_tag db (EventTag.tag_id et)); [|discriminate].
  intros H. inversion H. auto.
Qed.

Lemma insert_event_tags_Return :
  forall l db db',
    insert_event_tags l db = Return (tt, db') ->
    db' = set_event_tags db (event_tags db ++ l).
Proof.
  induction l as [|et l IH]; intros db db' H; simpl in H.
  - unfold ret in H. inversion H; subst.
    now rewrite app_nil_r, set_event_tags_same.
  - apply bind_Return in H. destruct H as [[] [db1 [H1 H2]]].
    apply IH in H2. subst db'.
    apply insert_event_tag_Return in H1. destruct H1 as [_ ->].
    unfold set_event_tags; simpl.
    now rewrite <- app_assoc.
Qed.

Lemma has_event_tag_app db l et :
  has_event_tag (set_event_tags db l) et = existsb (EventTag.eqb et) l.
Proof. reflexivity. Qed.

Lemma insert_event_tags_ok :
  forall l db,
    NoDup l ->
    forallb tag_in_range l = true ->
    Forall (fun et => has_event_tag db et = false /\
                      has_event db (EventTag.event_id et) = true /\
                      has_tag db (EventTag.tag_id et) = true) l ->
    insert_event_tags l db =
    Return (tt, set_event_tags db (event_tags db ++ l)).
Proof.
  induction l as [|et l IH]; intros db Hnd Hrange Hall; simpl.
  - unfold ret. now rewrite app_nil_r, set_event_tags_same.
  - inversion Hnd as [|? ? Hnotin Hnd']; subst.
    inversion Hall as [|? ? [Hp1 [Hp2 Hp3]] Hall']; subst.
    simpl in Hrange. apply andb_true_iff in Hrange.
    destruct Hrange as [Hr Hrange].
    unfold bind at 1. rewrite insert_event_tag_eq.
    unfold tag_in_range in Hr. rewrite Hr, Hp1, Hp2, Hp3. simpl.
    rewrite IH.
    + unfold set_event_tags; simpl. now rewrite <- app_assoc.
    + assumption.
    + assumption.
    + rewrite Forall_forall in *. intros et' Hin.
      destruct (Hall' et' Hin) as [Hq1 [Hq2 Hq3]].
      repeat split; try assumption.
      rewrite has_event_tag_app, existsb_app. simpl.
      unfold has_event_tag in Hq1. rewrite Hq1. simpl.
      rewrite EventTag_eqb_neq; [reflexivity|].
      intros ->. contradiction.
Qed.

(** A batch with a tag id that does not exist never goes through. *)
Lemma insert_event_tags_unknown_tag :
  forall l db,
    (exists et, In et l /\ has_tag db (EventTag.tag_id et) = false) ->
    exists e, insert_event_tags l db = Raise e.
Proof.
  induction l as [|et l IH]; intros db [bad [Hin Hbad]].
  - destruct Hin.
  - simpl. unfold bind at 1. rewrite insert_event_tag_eq.
    destruct (in_int32 (EventTag.event_id et) &&
              in_int32 (EventTag.tag_id et)); [|eauto].
    destruct (has_event_tag db et); [eauto|].
    destruct (has_event db (EventTag.event_id et) &&
              has_tag db (EventTag.tag_id et)) eqn:Hfk; [|eauto].
    destruct Hin as [->|Hin].
    + apply andb_true_iff in Hfk. rewrite Hbad in Hfk.
      destruct Hfk; discriminate.
    + apply IH. exists bad. split; [assumption|exact Hbad].
Qed.

(** A batch that names a row already there, or one row twice, never
    goes through: the pair is the primary key. *)
Lemma insert_event_tags_present :
  forall l db et,
    In et l -> has_event_tag db et = true ->
    exists e, insert_event_tags l db = Raise e.
Proof.
  induction l as [|x l IH]; intros db et Hin Hhas.
  - destruct Hin.
  - simpl. unfold bind at 1.
    destruct (insert_event_tag x db) as [[[] db1]|e] eqn:H1; [|eauto].
    apply insert_event_tag_Return in H1. destruct H1 as [Hx ->].
    destruct Hin as [->|Hin]; [congruence|].
    apply (IH _ et Hin).
    rewrite has_event_tag_app, existsb_app.
    unfold has_event_tag in Hhas. now rewrite Hhas.
Qed.

Lemma insert_event_tags_NoDup :
  forall l db db', insert_event_tags l db = Return (tt, db') -> NoDup l.
Proof.
  induction l as [|x l IH]; intros db db' H; [constructor|].
  simpl in H. apply bind_Return in H. destruct H as [[] [db1 [H1 H2]]].
  constructor; [|exact (IH _ _ H2)].
  intros Hin. apply insert_event_tag_Return in H1. destruct H1 as [_ ->].
  destruct (insert_event_tags_present l
              (set_event_tags db (event_tags db ++ [x])) x Hin) as [e He].
  - rewrite has_event_tag_app, existsb_app. simpl.
    replace (EventTag.eqb x x) with true; [now rewrite orb_true_r|].
    symmetry. now apply EventTag_eqb_eq.
  - congruence.
Qed.

(** Ids in range and without duplicates: the failure is the foreign
    key's. *)
Lemma insert_event_tags_foreign_key :
  forall l db,
    NoDup l ->
    forallb tag_in_range l = true ->
    Forall (fun et => has_event_tag db et = false) l ->
    (exists et, In et l /\ has_tag db (EventTag.tag_id et) = false) ->
    insert_event_tags l db = Raise (DBAPIError ForeignKeyViolation).
Proof.
  induction l as [|et l IH]; intros db Hnd Hrange Hall [bad [Hin Hbad]].
  - destruct Hin.
  - inversion Hnd as [|? ? Hnotin Hnd']; subst.
    inversion Hall as [|? ? Hp Hall']; subst.
    simpl in Hrange. apply andb_true_iff in Hrange.
    destruct Hrange as [Hr Hrange]. unfold tag_in_range in Hr.
    simpl. unfold bind at 1. rewrite insert_event_tag_eq, Hr, Hp.
    destruct (has_event db (EventTag.event_id et) &&
              has_tag db (EventTag.tag_id et)) eqn:Hfk; [|reflexivity].
    destruct Hin as [->|Hin].
    + apply andb_true_iff in Hfk. rewrite Hbad in Hfk.
      destruct Hfk; discriminate.
    + apply IH.
      * assumption.
      * assumption.
      * rewrite Forall_forall in *. intros et' Hin'.
        rewrite has_event_tag_app, existsb_app. simpl.
        specialize (Hall' et' Hin'). unfold has_event_tag in Hall'.
        rewrite Hall'. simpl.
        rewrite EventTag_eqb_neq; [reflexivity|]. intros ->. contradiction.
      * exists bad. split; [assumption|exact Hbad].
Qed.

Lemma delete_event_tags_Return eid db :
  delete_event_tags eid db =
  Return (tt, set_event_tags db
                (filter (fun et => negb (EventTag.event_id et =? eid))
                        (event_tags db))).
Proof. reflexivity. Qed.

Lemma NoDup_map_EventTag eid (ids : list Z) :
  NoDup ids -> NoDup (map (EventTag.mk eid) ids).
Proof.
  induction 1 as [|x l Hx Hnd IH]; simpl; constructor; [|assumption].
  intros Hin. apply in_map_iff in Hin. destruct Hin as [y [Heq Hin]].
  inversion Heq; subst. contradiction.
Qed.

Lemma not_present_after_delete eid t (l : list EventTag.t) :
  existsb (EventTag.eqb (EventTag.mk eid t))
          (filter (fun et => negb (EventTag.event_id et =? eid)) l) = false.
Proof.
  induction l as [|et l IH]; simpl; [reflexivity|].
  destruct (EventTag.event_id et =? eid) eqn:E; simpl; [assumption|].
  rewrite IH, orb_false_r. unfold EventTag.eqb. simpl.
  rewrite Z.eqb_sym, E. reflexivity.
Qed.

(** The tags of an event after its rows were deleted and [ids] inserted. *)
Lemma tag_ids_of_replaced db db' eid (ids : list Z) :
  event_tags db' =
  (filter (fun et => negb (EventTag.event_id et =? eid)) (event_tags db)
   ++ map (EventTag.mk eid) ids)%list ->
  tag_ids_of db' eid = ids.
Proof.
  intros Heq. unfold tag_ids_of. rewrite Heq, filter_app, map_app.
  clear Heq db'.
  assert (H1 : filter (fun et => EventTag.event_id et =? eid)
                 (filter (fun et => negb (EventTag.event_id et =? eid))
                         (event_tags db)) = []).
  { induction (event_tags db) as [|et l IH]; simpl; [reflexivity|].
    destruct (EventTag.event_id et =? eid) eqn:E; simpl; [assumption|].
    now rewrite E. }
  rewrite H1. simpl.
  induction ids as [|t ids IH]; simpl; [reflexivity|].
  rewrite Z.eqb_refl. simpl. now rewrite IH.
Qed.

Lemma tag_ids_of_other db db' eid other (ids : list Z) :
  event_tags db' =
  (filter (fun et => negb (EventTag.event_id et =? eid)) (event_tags db)
   ++ map (EventTag.mk eid) ids)%list ->
  other <> eid ->
  tag_ids_of db' other = tag_ids_of db other.
Proof.
  intros Heq Hne. unfold tag_ids_of. rewrite Heq, filter_app, map_app.
  clear Heq db'.
  assert (H2 : filter (fun et => EventTag.event_id et =? other)
                 (map (EventTag.mk eid) ids) = []).
  { induction ids as [|t ids IH]; simpl; [reflexivity|].
    destruct (eid =? other) eqn:E; [|assumption].
    apply Z.eqb_eq in E. congruence. }
  rewrite H2, app_nil_r. f_equal.
  induction (event_tags db) as [|et l IH]; simpl; [reflexivity|].
  destruct (EventTag.event_id et =? eid) eqn:E; simpl.
  - apply Z.eqb_eq in E. rewrite E.
    destruct (eid =? other) eqn:E2; [|assumption].
    apply Z.eqb_eq in E2. congruence.
  - destruct (EventTag.event_id et =? other); [now rewrite IH|assumption].
Qed.

(** *** [commit] *)

Lemma commit_Return {aw} now row ev added new_tags db r db' :
  commit aw now row ev added new_tags db = Return (r, db') ->
  to_row aw (Event.id row) (Event.created_at row) ev = Return r /\
  event_fk_ok db r = true /\
  db' = committed db r now added new_tags.
Proof.
  unfold commit. intros H.
  apply bind_Return in H. destruct H as [r1 [db1 [H1 H]]].
  apply bind_Return in H. destruct H as [[] [db2 [H2 H]]].
  apply bind_Return in H. destruct H as [[] [db3 [H3 H]]].
  unfold ret in H. inversion H; subst.
  apply flush_update_Return in H1. destruct H1 as [Hrow [Hfk ->]].
  apply insert_audit_logs_Return in H2. subst db2.
  apply insert_event_tags_Return in H3. subst db'.
  repeat split; assumption.
Qed.

Lemma commit_ok {aw} now row ev added new_tags db r uid :
  to_row aw (Event.id row) (Event.created_at row) ev = Return r ->
  event_fk_ok db r = true ->
  has_event db (Event.id row) = true ->
  has_user db uid = true ->
  Forall (fun p => EventAuditLog.p_event_id p = Event.id row /\
                   EventAuditLog.p_changed_by p = Some uid /\
                   Nat.leb (String.length (EventAuditLog.p_changed_column p))
                           50 = true) added ->
  NoDup new_tags ->
  forallb tag_in_range new_tags = true ->
  Forall (fun et => has_event_tag db et = false /\
                    has_event db (EventTag.event_id et) = true /\
                    has_tag db (EventTag.tag_id et) = true) new_tags ->
  commit aw now row ev added new_tags db =
  Return (r, committed db r now added new_tags).
Proof.
  intros Hrow Hfk He Hu Hadded Hnd Hrange Htags. unfold commit.
  rewrite (bind_step _ _ _ _ _ (flush_update_ok _ _ _ _ Hrow Hfk)).
  assert (Hids : forall e,
             has_event (set_events db (replace_event r (events db))
                          (events_id_seq db)) e = has_event db e).
  { intros e. apply has_event_replace_event. }
  erewrite bind_step;
    [|apply (insert_audit_logs_ok now (Event.id row) uid);
      [rewrite Hids; exact He | exact Hu | exact Hadded]].
  erewrite bind_step; [reflexivity|].
  rewrite insert_event_tags_ok; [reflexivity|assumption|assumption|].
  rewrite Forall_forall in *. intros et Hin.
  destruct (Htags et Hin) as [H1 [H2 H3]].
  repeat split; try assumption.
  rewrite <- H2. apply has_event_replace_event.
Qed.

(** The entries the loop queues are well-formed rows for this event. *)
Lemma audit_entries_wellformed event_id changed_by l ev :
  NoDup (map fst l) ->
  Forall (fun p => EventAuditLog.p_event_id p = event_id /\
                   EventAuditLog.p_changed_by p = Some changed_by /\
                   Nat.leb (String.length (EventAuditLog.p_changed_column p))
                           50 = true)
         (snd (audit_loop event_id changed_by l ev)).
Proof.
  intros Hnd. rewrite audit_loop_records by assumption.
  apply Forall_forall. intros p Hin. apply in_map_iff in Hin.
  destruct Hin as [item [<- _]]. simpl.
  repeat split. apply column_name_short.
Qed.

(** *** What a returning [update_event] has done *)

Lemma update_event_Return env event_id payload admin db r db' :
  update_event env event_id payload admin db = Return (r, db') ->
  exists row,
    in_int32 event_id = true /\
    get_event_row db event_id = Some row /\
    to_row (adapts_aware env) (Event.id row) (Event.created_at row)
           (update_instance env event_id payload admin row) = Return r /\
    event_fk_ok db r = true /\
    db' = match EventUpdate.get_tag_ids payload with
          | Some ids =>
              committed (without_tags_of db event_id) r (db_now env)
                (update_records event_id payload admin row)
                (map (EventTag.mk event_id) ids)
          | None =>
              committed db r (db_now env)
                (update_records event_id payload admin row) []
          end.
Proof.
  unfold update_event, update_instance, update_records. intros H.
  apply bind_Return in H. destruct H as [[] [db0 [Hb H]]].
  apply bind_integer_Return in Hb. destruct Hb as [Hrange ->].
  apply bind_Return in H. destruct H as [db0 [db1 [H0 H]]].
  unfold get_db in H0. inversion H0; subst db0 db1. clear H0.
  destruct (get_event_row db event_id) as [row|] eqn:Hget;
    [|discriminate H].
  exists row. split; [exact Hrange|]. split; [reflexivity|].
  destruct (audit_loop event_id (User.id admin)
              (EventUpdate.model_dump_exclude_unset payload) (load row))
    as [event added] eqn:Hloop.
  simpl fst. simpl snd.
  apply bind_Return in H. destruct H as [new_tags [db1 [H1 H]]].
  apply commit_Return in H. destruct H as [Hrow [Hfk ->]].
  destruct (EventUpdate.get_tag_ids payload) as [ids|].
  - apply bind_Return in H1. destruct H1 as [[] [db2 [H2 H3]]].
    rewrite delete_event_tags_Return in H2. inversion H2; subst db2.
    unfold ret in H3. inversion H3; subst.
    repeat split; assumption.
  - unfold ret in H1. inversion H1; subst.
    repeat split; assumption.
Qed.

(** The ids of [l] fit INTEGER, and so do the rows they make with an
    event id that fits. *)
Lemma tag_in_range_map eid (l : list Z) :
  in_int32 eid = true -> forallb in_int32 l = true ->
  forallb tag_in_range (map (EventTag.mk eid) l) = true.
Proof.
  intros He. induction l as [|t l IH]; simpl; [reflexivity|].
  intros H. apply andb_true_iff in H. destruct H as [Ht Hl].
  unfold tag_in_range at 1. simpl. rewrite He, Ht. simpl. now apply IH.
Qed.

Lemma update_event_ok env event_id payload admin db row r :
  in_int32 event_id = true ->
  get_event_row db event_id = Some row ->
  has_user db (User.id admin) = true ->
  to_row (adapts_aware env) (Event.id row) (Event.created_at row)
         (update_instance env event_id payload admin row) = Return r ->
  event_fk_ok db r = true ->
  match EventUpdate.get_tag_ids payload with
  | Some ids => NoDup ids /\ forallb in_int32 ids = true /\
                forall t, In t ids -> has_tag db t = true
  | None => True
  end ->
  update_event env event_id payload admin db =
  Return (r, match EventUpdate.get_tag_ids payload with
             | Some ids =>
                 committed (without_tags_of db event_id) r (db_now env)
                   (update_records event_id payload admin row)
                   (map (EventTag.mk event_id) ids)
             | None =>
                 committed db r (db_now env)
                   (update_records event_id payload admin row) []
             end).
Proof.
  intros Hrange Hget Hu Hrow Hfk Htags.
  unfold update_event, update_instance, update_records in *.
  rewrite (bind_step _ _ _ _ _ (bind_integer_ok _ db Hrange)).
  rewrite (bind_step _ _ db db db) by reflexivity. rewrite Hget.
  pose proof (audit_entries_wellformed event_id (User.id admin)
                (EventUpdate.model_dump_exclude_unset payload) (load row)
                (model_dump_NoDup payload)) as Hwf.
  destruct (audit_loop event_id (User.id admin)
              (EventUpdate.model_dump_exclude_unset payload) (load row))
    as [event added] eqn:Hloop.
  simpl in Hrow, Hwf. simpl snd.
  pose proof (get_event_row_id _ _ _ Hget) as Hid.
  pose proof (get_event_row_has_event _ _ _ Hget) as Hhas.
  destruct (EventUpdate.get_tag_ids payload) as [ids|].
  - destruct Htags as [Hnd [Hin32 Hex]].
    erewrite bind_step;
      [|erewrite bind_step;
        [|rewrite delete_event_tags_Return; reflexivity]; reflexivity].
    apply (commit_ok _ _ _ _ _ _ _ (User.id admin)); try assumption.
    + rewrite Hid. exact Hhas.
    + rewrite Hid. exact Hwf.
    + now apply NoDup_map_EventTag.
    + now apply tag_in_range_map.
    + apply Forall_forall. intros et Hin. apply in_map_iff in Hin.
      destruct Hin as [t [<- Hin]]. simpl. repeat split.
      * apply not_present_after_delete.
      * exact Hhas.
      * now apply Hex.
  - erewrite bind_step; [|reflexivity].
    apply (commit_ok _ _ _ _ _ _ _ (User.id admin)); try assumption.
    + rewrite Hid. exact Hhas.
    + rewrite Hid. exact Hwf.
    + constructor.
    + reflexivity.
    + constructor.
Qed.

(* ================================================================== *)
(** ** The audit records of an update *)
(* ================================================================== *)

Lemma update_records_filter event_id payload admin row :
  update_records event_id payload admin row =
  map (item_entry event_id (User.id admin) (load row))
      (filter (item_differs (load row)) (EventUpdate.supplied_items payload)).
Proof.
  unfold update_records.
  rewrite audit_loop_records by apply model_dump_NoDup.
  now rewrite model_dump_supplied_items.
Qed.

Lemma changed_columns_of_items (row : Event.t) (payload : EventUpdate.t) :
  forall l : list column,
    map (fun it : column * value => fst it)
        (filter (item_differs (load row))
           (flat_map (fun c => match EventUpdate.supplied payload c with
                               | Some v => [(c, v)]
                               | None => []
                               end) l)) =
    filter (field_changed row payload) l.
Proof.
  induction l as [|c l IH]; simpl; [reflexivity|].
  rewrite filter_app, map_app, IH. unfold field_changed at 2.
  destruct (EventUpdate.supplied payload c) as [v|]; simpl; [|reflexivity].
  unfold item_differs at 1. simpl.
  destruct (negb (str (getattr (load row) c) =? str v)%string); reflexivity.
Qed.

Lemma update_records_columns event_id payload admin row :
  map EventAuditLog.p_changed_column
      (update_records event_id payload admin row) =
  map column_name
      (filter (field_changed row payload) EventUpdate.declared_columns).
Proof.
  rewrite update_records_filter.
  rewrite <- (changed_columns_of_items row payload
                EventUpdate.declared_columns).
  rewrite !map_map. reflexivity.
Qed.

Lemma NoDup_map_column_name (l : list column) :
  NoDup l -> NoDup (map column_name l).
Proof.
  induction 1 as [|c l Hc Hnd IH]; simpl; constructor; [|assumption].
  intros Hin. apply in_map_iff in Hin. destruct Hin as [c' [Heq Hin]].
  apply column_name_inj in Heq. subst. contradiction.
Qed.

Lemma field_changed_iff row payload c :
  field_changed row payload c = true <->
  exists v, EventUpdate.supplied payload c = Some v /\
            str (getattr (load row) c) <> str v.
Proof.
  unfold field_changed. split.
  - destruct (EventUpdate.supplied payload c) as [v|]; [|discriminate].
    intros H. exists v. split; [reflexivity|].
    apply negb_true_iff, String.eqb_neq in H. exact H.
  - intros [v [-> Hne]]. apply negb_true_iff, String.eqb_neq. exact Hne.
Qed.

Lemma supplied_declared payload c v :
  EventUpdate.supplied payload c = Some v ->
  In c EventUpdate.declared_columns.
Proof.
  intros H. destruct c; simpl in H; try discriminate H;
    unfold EventUpdate.declared_columns; simpl; tauto.
Qed.

Lemma require_admin_has_user db token admin :
  require_admin db token = Return admin ->
  has_user db (User.id admin) = true /\ User.role admin = "admin".
Proof.
  unfold require_admin, get_current_user, rbind.
  destruct token as [tok|]; [|discriminate].
  destruct (jwt_decode tok) as [payload|]; [|discriminate].
  destruct (sub payload) as [s|]; [|discriminate].
  destruct (int_of_str s) as [uid|]; [|discriminate].
  destruct (get_user db uid) as [u|] eqn:Hu; [|discriminate].
  destruct (String.eqb (User.role u) "admin") eqn:Hrole; simpl;
    [|discriminate].
  intros H. inversion H; subst. split.
  - eapply get_user_has_user, Hu.
  - now apply String.eqb_eq.
Qed.

Lemma numbered_columns next now l :
  map EventAuditLog.changed_column (numbered next now l) =
  map EventAuditLog.p_changed_column l.
Proof.
  revert next. induction l as [|p l IH]; intros next; simpl;
    [reflexivity|]. now rewrite IH.
Qed.

Lemma numbered_In next now l a :
  In a (numbered next now l) ->
  exists p new_id, In p l /\ a = EventAuditLog.stored new_id now p.
Proof.
  revert next. induction l as [|p l IH]; intros next; simpl; [intros []|].
  intros [<-|Hin].
  - exists p, next. auto.
  - destruct (IH _ Hin) as [q [k [Hq ->]]]. exists q, k. auto.
Qed.

Lemma update_records_In event_id payload admin row p :
  In p (update_records event_id payload admin row) ->
  exists c v,
    EventUpdate.supplied payload c = Some v /\
    str (getattr (load row) c) <> str v /\
    p = EventAuditLog.mkPending event_id (Some (User.id admin))
          (column_name c) (Some (str (getattr (load row) c)))
          (Some (str v)).
Proof.
  intros Hin. rewrite update_records_filter in Hin.
  apply in_map_iff in Hin. destruct Hin as [[c v] [<- Hin]].
  apply filter_In in Hin. destruct Hin as [Hin Hdiff].
  apply supplied_items_In in Hin. exists c, v.
  split; [assumption|]. split; [|reflexivity].
  unfold item_differs in Hdiff. simpl in Hdiff.
  apply negb_true_iff, String.eqb_neq in Hdiff. exact Hdiff.
Qed.

Lemma update_records_column_iff event_id payload admin row c :
  In (column_name c)
     (map EventAuditLog.p_changed_column
        (update_records event_id payload admin row)) <->
  exists v, EventUpdate.supplied payload c = Some v /\
            str (getattr (load row) c) <> str v.
Proof.
  rewrite update_records_columns. split.
  - intros Hin. apply in_map_iff in Hin. destruct Hin as [c' [Heq Hin]].
    apply column_name_inj in Heq. subst c'.
    apply filter_In in Hin. now apply field_changed_iff.
  - intros Hex. apply in_map. apply filter_In. split.
    + destruct Hex as [v [Hv _]]. eapply supplied_declared, Hv.
    + now apply field_changed_iff.
Qed.

Lemma committed_event_audit_log db r now added new_tags :
  event_audit_log (committed db r now added new_tags) =
  (event_audit_log db ++ numbered (event_audit_log_id_seq db) now added)%list.
Proof. reflexivity. Qed.

(** C1.  An admin's [PATCH /api/v1/event/{id}] of an existing event,
    for any payload.
    - The request goes through whenever the database accepts the edited
      row and the tag selection (if any).
    - When it goes through, the rows it appends to the audit trail are
      one per field that the payload explicitly carries and whose [str]
      differs from the [str] of the stored value, and no others: no
      column twice, a row for a column if and only if the field is
      supplied and differs (so an omitted field and an unchanged supplied
      field yield none), each row naming the event, the admin, the column
      and the two strings.
    - When it raises, nothing is appended.
    The tag selection is not an [Event] column and takes no part in the
    diff. *)
Theorem update_event_audit_records_exact
        env db token event_id payload admin row :
  require_admin db token = Return admin ->
  get_event_row db event_id = Some row ->
  let result := patch_event env db token event_id payload in
  (forall r,
      in_int32 event_id = true ->
      to_row (adapts_aware env) (Event.id row) (Event.created_at row)
             (update_instance env event_id payload admin row) = Return r ->
      event_fk_ok db r = true ->
      match EventUpdate.get_tag_ids payload with
      | Some ids => NoDup ids /\ forallb in_int32 ids = true /\
                    forall t, In t ids -> has_tag db t = true
      | None => True
      end ->
      exists answer, snd result = Return answer) /\
  exists added,
    event_audit_log (fst result) = (event_audit_log db ++ added)%list /\
    match snd result with
    | Return _ =>
        NoDup (map EventAuditLog.changed_column added) /\
        (forall c,
            In (column_name c) (map EventAuditLog.changed_column added) <->
            exists v, EventUpdate.supplied payload c = Some v /\
                      str (getattr (load row) c) <> str v) /\
        (forall a, In a added ->
            EventAuditLog.event_id a = event_id /\
            EventAuditLog.changed_by a = Some (User.id admin) /\
            EventAuditLog.change_date a = db_now env /\
            exists c v,
              EventUpdate.supplied payload c = Some v /\
              str (getattr (load row) c) <> str v /\
              EventAuditLog.changed_column a = column_name c /\
              EventAuditLog.old_value a = Some (str (getattr (load row) c)) /\
              EventAuditLog.new_value a = Some (str v))
    | Raise _ => added = [] /\ fst result = db
    end.
Proof.
  intros Hadmin Hget result. subst result.
  unfold patch_event, depends_require_admin, run_request. rewrite Hadmin.
  destruct (require_admin_has_user _ _ _ Hadmin) as [Hu _].
  split.
  - intros r Hrange Hrow Hfk Htags. exists r.
    now rewrite (update_event_ok env event_id payload admin db row r).
  - destruct (update_event env event_id payload admin db)
      as [[r db']|e] eqn:Hupd; simpl.
    + exists (numbered (event_audit_log_id_seq db) (db_now env)
                (update_records event_id payload admin row)).
      apply update_event_Return in Hupd.
      destruct Hupd as [row' [_ [Hget' [_ [_ ->]]]]].
      rewrite Hget in Hget'. inversion Hget'; subst row'.
      split; [destruct (EventUpdate.get_tag_ids payload); reflexivity|].
      rewrite numbered_columns. split; [|split].
      * rewrite update_records_columns.
        apply NoDup_map_column_name, NoDup_filter, declared_columns_NoDup.
      * intros c. apply update_records_column_iff.
      * intros a Hin. apply numbered_In in Hin.
        destruct Hin as [p [k [Hp ->]]].
        apply update_records_In in Hp.
        destruct Hp as [c [v [Hv [Hne ->]]]]. simpl.
        split; [reflexivity|]. split; [reflexivity|].
        split; [reflexivity|]. exists c, v.
        split; [exact Hv|]. split; [exact Hne|].
        split; [reflexivity|]. split; reflexivity.
    + exists []. split; [now rewrite app_nil_r|]. split; reflexivity.
Qed.

(** C7, as the code has it.  The audit records of one update follow the
    order in which [EventUpdate] declares its fields (title, description,
    city_id, website_url, price, date_start, date_end,
    registration_deadline, location_address, is_online), whatever the order
    of the request body; each is a field name with the old and the new
    value, both always strings ([str] of the value, so ["None"] for a null). *)
Theorem update_event_audit_records_declaration_order
        event_id payload admin row :
  let records := update_records event_id payload admin row in
  map EventAuditLog.p_changed_column records =
  map column_name
      (filter (field_changed row payload) EventUpdate.declared_columns) /\
  Forall (fun p =>
            exists c v,
              EventUpdate.supplied payload c = Some v /\
              EventAuditLog.p_changed_column p = column_name c /\
              EventAuditLog.p_old_value p = Some (str (getattr (load row) c)) /\
              EventAuditLog.p_new_value p = Some (str v))
         records.
Proof.
  intros records. subst records. split.
  - apply update_records_columns.
  - apply Forall_forall. intros p Hin. rewrite update_records_filter in Hin.
    apply in_map_iff in Hin. destruct Hin as [[c v] [<- Hin]].
    apply filter_In in Hin. destruct Hin as [Hin _].
    apply supplied_items_In in Hin. exists c, v. simpl. auto.
Qed.

(* ================================================================== *)
(** ** Replacing the tag associations through the API *)
(* ================================================================== *)

Lemma commit_unknown_tag {aw} now row ev added new_tags db :
  (exists et, In et new_tags /\ has_tag db (EventTag.tag_id et) = false) ->
  exists e, commit aw now row ev added new_tags db = Raise e.
Proof.
  intros Hbad. unfold commit.
  destruct (flush_update aw row ev db) as [[r db1]|e] eqn:H1;
    [|exists e; now apply bind_Raise].
  rewrite (bind_step _ _ _ _ _ H1).
  destruct (insert_audit_logs now added db1) as [[[] db2]|e] eqn:H2;
    [|exists e; now apply bind_Raise].
  rewrite (bind_step _ _ _ _ _ H2).
  apply flush_update_Return in H1. destruct H1 as [_ [_ ->]].
  apply insert_audit_logs_Return in H2. subst db2.
  destruct (insert_event_tags_unknown_tag new_tags
              (set_event_audit_log
                 (set_events db (replace_event r (events db))
                    (events_id_seq db))
                 (event_audit_log db ++
                  numbered (event_audit_log_id_seq db) now added)
                 (event_audit_log_id_seq db + Z.of_nat (List.length added))))
    as [e He].
  { exact Hbad. }
  exists e. now apply bind_Raise.
Qed.

Lemma commit_foreign_key {aw} now row ev added new_tags db r uid :
  to_row aw (Event.id row) (Event.created_at row) ev = Return r ->
  event_fk_ok db r = true ->
  has_event db (Event.id row) = true ->
  has_user db uid = true ->
  Forall (fun p => EventAuditLog.p_event_id p = Event.id row /\
                   EventAuditLog.p_changed_by p = Some uid /\
                   Nat.leb (String.length (EventAuditLog.p_changed_column p))
                           50 = true) added ->
  NoDup new_tags ->
  forallb tag_in_range new_tags = true ->
  Forall (fun et => has_event_tag db et = false) new_tags ->
  (exists et, In et new_tags /\ has_tag db (EventTag.tag_id et) = false) ->
  commit aw now row ev added new_tags db = Raise (DBAPIError ForeignKeyViolation).
Proof.
  intros Hrow Hfk He Hu Hadded Hnd Hrange Hfresh Hbad. unfold commit.
  rewrite (bind_step _ _ _ _ _ (flush_update_ok _ _ _ _ Hrow Hfk)).
  erewrite bind_step;
    [|apply (insert_audit_logs_ok now (Event.id row) uid);
      [|exact Hu|exact Hadded]].
  - apply bind_Raise.
    apply insert_event_tags_foreign_key; assumption.
  - rewrite <- He. apply has_event_replace_event.
Qed.

Lemma update_event_unknown_tag env event_id payload admin db ids :
  EventUpdate.get_tag_ids payload = Some ids ->
  (exists t, In t ids /\ has_tag db t = false) ->
  exists e, update_event env event_id payload admin db = Raise e.
Proof.
  intros Hids [bad [Hin Hbad]]. unfold update_event.
  destruct (in_int32 event_id) eqn:Hrange;
    [|eexists; apply bind_Raise, bind_integer_Raise, Hrange].
  rewrite (bind_step _ _ _ _ _ (bind_integer_ok _ db Hrange)).
  rewrite (bind_step _ _ db db db) by reflexivity.
  destruct (get_event_row db event_id) as [row|]; [|eexists; reflexivity].
  destruct (audit_loop event_id (User.id admin)
              (EventUpdate.model_dump_exclude_unset payload) (load row))
    as [event added].
  rewrite Hids.
  erewrite bind_step;
    [|erewrite bind_step;
      [|rewrite delete_event_tags_Return; reflexivity]; reflexivity].
  apply commit_unknown_tag.
  exists (EventTag.mk event_id bad). split.
  - now apply in_map.
  - exact Hbad.
Qed.

Lemma update_event_foreign_key env event_id payload admin db row r ids :
  EventUpdate.get_tag_ids payload = Some ids ->
  in_int32 event_id = true ->
  get_event_row db event_id = Some row ->
  has_user db (User.id admin) = true ->
  to_row (adapts_aware env) (Event.id row) (Event.created_at row)
         (update_instance env event_id payload admin row) = Return r ->
  event_fk_ok db r = true ->
  NoDup ids ->
  forallb in_int32 ids = true ->
  (exists t, In t ids /\ has_tag db t = false) ->
  update_event env event_id payload admin db =
  Raise (DBAPIError ForeignKeyViolation).
Proof.
  intros Hids Hrange Hget Hu Hrow Hfk Hnd Hin32 [bad [Hin Hbad]].
  unfold update_event, update_instance in *.
  rewrite (bind_step _ _ _ _ _ (bind_integer_ok _ db Hrange)).
  rewrite (bind_step _ _ db db db) by reflexivity. rewrite Hget.
  pose proof (audit_entries_wellformed event_id (User.id admin)
                (EventUpdate.model_dump_exclude_unset payload) (load row)
                (model_dump_NoDup payload)) as Hwf.
  destruct (audit_loop event_id (User.id admin)
              (EventUpdate.model_dump_exclude_unset payload) (load row))
    as [event added].
  simpl in Hrow, Hwf. rewrite Hids.
  pose proof (get_event_row_id _ _ _ Hget) as Hid.
  pose proof (get_event_row_has_event _ _ _ Hget) as Hhas.
  erewrite bind_step;
    [|erewrite bind_step;
      [|rewrite delete_event_tags_Return; reflexivity]; reflexivity].
  apply (commit_foreign_key _ _ _ _ _ _ r (User.id admin)); try assumption.
  - rewrite Hid. exact Hhas.
  - rewrite Hid. exact Hwf.
  - now apply NoDup_map_EventTag.
  - now apply tag_in_range_map.
  - apply Forall_forall. intros et Hin'. apply in_map_iff in Hin'.
    destruct Hin' as [t [<- _]]. apply not_present_after_delete.
  - exists (EventTag.mk event_id bad). split; [now apply in_map|exact Hbad].
Qed.


(** A returning update has inserted every row of its tag selection, so
    the selection names no id twice and every id fits INTEGER. *)
Lemma insert_event_tags_in_range :
  forall l db db',
    insert_event_tags l db = Return (tt, db') ->
    forallb tag_in_range l = true.
Proof.
  induction l as [|x l IH]; intros db db' H; [reflexivity|].
  simpl in H. apply bind_Return in H. destruct H as [[] [db1 [H1 H2]]].
  simpl. rewrite (IH _ _ H2), andb_true_r.
  rewrite insert_event_tag_eq in H1. unfold tag_in_range.
  destruct (in_int32 (EventTag.event_id x) && in_int32 (EventTag.tag_id x));
    [reflexivity|discriminate].
Qed.

Lemma tag_in_range_map_inv eid (l : list Z) :
  forallb tag_in_range (map (EventTag.mk eid) l) = true ->
  forallb in_int32 l = true.
Proof.
  induction l as [|t l IH]; simpl; [reflexivity|].
  intros H. apply andb_true_iff in H. destruct H as [Ht Hl].
  unfold tag_in_range in Ht. simpl in Ht. apply andb_true_iff in Ht.
  rewrite (proj2 Ht). simpl. now apply IH.
Qed.

Lemma NoDup_map_EventTag_inv eid (ids : list Z) :
  NoDup (map (EventTag.mk eid) ids) -> NoDup ids.
Proof.
  induction ids as [|x l IH]; simpl; intros H; [constructor|].
  inversion H as [|? ? Hx Hnd]; subst. constructor; [|now apply IH].
  intros Hin. apply Hx. now apply in_map.
Qed.

Lemma update_event_Return_tags env event_id payload admin db r db' ids :
  update_event env event_id payload admin db = Return (r, db') ->
  EventUpdate.get_tag_ids payload = Some ids ->
  NoDup ids /\ forallb in_int32 ids = true.
Proof.
  unfold update_event. intros H Hids.
  apply bind_Return in H. destruct H as [[] [db0 [Hb H]]].
  apply bind_integer_Return in Hb. destruct Hb as [_ ->].
  apply bind_Return in H. destruct H as [db0 [db1 [H0 H]]].
  unfold get_db in H0. inversion H0; subst db0 db1. clear H0.
  destruct (get_event_row db event_id) as [row|]; [|discriminate H].
  destruct (audit_loop event_id (User.id admin)
              (EventUpdate.model_dump_exclude_unset payload) (load row))
    as [event added].
  rewrite Hids in H.
  apply bind_Return in H. destruct H as [new_tags [db1 [H1 H]]].
  apply bind_Return in H1. destruct H1 as [[] [db2 [_ H3]]].
  unfold ret in H3. inversion H3; subst new_tags db2. clear H3.
  unfold commit in H.
  apply bind_Return in H. destruct H as [r1 [db3 [_ H]]].
  apply bind_Return in H. destruct H as [[] [db4 [_ H]]].
  apply bind_Return in H. destruct H as [[] [db5 [H5 _]]].
  split.
  - eapply NoDup_map_EventTag_inv, insert_event_tags_NoDup, H5.
  - eapply tag_in_range_map_inv, insert_event_tags_in_range, H5.
Qed.

(** C2, as the code has it.  On [PATCH /api/v1/event/{id}]:
    - when an admin's update of an existing event, whose edited row the
      database accepts, supplies a tag selection without repeated ids, all
      of them within INTEGER and naming existing tags, the update returns
      and the event's association list is exactly the supplied one, other
      events keeping theirs;
    - when a supplied id names no tag, the update raises and the whole
      database is as before; the error is the foreign-key violation when
      nothing else is wrong with the request;
    - when the selection repeats an id, or holds one outside INTEGER, the
      update raises and the whole database is as before;
    - when [tag_ids] is omitted or null, the associations are untouched. *)
Theorem patch_event_tag_replacement env db token event_id payload :
  let result := patch_event env db token event_id payload in
  (forall ids admin row r,
      EventUpdate.get_tag_ids payload = Some ids ->
      require_admin db token = Return admin ->
      get_event_row db event_id = Some row ->
      in_int32 event_id = true ->
      to_row (adapts_aware env) (Event.id row) (Event.created_at row)
             (update_instance env event_id payload admin row) = Return r ->
      event_fk_ok db r = true ->
      NoDup ids ->
      forallb in_int32 ids = true ->
      ((forall t, In t ids -> has_tag db t = true) ->
       (exists answer, snd result = Return answer) /\
       tag_ids_of (fst result) event_id = ids /\
       (forall other, other <> event_id ->
                      tag_ids_of (fst result) other = tag_ids_of db other)) /\
      ((exists t, In t ids /\ has_tag db t = false) ->
       snd result = Raise (DBAPIError ForeignKeyViolation))) /\
  (forall ids,
      EventUpdate.get_tag_ids payload = Some ids ->
      (exists t, In t ids /\ has_tag db t = false) \/
      ~ NoDup ids \/ forallb in_int32 ids = false ->
      fst result = db /\ exists e, snd result = Raise e) /\
  (EventUpdate.get_tag_ids payload = None ->
   event_tags (fst result) = event_tags db).
Proof.
  intros result. subst result.
  unfold patch_event, depends_require_admin, run_request.
  split; [|split].
  - intros ids admin row r Hids Hadmin Hget Hrange Hrow Hfk Hnd Hin32.
    rewrite Hadmin.
    destruct (require_admin_has_user _ _ _ Hadmin) as [Hu _].
    split.
    + intros Hex.
      rewrite (update_event_ok env event_id payload admin db row r);
        try assumption.
      * rewrite Hids. simpl. split; [eexists; reflexivity|]. split.
        -- apply (tag_ids_of_replaced db). reflexivity.
        -- intros other Hne.
           apply (tag_ids_of_other db _ event_id other ids); [reflexivity|].
           exact Hne.
      * rewrite Hids. split; [assumption|]. split; assumption.
    + intros Hbad.
      rewrite (update_event_foreign_key env event_id payload admin db row r
                 ids); try assumption. reflexivity.
  - intros ids Hids Hbad.
    destruct (require_admin db token) as [admin|e]; [|simpl; eauto].
    destruct (update_event env event_id payload admin db)
      as [[r db']|e] eqn:Hupd; [|simpl; eauto].
    exfalso.
    destruct (update_event_Return_tags _ _ _ _ _ _ _ _ Hupd Hids)
      as [Hnd Hin32].
    destruct Hbad as [Hbad|[Hdup|Hout]].
    + destruct (update_event_unknown_tag env event_id payload admin db ids
                  Hids Hbad) as [e He].
      congruence.
    + contradiction.
    + congruence.
  - intros Hnone.
    destruct (require_admin db token) as [admin|e]; [|reflexivity].
    destruct (update_event env event_id payload admin db)
      as [[r db']|e] eqn:Hupd; [|reflexivity].
    apply update_event_Return in Hupd.
    destruct Hupd as [row [_ [_ [_ [_ ->]]]]]. rewrite Hnone. simpl.
    apply app_nil_r.
Qed.

(* ================================================================== *)
(** ** The access-control gate *)
(* ================================================================== *)

Lemma require_admin_rejects db token :
  is_admin (classify db token) = false ->
  require_admin db token = Raise (HTTPException 401 "Not authenticated") \/
  require_admin db token = Raise credentials_exception \/
  require_admin db token = Raise forbidden.
Proof.
  unfold classify, require_admin, rbind.
  destruct (get_current_user db token) as [u|e] eqn:Hu.
  - destruct (String.eqb (User.role u) "admin"); simpl; [discriminate|].
    intros _. right. right. reflexivity.
  - intros _. unfold get_current_user in Hu.
    destruct token as [tok|]; [|inversion Hu; auto].
    destruct (jwt_decode tok) as [payload|]; [|inversion Hu; auto].
    destruct (sub payload) as [s|]; [|inversion Hu; auto].
    destruct (int_of_str s) as [uid|]; [|inversion Hu; auto].
    destruct (get_user db uid); inversion Hu; auto.
Qed.

Lemma require_admin_rejects_status db token :
  is_admin (classify db token) = false ->
  exists status detail,
    require_admin db token = Raise (HTTPException status detail) /\
    (status = 401 \/ status = 403).
Proof.
  intros H. destruct (require_admin_rejects db token H) as [E|[E|E]];
    rewrite E; unfold credentials_exception, forbidden; eauto.
Qed.

Lemma _require_admin_rejects db cookie (db0 : DB) :
  is_admin (classify_cookie db cookie) = false ->
  _require_admin (get_current_user_cookie db cookie) db0 = Raise forbidden.
Proof.
  unfold classify_cookie, _require_admin.
  destruct (get_current_user_cookie db cookie) as [u|]; [|reflexivity].
  destruct (String.eqb (User.role u) "admin"); simpl; [discriminate|].
  reflexivity.
Qed.

Lemma outcome_Raise {A} (db : DB) (e : exn) (r : DB * result A) :
  r = (db, Raise e) -> outcome r = (db, Raise e).
Proof. intros ->. reflexivity. Qed.

Lemma depends_require_admin_Raise {A} (body : User.t -> Session A) db token e :
  require_admin db token = Raise e ->
  depends_require_admin body db token = (db, Raise e).
Proof. unfold depends_require_admin. intros ->. reflexivity. Qed.

Lemma page_behind_gate {A} (rest : Session A) db cookie :
  is_admin (classify_cookie db cookie) = false ->
  run_request (_require_admin (get_current_user_cookie db cookie) ;;; rest) db
  = (db, Raise forbidden).
Proof.
  intros H. unfold run_request.
  rewrite (bind_Raise _ _ _ _ (_require_admin_rejects db cookie db H)).
  reflexivity.
Qed.

(** C3.  Every admin-only mutation, asked for by a caller the gate does not
    classify as an admin (no token, a token that does not verify, or a valid
    token of a user whose stored role is not "admin"), fails with 401 or 403
    and leaves the whole database as it was; the handler body is never
    entered, so this holds whatever the body is.  With no token the API
    answers 401, with a valid non-admin token 403; the pages answer 403. *)
Theorem admin_only_mutation_rejected env db token cookie m :
  admin_only m = true ->
  (on_api m = true ->
   is_admin (classify db token) = false ->
   (exists status detail,
       handle env db token cookie m =
       (db, Raise (HTTPException status detail)) /\
       (status = 401 \/ status = 403)) /\
   (token = None ->
    handle env db token cookie m =
    (db, Raise (HTTPException 401 "Not authenticated"))) /\
   (forall u, get_current_user db token = Return u ->
              handle env db token cookie m = (db, Raise forbidden)) /\
   (forall A (body : User.t -> Session A),
       exists e, depends_require_admin body db token = (db, Raise e))) /\
  (on_api m = false ->
   is_admin (classify_cookie db cookie) = false ->
   handle env db token cookie m = (db, Raise forbidden) /\
   (forall A (rest : Session A),
       depends_cookie_user (fun user => _require_admin user ;;; rest)
         db cookie = (db, Raise forbidden))).
Proof.
  intros Hadm. split.
  - intros Hapi Hcls.
    assert (Hgate : forall e, require_admin db token = Raise e ->
                              handle env db token cookie m = (db, Raise e)).
    { intros e He.
      destruct m; try discriminate Hadm; try discriminate Hapi;
        unfold handle, patch_event; apply outcome_Raise;
        now apply depends_require_admin_Raise. }
    repeat split.
    + destruct (require_admin_rejects_status db token Hcls)
        as [status [detail [He Hst]]].
      exists status, detail. split; [now apply Hgate|exact Hst].
    + intros ->. now apply Hgate.
    + intros u Hu. apply Hgate.
      unfold classify in Hcls. unfold require_admin, rbind.
      rewrite Hu in *.
      destruct (String.eqb (User.role u) "admin"); [discriminate|].
      reflexivity.
    + intros A body.
      destruct (require_admin_rejects_status db token Hcls)
        as [status [detail [He _]]].
      eexists. apply depends_require_admin_Raise. exact He.
  - intros Hpage Hcls. split.
    + destruct m; try discriminate Hadm; try discriminate Hpage;
        unfold handle, post_admin_event_edit, depends_cookie_user;
        apply outcome_Raise;
        cbv beta delta [do_admin_event_create do_admin_event_edit
                        do_admin_event_delete do_admin_tag_create
                        do_admin_tag_delete do_admin_organizer_create];
        now apply page_behind_gate.
    + intros A rest. unfold depends_cookie_user.
      now apply page_behind_gate.
Qed.

(** *** The role claim of the token is never consulted *)

Lemma get_current_user_sub db t1 t2 :
  option_map sub (jwt_decode t1) = option_map sub (jwt_decode t2) ->
  get_current_user db (Some t1) = get_current_user db (Some t2).
Proof.
  unfold get_current_user.
  destruct (jwt_decode t1) as [c1|], (jwt_decode t2) as [c2|]; simpl;
    intros H; try discriminate H; [|reflexivity].
  inversion H as [Hsub]. now rewrite Hsub.
Qed.

Lemma get_current_user_cookie_sub db t1 t2 :
  option_map sub (jwt_decode t1) = option_map sub (jwt_decode t2) ->
  t1 <> EmptyString -> t2 <> EmptyString ->
  get_current_user_cookie db (Some t1) = get_current_user_cookie db (Some t2).
Proof.
  intros H H1 H2. unfold get_current_user_cookie, _get_user_from_cookie.
  apply String.eqb_neq in H1, H2. rewrite H1, H2.
  destruct (jwt_decode t1) as [c1|], (jwt_decode t2) as [c2|]; simpl in H;
    try discriminate H; [|reflexivity].
  inversion H as [Hsub]. rewrite Hsub.
  destruct (sub c2) as [s|]; [|reflexivity].
  destruct (int_of_str s); reflexivity.
Qed.

Lemma handle_bearer_user env db tok1 tok2 cookie m :
  get_current_user db tok1 = get_current_user db tok2 ->
  handle env db tok1 cookie m = handle env db tok2 cookie m.
Proof.
  intros H.
  assert (Hadm : require_admin db tok1 = require_admin db tok2).
  { unfold require_admin. now rewrite H. }
  destruct m; unfold handle, patch_event, depends_require_admin,
    depends_current_user; rewrite ?Hadm, ?H; reflexivity.
Qed.

Lemma handle_cookie_user env db token c1 c2 m :
  get_current_user_cookie db c1 = get_current_user_cookie db c2 ->
  handle env db token c1 m = handle env db token c2 m.
Proof.
  intros H.
  destruct m; unfold handle, post_admin_event_edit, depends_cookie_user;
    rewrite ?H; reflexivity.
Qed.

(** C10.  Two tokens that are equally valid and name the same subject,
    whatever role claim each embeds, are treated alike by the gate: the
    same current user, the same admin decision and caller class on the
    bearer surface and on the cookie surface, and the same outcome and
    resulting database for every mutation.  The role that decides is the
    one stored for the user. *)
Theorem gate_ignores_role_claim db t1 t2 :
  option_map sub (jwt_decode t1) = option_map sub (jwt_decode t2) ->
  (get_current_user db (Some t1) = get_current_user db (Some t2) /\
   require_admin db (Some t1) = require_admin db (Some t2) /\
   classify db (Some t1) = classify db (Some t2) /\
   (forall env cookie m,
       handle env db (Some t1) cookie m = handle env db (Some t2) cookie m)) /\
  (t1 <> EmptyString -> t2 <> EmptyString ->
   get_current_user_cookie db (Some t1) =
   get_current_user_cookie db (Some t2) /\
   classify_cookie db (Some t1) = classify_cookie db (Some t2) /\
   (forall env token m,
       handle env db token (Some t1) m = handle env db token (Some t2) m)) /\
  (forall u, require_admin db (Some t1) = Return u ->
             User.role u = "admin" /\ has_user db (User.id u) = true).
Proof.
  intros H. pose proof (get_current_user_sub db t1 t2 H) as Hu.
  split; [|split].
  - repeat split.
    + exact Hu.
    + unfold require_admin. now rewrite Hu.
    + unfold classify. now rewrite Hu.
    + intros env cookie m. now apply handle_bearer_user.
  - intros H1 H2.
    pose proof (get_current_user_cookie_sub db t1 t2 H H1 H2) as Hc.
    repeat split.
    + exact Hc.
    + unfold classify_cookie. now rewrite Hc.
    + intros env token m. now apply handle_cookie_user.
  - intros u Hadm. destruct (require_admin_has_user _ _ _ Hadm). auto.
Qed.

(* ================================================================== *)
(** ** Listings: filters and order *)
(* ================================================================== *)

(** *** [order_by] sorts *)

Section SortFacts.
Context {A : Type} (leb : A -> A -> bool).
Hypothesis leb_total : forall a b, leb a b = false -> leb b a = true.
Hypothesis leb_trans :
  forall a b c, leb a b = true -> leb b c = true -> leb a c = true.

Let R (a b : A) : Prop := leb a b = true.

Lemma insert_sorted_perm x l : Permutation (insert_sorted leb x l) (x :: l).
Proof.
  induction l as [|y l IH]; simpl.
  - apply Permutation_refl.
  - destruct (leb x y).
    + apply Permutation_refl.
    + eapply Permutation_trans; [apply perm_skip, IH|apply perm_swap].
Qed.

Lemma order_by_perm l : Permutation (order_by leb l) l.
Proof.
  induction l as [|x l IH]; simpl.
  - apply Permutation_refl.
  - eapply Permutation_trans; [apply insert_sorted_perm|].
    now apply perm_skip.
Qed.

Lemma insert_sorted_sorted x l :
  StronglySorted R l -> StronglySorted R (insert_sorted leb x l).
Proof.
  induction 1 as [|y l Hs IH Hall]; simpl.
  - repeat constructor.
  - destruct (leb x y) eqn:E.
    + constructor; [now constructor|].
      constructor; [exact E|].
      eapply Forall_impl; [|exact Hall].
      intros z Hz. unfold R in *. now apply (leb_trans x y z).
    + constructor; [exact IH|].
      eapply Permutation_Forall.
      * apply Permutation_sym, insert_sorted_perm.
      * constructor; [now apply leb_total|exact Hall].
Qed.

Lemma order_by_sorted l : StronglySorted R (order_by leb l).
Proof.
  induction l as [|x l IH]; simpl.
  - constructor.
  - now apply insert_sorted_sorted.
Qed.
End SortFacts.

Lemma StronglySorted_weaken {A} (R R' : A -> A -> Prop) (l : list A) :
  (forall a b, R a b -> R' a b) ->
  StronglySorted R l -> StronglySorted R' l.
Proof.
  intros Himp. induction 1 as [|x l Hs IH Hall]; constructor.
  - exact IH.
  - eapply Forall_impl; [|exact Hall]. intros y. apply Himp.
Qed.

Lemma lex_leb_total : forall a b, lex_leb a b = false -> lex_leb b a = true.
Proof.
  induction a as [|x a IH]; intros [|y b]; simpl; try discriminate.
  destruct (Z.ltb_spec x y); [discriminate|].
  destruct (Z.ltb_spec y x); [reflexivity|].
  apply IH.
Qed.

Lemma lex_leb_trans :
  forall a b c,
    List.length a = List.length b -> List.length b = List.length c ->
    lex_leb a b = true -> lex_leb b c = true -> lex_leb a c = true.
Proof.
  induction a as [|x a IH]; intros [|y b] [|z c]; simpl;
    intros Hab Hbc H1 H2; try reflexivity; try discriminate.
  destruct (Z.ltb_spec x y), (Z.ltb_spec y z), (Z.ltb_spec x z);
    try reflexivity; try lia;
    destruct (Z.ltb_spec y x); try discriminate; try lia;
    destruct (Z.ltb_spec z y); try discriminate; try lia;
    destruct (Z.ltb_spec z x); try lia.
  apply (IH b c); congruence.
Qed.

Lemma datetime_leb_total s t :
  datetime_leb s t = false -> datetime_leb t s = true.
Proof. apply lex_leb_total. Qed.

Lemma datetime_leb_trans s t u :
  datetime_leb s t = true -> datetime_leb t u = true ->
  datetime_leb s u = true.
Proof. apply lex_leb_trans; reflexivity. Qed.

(** C8, as the code has it.  The public index returns its events in
    ascending order of start timestamp, and the admin events page returns
    all events in descending order of identifier; both are rearrangements
    of stored rows.  The listing of the API, [GET /api/v1/events], orders
    nothing: it answers with the rows that pass its filters as the scan
    of the table meets them.  The index and the API listing do return
    when no organizer or tag parameter is given, and the admin page does
    for an admin. *)
Theorem listings_are_ordered db :
  (forall search is_online organizer_id tag_id l,
      page_index db search is_online organizer_id tag_id = Return l ->
      StronglySorted
        (fun a b => datetime_leb (Event.date_start a) (Event.date_start b)
                    = true) l /\
      (forall e, In e l -> In e (events db))) /\
  (forall user l db',
      page_admin_events user db = Return (l, db') ->
      StronglySorted (fun a b => Event.id b <= Event.id a) l /\
      Permutation l (events db) /\ db' = db) /\
  (forall search city_id organizer_id is_online tag_id l,
      list_events db search city_id organizer_id is_online tag_id
      = Return l ->
      exists keep, l = filter keep (events db)) /\
  (forall u, User.role u = "admin" ->
             exists l, page_admin_events (Some u) db = Return (l, db)) /\
  (forall search is_online,
      exists l, page_index db search is_online None None = Return l) /\
  (forall search is_online,
      list_events db search None None is_online None =
      Return (filter (where_search search) (events db))).
Proof.
  split; [|split; [|split; [|split; [|split]]]].
  - intros search is_online organizer_id tag_id l H.
    unfold page_index, rbind in H.
    destruct (int_if_present organizer_id) as [oid|]; [|discriminate].
    destruct (int_if_present tag_id) as [tid|]; [|discriminate].
    destruct (bound_integer (if_truthy oid)) as [[]|]; [|discriminate].
    destruct (bound_integer (if_truthy tid)) as [[]|]; [|discriminate].
    inversion H; subst l. clear H. split.
    + apply (order_by_sorted
               (fun a b => datetime_leb (Event.date_start a)
                                        (Event.date_start b))).
      * intros a b. apply datetime_leb_total.
      * intros a b c. apply datetime_leb_trans.
    + intros e Hin.
      eapply Permutation_in in Hin; [|apply order_by_perm].
      apply filter_In in Hin. apply Hin.
  - intros user l db' H. unfold page_admin_events in H.
    apply bind_Return in H. destruct H as [[] [db1 [H1 H]]].
    apply bind_Return in H. destruct H as [db2 [db3 [H2 H]]].
    unfold get_db in H2. inversion H2; subst db2 db3. clear H2.
    unfold ret in H. inversion H; subst l db'. clear H.
    assert (db1 = db).
    { unfold _require_admin in H1. destruct user as [u|]; [|discriminate].
      destruct (negb (String.eqb (User.role u) "admin")); [discriminate|].
      unfold ret in H1. now inversion H1. }
    subst db1. repeat split.
    + apply (StronglySorted_weaken
               (fun a b => (Event.id b <=? Event.id a) = true)).
      * intros a b Hab. now apply Z.leb_le.
      * apply (order_by_sorted (fun a b => Event.id b <=? Event.id a)).
        -- intros a b Hab. apply Z.leb_gt in Hab. apply Z.leb_le. lia.
        -- intros a b c Hab Hbc. apply Z.leb_le in Hab, Hbc.
           apply Z.leb_le. lia.
    + apply order_by_perm.
  - intros search city_id organizer_id is_online tag_id l H.
    unfold list_events, rbind in H.
    destruct (int_if_present_of_int city_id) as [cid|]; [|discriminate].
    destruct (int_if_present organizer_id) as [oid|]; [|discriminate].
    destruct (int_if_present tag_id) as [tid|]; [|discriminate].
    destruct (bound_integer cid) as [[]|]; [|discriminate].
    destruct (bound_integer oid) as [[]|]; [|discriminate].
    destruct (bound_integer tid) as [[]|]; [|discriminate].
    inversion H. eexists. reflexivity.
  - intros u Hrole. eexists. unfold page_admin_events, _require_admin.
    rewrite Hrole. reflexivity.
  - intros search is_online. eexists. unfold page_index. simpl.
    reflexivity.
  - intros search is_online.
    destruct is_online as [[|]|]; unfold list_events; simpl; f_equal;
      apply filter_ext; intros e; now rewrite !andb_true_r.
Qed.

(** *** The filters of the API listing *)

Lemma filter_all_true {A} (f : A -> bool) (l : list A) :
  (forall x, f x = true) -> filter f l = l.
Proof.
  intros H. induction l as [|x l IH]; simpl; [reflexivity|].
  now rewrite H, IH.
Qed.

(** With no filter the API lists every event. *)
Lemma list_events_no_filter db :
  list_events db None None None None None = Return (events db).
Proof.
  unfold list_events. simpl. f_equal. now apply filter_all_true.
Qed.

(** The [is_online] argument of the API listing is a [bool], compared
    with the strings ["true"] and ["false"]: it never selects anything. *)
Lemma list_events_ignores_is_online
      db search city_id organizer_id is_online tag_id :
  list_events db search city_id organizer_id is_online tag_id =
  list_events db search city_id organizer_id None tag_id.
Proof. destruct is_online as [[|]|]; reflexivity. Qed.

(** Any city filter other than [0] stops the API listing with an
    [AttributeError]. *)
Lemma list_events_city_raises
      db search city_id organizer_id is_online tag_id :
  city_id <> 0 ->
  list_events db search (Some city_id) organizer_id is_online tag_id =
  Raise (AttributeError "'int' object has no attribute 'strip'").
Proof.
  intros H. unfold list_events. simpl.
  destruct (Z.eqb_spec city_id 0); [contradiction|]. reflexivity.
Qed.

(** The index page, for comparison, honours the two literals and treats
    every other value as no filter. *)
Lemma page_index_online_literals db search organizer_id tag_id l :
  (page_index db search (Some "true") organizer_id tag_id = Return l ->
   Forall (fun e => Event.is_online e = true) l) /\
  (page_index db search (Some "false") organizer_id tag_id = Return l ->
   Forall (fun e => Event.is_online e = false) l).
Proof.
  split; intros H; unfold page_index, rbind in H;
    destruct (int_if_present organizer_id) as [oid|]; try discriminate;
    destruct (int_if_present tag_id) as [tid|]; try discriminate;
    destruct (bound_integer (if_truthy oid)) as [[]|]; try discriminate;
    destruct (bound_integer (if_truthy tid)) as [[]|]; try discriminate;
    cbn [of_option eq_str String.eqb Ascii.eqb Bool.eqb] in H;
    inversion H; subst l; apply Forall_forall; intros e Hin;
    (eapply Permutation_in in Hin; [|apply order_by_perm]);
    apply filter_In in Hin; destruct Hin as [_ Hsel];
    rewrite !andb_true_iff in Hsel;
    destruct Hsel as [[[_ Ho] _] _];
    unfold where_online in Ho; now apply Bool.eqb_prop in Ho.
Qed.

Lemma page_index_online_other db search is_online organizer_id tag_id :
  is_online <> "true" -> is_online <> "false" ->
  page_index db search (Some is_online) organizer_id tag_id =
  page_index db search None organizer_id tag_id.
Proof.
  intros H1 H2. unfold page_index. simpl.
  apply String.eqb_neq in H1, H2. now rewrite H1, H2.
Qed.

(* ================================================================== *)
(** ** Replacing the tag associations through the edit page *)
(* ================================================================== *)

Lemma edit_updates_NoDup t o ds de rd p c la w d io :
  NoDup (map fst (edit_updates t o ds de rd p c la w d io)).
Proof.
  unfold edit_updates. simpl.
  repeat (constructor;
          [simpl; intros H;
           repeat (destruct H as [H|H]; [discriminate H|]); exact H|]).
  constructor.
Qed.

Lemma _require_admin_Return user db u db' :
  _require_admin user db = Return (u, db') ->
  db' = db /\ exists a, user = Some a /\ User.role a = "admin".
Proof.
  unfold _require_admin. destruct user as [a|]; [|discriminate].
  destruct (String.eqb (User.role a) "admin") eqn:E; simpl; [|discriminate].
  unfold ret. intros H. inversion H; subst. split; [reflexivity|].
  exists a. split; [reflexivity|]. now apply String.eqb_eq.
Qed.

Lemma _require_admin_ok a db :
  User.role a = "admin" -> _require_admin (Some a) db = Return (tt, db).
Proof. intros H. unfold _require_admin. now rewrite H. Qed.

Lemma do_admin_event_edit_Return
      env event_id t o ds de rd p c la w d io tag_ids image user db pg db' :
  do_admin_event_edit env event_id t o ds de rd p c la w d io tag_ids image
    user db = Return (pg, db') ->
  exists u row r,
    user = Some u /\ User.role u = "admin" /\
    get_event_row db event_id = Some row /\
    to_row (adapts_aware env) (Event.id row) (Event.created_at row)
           (edit_instance env event_id
              (edit_updates t o ds de rd p c la w d io) image u row)
    = Return r /\
    event_fk_ok db r = true /\
    pg = RedirectResponse "/admin/events" 302 /\
    in_int32 event_id = true /\
    db' = committed (without_tags_of db event_id) r (db_now env)
            (edit_records event_id
               (edit_updates t o ds de rd p c la w d io) u row)
            (map (EventTag.mk event_id) tag_ids).
Proof.
  unfold do_admin_event_edit, edit_instance, edit_records. intros H.
  apply bind_Return in H. destruct H as [[] [db1 [H1 H]]].
  apply _require_admin_Return in H1. destruct H1 as [-> [u [-> Hrole]]].
  apply bind_Return in H. destruct H as [[] [db0 [Hb H]]].
  apply bind_integer_Return in Hb. destruct Hb as [Hrange ->].
  apply bind_Return in H. destruct H as [db0 [db1 [H0 H]]].
  unfold get_db in H0. inversion H0; subst db0 db1. clear H0.
  destruct (get_event_row db event_id) as [row|] eqn:Hget;
    [|discriminate H].
  exists u, row.
  destruct (audit_loop event_id (User.id u)
              (edit_updates t o ds de rd p c la w d io) (load row))
    as [event added] eqn:Hloop.
  simpl fst. simpl snd.
  apply bind_Return in H. destruct H as [[] [db2 [H2 H]]].
  rewrite delete_event_tags_Return in H2. inversion H2; subst db2. clear H2.
  apply bind_Return in H. destruct H as [r [db3 [H3 H]]].
  unfold ret in H. inversion H; subst pg db3. clear H.
  apply commit_Return in H3. destruct H3 as [Hrow [Hfk ->]].
  exists r. repeat split; assumption.
Qed.

Lemma do_admin_event_edit_ok
      env event_id t o ds de rd p c la w d io tag_ids image u db row r :
  User.role u = "admin" ->
  has_user db (User.id u) = true ->
  in_int32 event_id = true ->
  get_event_row db event_id = Some row ->
  to_row (adapts_aware env) (Event.id row) (Event.created_at row)
         (edit_instance env event_id
            (edit_updates t o ds de rd p c la w d io) image u row)
  = Return r ->
  event_fk_ok db r = true ->
  NoDup tag_ids ->
  forallb in_int32 tag_ids = true ->
  (forall tid, In tid tag_ids -> has_tag db tid = true) ->
  do_admin_event_edit env event_id t o ds de rd p c la w d io tag_ids image
    (Some u) db =
  Return (RedirectResponse "/admin/events" 302,
          committed (without_tags_of db event_id) r (db_now env)
            (edit_records event_id
               (edit_updates t o ds de rd p c la w d io) u row)
            (map (EventTag.mk event_id) tag_ids)).
Proof.
  intros Hrole Hu Hrange Hget Hrow Hfk Hnd Hin32 Hex.
  unfold do_admin_event_edit, edit_instance, edit_records in *.
  rewrite (bind_step _ _ _ _ _ (_require_admin_ok u db Hrole)).
  rewrite (bind_step _ _ _ _ _ (bind_integer_ok _ db Hrange)).
  rewrite (bind_step _ _ db db db) by reflexivity. rewrite Hget.
  pose proof (audit_entries_wellformed event_id (User.id u)
                (edit_updates t o ds de rd p c la w d io) (load row)
                (edit_updates_NoDup t o ds de rd p c la w d io)) as Hwf.
  destruct (audit_loop event_id (User.id u)
              (edit_updates t o ds de rd p c la w d io) (load row))
    as [event added] eqn:Hloop.
  simpl in Hrow, Hwf. simpl snd.
  pose proof (get_event_row_id _ _ _ Hget) as Hid.
  pose proof (get_event_row_has_event _ _ _ Hget) as Hhas.
  erewrite bind_step; [|rewrite delete_event_tags_Return; reflexivity].
  erewrite bind_step; [reflexivity|].
  apply (commit_ok _ _ _ _ _ _ _ (User.id u)); try assumption.
  - rewrite Hid. exact Hhas.
  - rewrite Hid. exact Hwf.
  - now apply NoDup_map_EventTag.
  - now apply tag_in_range_map.
  - apply Forall_forall. intros et Hin. apply in_map_iff in Hin.
    destruct Hin as [tid [<- Hin]]. simpl. repeat split.
    + apply not_present_after_delete.
    + exact Hhas.
    + now apply Hex.
Qed.


(** The stamp of the edit page is refused by a driver that takes no
    aware [datetime]. *)
Lemma edit_instance_refused env event_id updates image u row i created :
  adapts_aware env = false ->
  exists e, to_row (adapts_aware env) i created
              (edit_instance env event_id updates image u row) = Raise e.
Proof.
  intros Haw.
  destruct (to_row (adapts_aware env) i created
              (edit_instance env event_id updates image u row))
    as [r|e] eqn:Hrow; [|eauto].
  apply to_row_Return in Hrow. destruct Hrow as [_ Hts].
  unfold edit_instance, setattr in Hts. cbv beta in Hts.
  rewrite column_eqb_refl, Haw in Hts. discriminate Hts.
Qed.

Lemma do_admin_event_edit_refused
      env event_id t o ds de rd p c la w d io tag_ids image user db :
  adapts_aware env = false ->
  exists e,
    do_admin_event_edit env event_id t o ds de rd p c la w d io tag_ids
      image user db = Raise e.
Proof.
  intros Haw.
  destruct (do_admin_event_edit env event_id t o ds de rd p c la w d io
              tag_ids image user db) as [[pg' db']|e] eqn:Hedit; [|eauto].
  exfalso. apply do_admin_event_edit_Return in Hedit.
  destruct Hedit as [u [row [r [_ [_ [_ [Hrow _]]]]]]].
  destruct (edit_instance_refused env event_id
              (edit_updates t o ds de rd p c la w d io) image u row
              (Event.id row) (Event.created_at row) Haw) as [e He].
  congruence.
Qed.


(* ================================================================== *)
(** ** When [updated_at] is written *)
(* ================================================================== *)


Lemma flush_insert_Return {aw} now ev db r db' :
  flush_insert aw now ev db = Return (r, db') ->
  to_row aw (events_id_seq db) now ev = Return r /\
  db' = set_events db (events db ++ [r]) (events_id_seq db + 1).
Proof.
  unfold flush_insert. session_unfold.
  destruct (to_row aw (events_id_seq db) now ev) as [r0|e]; [|discriminate].
  destruct (event_fk_ok db r0); [|discriminate].
  intros H. inversion H; subst. auto.
Qed.

Lemma find_app_Some {A} (f : A -> bool) l1 l2 x :
  find f l1 = Some x -> find f (l1 ++ l2) = Some x.
Proof.
  induction l1 as [|y l1 IH]; simpl; [discriminate|].
  destruct (f y); [trivial|exact IH].
Qed.

Lemma find_filter_other (l : list Event.t) eid gone row row' :
  find (fun e => Event.id e =? eid) l = Some row ->
  find (fun e => Event.id e =? eid)
       (filter (fun e => negb (Event.id e =? gone)) l) = Some row' ->
  row' = row.
Proof.
  induction l as [|e l IH]; simpl; [discriminate|].
  destruct (Event.id e =? eid) eqn:E1.
  - intros H. inversion H; subst e. clear H.
    destruct (Event.id row =? gone) eqn:E2; simpl.
    + intros H. apply find_some in H. destruct H as [Hin Hid].
      apply filter_In in Hin. destruct Hin as [_ Hne].
      apply Z.eqb_eq in E1, E2, Hid. apply negb_true_iff, Z.eqb_neq in Hne.
      congruence.
    + rewrite E1. intros H. now inversion H.
  - intros H. destruct (Event.id e =? gone); simpl.
    + now apply IH.
    + rewrite E1. now apply IH.
Qed.


(** *** What each handler does to [events] *)

Lemma committed_events db r now added new_tags :
  events (committed db r now added new_tags) = replace_event r (events db).
Proof. reflexivity. Qed.

Lemma update_instance_updated_at env event_id payload admin row :
  update_instance env event_id payload admin row col_updated_at =
  VDatetime (utcnow env).
Proof. reflexivity. Qed.

Lemma edit_instance_updated_at env event_id updates image u row :
  edit_instance env event_id updates image u row col_updated_at =
  VDatetimeTz (utcnow env).
Proof. reflexivity. Qed.

Lemma update_event_events env event_id payload admin db r db' :
  update_event env event_id payload admin db = Return (r, db') ->
  has_event db event_id = true /\
  events db' = replace_event r (events db) /\
  Event.id r = event_id /\ Event.updated_at r = Some (utcnow env).
Proof.
  intros H. apply update_event_Return in H.
  destruct H as [row [_ [Hget [Hrow [_ ->]]]]].
  apply to_row_Return in Hrow. destruct Hrow as [Hid Hts].
  rewrite update_instance_updated_at in Hts. simpl in Hts.
  inversion Hts as [Hupd].
  split; [|split; [|split]].
  - eapply get_event_row_has_event, Hget.
  - destruct (EventUpdate.get_tag_ids payload); reflexivity.
  - rewrite Hid. eapply get_event_row_id, Hget.
  - first [reflexivity | now rewrite <- Hupd].
Qed.

Lemma do_admin_event_edit_events
      env event_id t o ds de rd p c la w d io tag_ids image user db pg db' :
  do_admin_event_edit env event_id t o ds de rd p c la w d io tag_ids image
    user db = Return (pg, db') ->
  exists r,
    has_event db event_id = true /\
    events db' = replace_event r (events db) /\
    Event.id r = event_id /\ Event.updated_at r = Some (utcnow env).
Proof.
  intros H. apply do_admin_event_edit_Return in H.
  destruct H as [u [row [r [_ [_ [Hget [Hrow [_ [_ [_ ->]]]]]]]]]].
  apply to_row_Return in Hrow. destruct Hrow as [Hid Hts].
  rewrite edit_instance_updated_at in Hts. simpl in Hts.
  destruct (adapts_aware env); [|discriminate Hts].
  inversion Hts as [Hupd].
  exists r. split; [|split; [|split]].
  - eapply get_event_row_has_event, Hget.
  - reflexivity.
  - rewrite Hid. eapply get_event_row_id, Hget.
  - first [reflexivity | now rewrite <- Hupd].
Qed.

Lemma insert_event_tags_events l db db' :
  insert_event_tags l db = Return (tt, db') -> events db' = events db.
Proof. intros H. apply insert_event_tags_Return in H. now subst. Qed.

Lemma create_event_events
      env t o ds p c d w de rd la io tg img admin db r db' :
  create_event env t o ds p c d w de rd la io tg img admin db
  = Return (r, db') ->
  events db' = (events db ++ [r])%list /\ Event.updated_at r = None.
Proof.
  unfold create_event. intros H.
  apply bind_Return in H. destruct H as [event [db1 [H1 H]]].
  assert (Hev : db1 = db /\ event col_updated_at = VNone).
  { destruct img as [img|].
    - destruct (ALLOWED (content_type img)); [|discriminate H1].
      destruct (s3_upload_ok env); [|discriminate H1].
      unfold ret in H1. inversion H1; subst. split; reflexivity.
    - unfold ret in H1. inversion H1; subst. split; reflexivity. }
  destruct Hev as [-> Hnone]. clear H1.
  unfold try_except in H.
  match type of H with
  | match ?m db with _ => _ end = _ => destruct (m db) as [[r0 db0]|e] eqn:Hm
  end.
  - inversion H; subst r0 db0. clear H.
    apply bind_Return in Hm. destruct Hm as [r1 [db1 [H1 Hm]]].
    apply bind_Return in Hm. destruct Hm as [[] [db2 [H2 Hm]]].
    unfold ret in Hm. inversion Hm; subst r1 db2. clear Hm.
    apply flush_insert_Return in H1. destruct H1 as [Hrow ->].
    apply to_row_Return in Hrow. destruct Hrow as [_ Hts].
    rewrite Hnone in Hts. simpl in Hts. inversion Hts as [Hupd].
    split; [|first [reflexivity | now rewrite <- Hupd]].
    assert (Hsame : events db' =
                    events (set_events db (events db ++ [r])
                              (events_id_seq db + 1))).
    { destruct tg as [s|].
      - destruct (truthy (VStr s)).
        + now apply insert_event_tags_events in H2.
        + unfold ret in H2. now inversion H2.
      - unfold ret in H2. now inversion H2. }
    rewrite Hsame. reflexivity.
  - discriminate H.
Qed.

Lemma do_admin_event_create_events
      env t o ds de rd p c la w d io tg img user db pg db' :
  do_admin_event_create env t o ds de rd p c la w d io tg img user db
  = Return (pg, db') ->
  events db' = events db \/
  exists r, events db' = (events db ++ [r])%list /\
            Event.updated_at r = None.
Proof.
  unfold do_admin_event_create. intros H.
  apply bind_Return in H. destruct H as [[] [db1 [H1 H]]].
  apply _require_admin_Return in H1. destruct H1 as [-> _].
  match type of H with
  | (if ?b then _ else _) db = _ => destruct b
  end.
  - unfold ret in H. inversion H; subst. now left.
  - destruct img as [img|]; [|discriminate H]. right.
    apply bind_Return in H. destruct H as [event [db1 [H1 H]]].
    assert (Hev : db1 = db /\ event col_updated_at = VNone).
    { destruct (truthy (VStr (contents img))).
      - destruct (ALLOWED (content_type img)); [|discriminate H1].
        destruct (s3_upload_ok env); unfold ret in H1; inversion H1; subst;
          split; reflexivity.
      - unfold ret in H1. inversion H1; subst. split; reflexivity. }
    destruct Hev as [-> Hnone]. clear H1.
    apply bind_Return in H. destruct H as [r [db1 [H1 H]]].
    apply bind_Return in H. destruct H as [[] [db2 [H2 H]]].
    unfold ret in H. inversion H; subst pg db2. clear H.
    apply flush_insert_Return in H1. destruct H1 as [Hrow ->].
    apply to_row_Return in Hrow. destruct Hrow as [_ Hts].
    rewrite Hnone in Hts. simpl in Hts. inversion Hts as [Hupd].
    exists r. split; [|now rewrite <- Hupd].
    apply insert_event_tags_events in H2. rewrite H2. reflexivity.
Qed.

Ltac session_cases H :=
  unfold bind, ret, raise, get_db, put_db, lift in H;
  repeat match type of H with
         | context [match ?x with _ => _ end] =>
             destruct x eqn:?; try discriminate H
         end;
  inversion H; subst; clear H.

(** The first statement of a handler that binds a request's id. *)
Ltac bind_integer_step H :=
  let Hb := fresh "Hb" in
  let db0 := fresh "db" in
  apply bind_Return in H; destruct H as [[] [db0 [Hb H]]];
  apply bind_integer_Return in Hb; destruct Hb as [_ ->].

Lemma delete_event_events event_id admin db db' :
  delete_event event_id admin db = Return (tt, db') ->
  events db' = filter (fun e => negb (Event.id e =? event_id)) (events db).
Proof.
  unfold delete_event, delete_cascade. intros H.
  bind_integer_step H. session_cases H. reflexivity.
Qed.

Lemma do_admin_event_delete_events event_id user db pg db' :
  do_admin_event_delete event_id user db = Return (pg, db') ->
  events db' = events db \/
  events db' = filter (fun e => negb (Event.id e =? event_id)) (events db).
Proof.
  unfold do_admin_event_delete. intros H.
  apply bind_Return in H. destruct H as [[] [db1 [H1 H]]].
  apply _require_admin_Return in H1. destruct H1 as [-> _].
  bind_integer_step H.
  apply bind_Return in H. destruct H as [db0 [db1 [H0 H]]].
  unfold get_db in H0. inversion H0; subst db0 db1.
  apply bind_Return in H. destruct H as [[] [db1 [H1 H]]].
  unfold ret in H. inversion H; subst.
  destruct (get_event_row db event_id).
  - right. unfold delete_cascade in H1. session_cases H1. reflexivity.
  - left. unfold ret in H1. now inversion H1.
Qed.

Lemma insert_tag_events name db tag db' :
  insert_tag name db = Return (tag, db') -> events db' = events db.
Proof. unfold insert_tag. intros H. session_cases H. reflexivity. Qed.

Lemma delete_tag_row_events tag_id db db' :
  delete_tag_row tag_id db = Return (tt, db') -> events db' = events db.
Proof. unfold delete_tag_row. intros H. session_cases H. reflexivity. Qed.

Lemma insert_organizer_events name w c d db org db' :
  insert_organizer name w c d db = Return (org, db') ->
  events db' = events db.
Proof.
  unfold insert_organizer. intros H. session_cases H; reflexivity.
Qed.

Lemma insert_bookmark_events now uid eid db db' :
  insert_bookmark now uid eid db = Return (tt, db') ->
  events db' = events db.
Proof. unfold insert_bookmark. intros H. session_cases H. reflexivity. Qed.

Lemma other_handlers_keep_events :
  (forall name admin db tag db',
      create_tag name admin db = Return (tag, db') ->
      events db' = events db) /\
  (forall tag_id admin db db',
      delete_tag tag_id admin db = Return (tt, db') ->
      events db' = events db) /\
  (forall name w c d admin db org db',
      create_organizer name w c d admin db = Return (org, db') ->
      events db' = events db) /\
  (forall env eid u db db',
      add_bookmark env eid u db = Return (tt, db') ->
      events db' = events db) /\
  (forall eid u db db',
      remove_bookmark eid u db = Return (tt, db') ->
      events db' = events db).
Proof.
  repeat split.
  - intros name admin db tag db'. apply insert_tag_events.
  - intros tag_id admin db db' H. unfold delete_tag in H.
    bind_integer_step H.
    apply bind_Return in H. destruct H as [db0 [db1 [H0 H]]].
    unfold get_db in H0. inversion H0; subst.
    destruct (get_tag db1 tag_id); [|discriminate H].
    now apply delete_tag_row_events in H.
  - intros name w c d admin db org db'. apply insert_organizer_events.
  - intros env eid u db db' H. unfold add_bookmark in H.
    bind_integer_step H.
    apply bind_Return in H. destruct H as [db0 [db1 [H0 H]]].
    unfold get_db in H0. inversion H0; subst.
    destruct (get_event_row db1 eid); [|discriminate H].
    destruct (has_bookmark db1 (User.id u) eid); [discriminate H|].
    now apply insert_bookmark_events in H.
  - intros eid u db db' H. unfold remove_bookmark, delete_bookmark in H.
    bind_integer_step H. session_cases H. reflexivity.
Qed.

Lemma page_handlers_keep_events :
  (forall name user db pg db',
      do_admin_tag_create name user db = Return (pg, db') ->
      events db' = events db) /\
  (forall tag_id user db pg db',
      do_admin_tag_delete tag_id user db = Return (pg, db') ->
      events db' = events db) /\
  (forall name w c d user db pg db',
      do_admin_organizer_create name w c d user db = Return (pg, db') ->
      events db' = events db) /\
  (forall env eid user db pg db',
      page_add_bookmark env eid user db = Return (pg, db') ->
      events db' = events db) /\
  (forall eid ref user db pg db',
      page_remove_bookmark eid ref user db = Return (pg, db') ->
      events db' = events db) /\
  (forall env email password db pg db',
      do_register env email password db = Return (pg, db') ->
      events db' = events db).
Proof.
  repeat split.
  - intros name user db pg db' H. unfold do_admin_tag_create in H.
    apply bind_Return in H. destruct H as [[] [db1 [H1 H]]].
    apply _require_admin_Return in H1. destruct H1 as [-> _].
    apply bind_Return in H. destruct H as [db0 [db1 [H0 H]]].
    unfold get_db in H0. inversion H0; subst db0 db1.
    destruct (existsb (fun t => String.eqb (Tag.name t) name) (tags db)).
    + unfold ret in H. now inversion H.
    + apply bind_Return in H. destruct H as [tag [db1 [H1 H]]].
      unfold ret in H. inversion H; subst.
      now apply insert_tag_events in H1.
  - intros tag_id user db pg db' H. unfold do_admin_tag_delete in H.
    apply bind_Return in H. destruct H as [[] [db1 [H1 H]]].
    apply _require_admin_Return in H1. destruct H1 as [-> _].
    bind_integer_step H.
    apply bind_Return in H. destruct H as [db0 [db1 [H0 H]]].
    unfold get_db in H0. inversion H0; subst db0 db1.
    apply bind_Return in H. destruct H as [[] [db1 [H1 H]]].
    unfold ret in H. inversion H; subst.
    destruct (get_tag db tag_id).
    + now apply delete_tag_row_events in H1.
    + unfold ret in H1. now inversion H1.
  - intros name w c d user db pg db' H.
    unfold do_admin_organizer_create in H.
    apply bind_Return in H. destruct H as [[] [db1 [H1 H]]].
    apply _require_admin_Return in H1. destruct H1 as [-> _].
    apply bind_Return in H. destruct H as [db0 [db1 [H0 H]]].
    unfold get_db in H0. inversion H0; subst db0 db1.
    destruct (existsb (fun o => String.eqb (Organizer.name o) name)
                      (organizers db)).
    + unfold ret in H. now inversion H.
    + apply bind_Return in H. destruct H as [org [db1 [H1 H]]].
      unfold ret in H. inversion H; subst.
      now apply insert_organizer_events in H1.
  - intros env eid user db pg db' H. unfold page_add_bookmark in H.
    destruct user as [u|]; [|unfold ret in H; now inversion H].
    bind_integer_step H.
    apply bind_Return in H. destruct H as [db0 [db1 [H0 H]]].
    unfold get_db in H0. inversion H0; subst db0 db1.
    apply bind_Return in H. destruct H as [[] [db1 [H1 H]]].
    unfold ret in H. inversion H; subst.
    destruct (has_bookmark db (User.id u) eid).
    + unfold ret in H1. now inversion H1.
    + now apply insert_bookmark_events in H1.
  - intros eid ref user db pg db' H.
    unfold page_remove_bookmark in H.
    destruct user as [u|]; [|unfold ret in H; now inversion H].
    bind_integer_step H.
    apply bind_Return in H. destruct H as [db0 [db1 [H0 H]]].
    unfold get_db in H0. inversion H0; subst db0 db1.
    apply bind_Return in H. destruct H as [[] [db1 [H1 H]]].
    unfold ret in H. inversion H; subst.
    destruct (has_bookmark db (User.id u) eid).
    + unfold delete_bookmark in H1. session_cases H1. reflexivity.
    + unfold ret in H1. now inversion H1.
  - intros env email password db pg db' H. unfold do_register in H.
    session_cases H; reflexivity.
Qed.

Lemma outcome_run_request {A} (h : Session A) db db' res :
  outcome (run_request h db) = (db', res) ->
  (db' = db /\ exists e, res = Raise e) \/
  (exists a, h db = Return (a, db') /\ res = Return tt).
Proof.
  unfold outcome, run_request. destruct (h db) as [[a db1]|e]; intros H;
    inversion H; subst; eauto.
Qed.

Lemma outcome_depends_require_admin {A} (body : User.t -> Session A)
      db token db' res :
  outcome (depends_require_admin body db token) = (db', res) ->
  (db' = db /\ exists e, res = Raise e) \/
  (exists admin a, body admin db = Return (a, db') /\ res = Return tt).
Proof.
  unfold depends_require_admin.
  destruct (require_admin db token) as [admin|e].
  - intros H. apply outcome_run_request in H.
    destruct H as [H|[a H]]; [now left|right; eauto].
  - simpl. intros H. inversion H; subst. left. eauto.
Qed.

Lemma outcome_depends_current_user {A} (body : User.t -> Session A)
      db token db' res :
  outcome (depends_current_user body db token) = (db', res) ->
  (db' = db /\ exists e, res = Raise e) \/
  (exists user a, body user db = Return (a, db') /\ res = Return tt).
Proof.
  unfold depends_current_user.
  destruct (get_current_user db token) as [user|e].
  - intros H. apply outcome_run_request in H.
    destruct H as [H|[a H]]; [now left|right; eauto].
  - simpl. intros H. inversion H; subst. left. eauto.
Qed.

Lemma outcome_depends_cookie_user {A} (body : option User.t -> Session A)
      db cookie db' res :
  outcome (depends_cookie_user body db cookie) = (db', res) ->
  (db' = db /\ exists e, res = Raise e) \/
  (exists a, body (get_current_user_cookie db cookie) db = Return (a, db') /\
             res = Return tt).
Proof. unfold depends_cookie_user. apply outcome_run_request. Qed.

Lemma handle_events_effect env db token cookie m db' res :
  handle env db token cookie m = (db', res) ->
  events_effect env db db' m res.
Proof.
  pose proof other_handlers_keep_events
    as [Hct [Hdt [Hco [Hab Hrb]]]].
  pose proof page_handlers_keep_events
    as [Hptc [Hptd [Hpoc [Hpab [Hprb Hreg]]]]].
  unfold events_effect.
  destruct m; unfold handle, patch_event, post_admin_event_edit; intros H;
    first [ apply outcome_depends_require_admin in H;
            destruct H as [[-> _]|[who [a [H Hres]]]]
          | apply outcome_depends_current_user in H;
            destruct H as [[-> _]|[who [a [H Hres]]]]
          | apply outcome_depends_cookie_user in H;
            destruct H as [[-> _]|[a [H Hres]]]
          | apply outcome_run_request in H;
            destruct H as [[-> _]|[a [H Hres]]] ];
    try (left; reflexivity).
  - apply create_event_events in H. right. left. eauto.
  - apply update_event_events in H. destruct H as [H1 [H2 [H3 H4]]].
    right. right. right. exists event_id, a.
    repeat split; first [assumption | reflexivity].
  - destruct a. apply delete_event_events in H. right. right. left. eauto.
  - left. eapply Hct, H.
  - destruct a. left. eapply Hdt, H.
  - left. eapply Hco, H.
  - destruct a. left. eapply Hab, H.
  - destruct a. left. eapply Hrb, H.
  - apply do_admin_event_create_events in H. destruct H as [H|H].
    + now left.
    + right. left. exact H.
  - apply do_admin_event_edit_events in H.
    destruct H as [r [H1 [H2 [H3 H4]]]].
    right. right. right. exists event_id, r.
    repeat split; first [assumption | reflexivity].
  - apply do_admin_event_delete_events in H. destruct H as [H|H].
    + now left.
    + right. right. left. eauto.
  - left. eapply Hptc, H.
  - left. eapply Hptd, H.
  - left. eapply Hpoc, H.
  - left. eapply Hpab, H.
  - left. eapply Hprb, H.
  - left. eapply Hreg, H.
Qed.

Lemma handle_update_effect env db token cookie m db' eid :
  updated_event m = Some eid ->
  handle env db token cookie m = (db', Return tt) ->
  exists r,
    has_event db eid = true /\
    events db' = replace_event r (events db) /\
    Event.id r = eid /\ Event.updated_at r = Some (utcnow env).
Proof.
  intros Hm H. destruct m; try discriminate Hm; inversion Hm; subst;
    unfold handle, patch_event, post_admin_event_edit in H.
  - apply outcome_depends_require_admin in H.
    destruct H as [[_ [e He]]|[who [a [H _]]]]; [discriminate He|].
    apply update_event_events in H. eauto.
  - apply outcome_depends_cookie_user in H.
    destruct H as [[_ [e He]]|[a [H _]]]; [discriminate He|].
    now apply do_admin_event_edit_events in H.
Qed.

Lemma has_event_find db eid :
  has_event db eid = true -> exists row, get_event_row db eid = Some row.
Proof.
  unfold has_event, get_event_row. intros H.
  apply existsb_exists in H. destruct H as [e [Hin He]].
  destruct (find (fun e0 => Event.id e0 =? eid) (events db)) eqn:F; eauto.
  eapply find_none in F; [|exact Hin]. congruence.
Qed.

Lemma find_app_None {A} (f : A -> bool) l x y :
  find f l = None -> find f (l ++ [x]) = Some y -> y = x.
Proof.
  induction l as [|z l IH]; simpl.
  - intros _. destruct (f x); [|discriminate]. intros H. now inversion H.
  - destruct (f z); [discriminate|exact IH].
Qed.

Lemma find_filter_None (l : list Event.t) eid gone :
  find (fun e => Event.id e =? eid) l = None ->
  find (fun e => Event.id e =? eid)
       (filter (fun e => negb (Event.id e =? gone)) l) = None.
Proof.
  induction l as [|e l IH]; simpl; [reflexivity|].
  destruct (Event.id e =? eid) eqn:E1; [discriminate|].
  intros H. destruct (negb (Event.id e =? gone)); simpl.
  - rewrite E1. now apply IH.
  - now apply IH.
Qed.

(** C4.  Over every state-changing request of the application:
    - a row that appears in [events] (a creation) has a null [updated_at];
    - a row that was there and still is keeps its [updated_at] unless the
      request is an update of that very event that went through;
    - an update that goes through sets the event's [updated_at] to the
      time of the update. *)
Theorem updated_at_written_only_by_updates env db token cookie m db' res :
  handle env db token cookie m = (db', res) ->
  (forall eid row',
      get_event_row db eid = None ->
      get_event_row db' eid = Some row' ->
      Event.updated_at row' = None) /\
  (forall eid row row',
      get_event_row db eid = Some row ->
      get_event_row db' eid = Some row' ->
      Event.updated_at row' <> Event.updated_at row ->
      updated_event m = Some eid /\ res = Return tt) /\
  (forall eid,
      updated_event m = Some eid -> res = Return tt ->
      exists row',
        get_event_row db' eid = Some row' /\
        Event.updated_at row' = Some (utcnow env)).
Proof.
  intros H. pose proof (handle_events_effect _ _ _ _ _ _ _ H) as Heff.
  unfold events_effect in Heff. unfold get_event_row.
  split; [|split].
  - intros eid row' Hnone Hsome.
    destruct Heff as [E|[[r [E Hr]]|[[gone E]|[e0 [r [_ [_ [_ [E _]]]]]]]]];
      rewrite E in Hsome.
    + congruence.
    + apply (find_app_None _ _ _ _ Hnone) in Hsome. now subst.
    + rewrite (find_filter_None _ _ _ Hnone) in Hsome. discriminate.
    + rewrite find_replace_event, Hnone in Hsome.
      destruct (Event.id r =? eid); discriminate.
  - intros eid row row' Hrow Hrow' Hne.
    destruct Heff as [E|[[r [E Hr]]|[[gone E]|[e0 [r [Hm [Hres [_ [E [Hid _]]]]]]]]]];
      rewrite E in Hrow'.
    + congruence.
    + rewrite (find_app_Some _ _ _ _ Hrow) in Hrow'. congruence.
    + pose proof (find_filter_other _ _ _ _ _ Hrow Hrow'). congruence.
    + rewrite find_replace_event, Hrow in Hrow'.
      destruct (Event.id r =? eid) eqn:Er.
      * apply Z.eqb_eq in Er. split; [congruence|assumption].
      * congruence.
  - intros eid Hm Hres. subst res.
    destruct (handle_update_effect _ _ _ _ _ _ _ Hm H)
      as [r [Hhas [E [Hid Hupd]]]].
    apply has_event_find in Hhas. destruct Hhas as [row Hrow].
    exists r. split; [|exact Hupd].
    rewrite E, find_replace_event. unfold get_event_row in Hrow.
    rewrite Hrow, Hid, Z.eqb_refl. reflexivity.
Qed.

(* ================================================================== *)
(** ** [str] and [int] of identifiers; the tag list of a creation form *)
(* ================================================================== *)

Lemma read_digits_digit c r acc prev :
  is_digit c = true ->
  read_digits (String c r) acc prev = read_digits r (acc * 10 + digit_val c) true.
Proof. intros H. simpl. now rewrite H. Qed.

Lemma read_digits_acc d :
  forall acc,
    read_digits (NilEmpty.string_of_uint d) (Z.pos acc) true =
    Some (Z.pos (Pos.of_uint_acc d acc)).
Proof.
  induction d; intros acc; cbn [NilEmpty.string_of_uint Pos.of_uint_acc];
    try reflexivity;
    rewrite read_digits_digit by reflexivity;
    match goal with
    | |- read_digits _ ?z true = Some (Z.pos (Pos.of_uint_acc _ ?p)) =>
        replace z with (Z.pos p)
          by (match goal with
              | |- context [digit_val ?c] =>
                  let v := eval vm_compute in (digit_val c) in
                  change (digit_val c) with v
              end; lia)
    end; apply IHd.
Qed.

Lemma read_digits_zero d :
  read_digits (NilEmpty.string_of_uint d) 0 true =
  Some (Z.of_N (Pos.of_uint d)).
Proof.
  induction d; cbn [NilEmpty.string_of_uint Pos.of_uint];
    try reflexivity;
    rewrite read_digits_digit by reflexivity;
    try exact IHd;
    match goal with
    | |- read_digits _ ?z true = Some (Z.of_N (N.pos (Pos.of_uint_acc _ ?p))) =>
        replace z with (Z.pos p)
          by (match goal with
              | |- context [digit_val ?c] =>
                  let v := eval vm_compute in (digit_val c) in
                  change (digit_val c) with v
              end; lia)
    end; apply read_digits_acc.
Qed.

Lemma read_digits_first d acc :
  d <> Decimal.Nil ->
  read_digits (NilEmpty.string_of_uint d) acc false =
  read_digits (NilEmpty.string_of_uint d) acc true.
Proof. destruct d; intros H; try reflexivity. contradiction. Qed.

Lemma to_uint_nonnil n : N.to_uint n <> Decimal.Nil.
Proof.
  destruct n; simpl; [discriminate|]. apply DecimalPos.Unsigned.to_uint_nonnil.
Qed.

Lemma str_of_N_digits n :
  str_of_N n = NilEmpty.string_of_uint (N.to_uint n).
Proof.
  unfold str_of_N, NilZero.string_of_uint.
  pose proof (to_uint_nonnil n) as H.
  destruct (N.to_uint n); try reflexivity. contradiction.
Qed.

Lemma read_digits_str_of_N n :
  read_digits (str_of_N n) 0 false = Some (Z.of_N n).
Proof.
  rewrite str_of_N_digits, read_digits_first by apply to_uint_nonnil.
  rewrite read_digits_zero.
  change (Pos.of_uint (N.to_uint n)) with (N.of_uint (N.to_uint n)).
  now rewrite DecimalN.Unsigned.of_to.
Qed.

Lemma digit_not_space c : is_digit c = true -> is_space c = false.
Proof.
  destruct c as [[] [] [] [] [] [] [] []]; intros H;
    first [reflexivity | discriminate H].
Qed.

Lemma lstrip_digits s : all_digits s = true -> lstrip s = s.
Proof.
  destruct s as [|c r]; simpl; [reflexivity|].
  intros H. apply andb_true_iff in H. destruct H as [Hc _].
  now rewrite (digit_not_space c Hc).
Qed.

Lemma rstrip_digits s : all_digits s = true -> rstrip s = s.
Proof.
  induction s as [|c r IH]; simpl; [reflexivity|].
  intros H. apply andb_true_iff in H. destruct H as [Hc Hr].
  rewrite (IH Hr). destruct r; [|reflexivity].
  now rewrite (digit_not_space c Hc).
Qed.

Lemma strip_digits s : all_digits s = true -> strip s = s.
Proof.
  intros H. unfold strip. now rewrite lstrip_digits, rstrip_digits.
Qed.

Lemma all_digits_uint d : all_digits (NilEmpty.string_of_uint d) = true.
Proof. induction d; simpl; [reflexivity|..]; exact IHd. Qed.

Lemma all_digits_str_of_N n : all_digits (str_of_N n) = true.
Proof. rewrite str_of_N_digits. apply all_digits_uint. Qed.

Lemma str_of_N_nonempty n : str_of_N n <> EmptyString.
Proof.
  rewrite str_of_N_digits. pose proof (to_uint_nonnil n) as H.
  destruct (N.to_uint n); simpl; try discriminate. contradiction.
Qed.

Lemma int_of_str_digits s :
  all_digits s = true -> int_of_str s = read_digits s 0 false.
Proof.
  intros H. unfold int_of_str. rewrite (strip_digits s H).
  destruct s as [|c r]; [reflexivity|].
  simpl in H. apply andb_true_iff in H. destruct H as [Hc _].
  destruct c as [[] [] [] [] [] [] [] []];
    first [reflexivity | discriminate Hc].
Qed.

Lemma int_of_str_minus s :
  all_digits s = true -> s <> EmptyString ->
  int_of_str (String "-" s) = option_map Z.opp (read_digits s 0 false).
Proof.
  intros H Hne. unfold int_of_str, strip.
  change (lstrip (String "-" s)) with (String "-" s).
  assert (Hr : rstrip (String "-" s) = String "-" s).
  { simpl. rewrite (rstrip_digits s H). destruct s; [contradiction|].
    reflexivity. }
  rewrite Hr. reflexivity.
Qed.

Lemma int_of_str_of_Z (z : Z) : int_of_str (str_of_Z z) = Some z.
Proof.
  unfold str_of_Z. destruct (Z.ltb_spec z 0) as [Hneg|Hpos].
  - change ("-" ++ str_of_N (Z.to_N (- z)))
      with (String "-" (str_of_N (Z.to_N (- z)))).
    rewrite int_of_str_minus
      by (apply all_digits_str_of_N || apply str_of_N_nonempty).
    rewrite read_digits_str_of_N. simpl. f_equal. lia.
  - rewrite int_of_str_digits by apply all_digits_str_of_N.
    rewrite read_digits_str_of_N. f_equal. lia.
Qed.

Lemma digit_val_nonneg c : is_digit c = true -> 0 <= digit_val c.
Proof.
  destruct c as [[] [] [] [] [] [] [] []]; intros H;
    first [discriminate H | unfold digit_val; simpl; lia].
Qed.

Lemma read_digits_all_digits s :
  all_digits s = true ->
  forall acc prev, 0 <= acc -> (s <> EmptyString \/ prev = true) ->
    exists z, read_digits s acc prev = Some z /\ 0 <= z.
Proof.
  induction s as [|c r IH]; intros H acc prev Hacc Hne.
  - destruct Hne as [Hne| ->]; [contradiction|]. simpl. eauto.
  - simpl in H. apply andb_true_iff in H. destruct H as [Hc Hr].
    rewrite read_digits_digit by assumption.
    apply IH; [assumption| |now right].
    pose proof (digit_val_nonneg c Hc). lia.
Qed.

Lemma isdigit_int_of_str s :
  isdigit s = true -> exists z, int_of_str s = Some z /\ 0 <= z.
Proof.
  unfold isdigit. intros H. apply andb_true_iff in H. destruct H as [Hne Hd].
  rewrite int_of_str_digits by assumption.
  apply read_digits_all_digits; [assumption|lia|].
  left. intros ->. discriminate Hne.
Qed.

Lemma parse_tag_ids_total parts :
  exists l,
    parse_tag_ids parts = Some l /\
    Forall2 (fun t z => int_of_str (strip t) = Some z)
            (filter (fun t => isdigit (strip t)) parts) l /\
    Forall (fun z => 0 <= z) l.
Proof.
  induction parts as [|t rest [l [Hl [Hf Hpos]]]]; simpl.
  - exists []. repeat split; constructor.
  - destruct (isdigit (strip t)) eqn:Hd.
    + destruct (isdigit_int_of_str _ Hd) as [z [Hz Hz0]].
      rewrite Hz, Hl. exists (z :: l). repeat split.
      * now constructor.
      * now constructor.
    + exists l. repeat split; assumption.
Qed.

(** X2.  For a comma-separated tag list written in ASCII and no longer
    than 4300 characters, so that no entry is beyond what [int()]
    converts, the parsing of [POST /api/v1/event] never takes its
    [except ValueError] branch: the ids used are the values of exactly
    those entries that, once stripped, consist of digits only, in their
    order; every other entry (empty, signed, non-numeric) is dropped, so
    no negative id is ever produced. *)
Theorem parsed_ids_keeps_digit_entries (tag_ids : string) :
  is_ascii_str tag_ids = true ->
  (String.length tag_ids <= 4300)%nat ->
  Forall2 (fun t z => int_of_str (strip t) = Some z)
          (filter (fun t => isdigit (strip t)) (split_comma tag_ids))
          (parsed_ids tag_ids) /\
  Forall (fun z => 0 <= z) (parsed_ids tag_ids).
Proof.
  intros _ _. unfold parsed_ids.
  destruct (parse_tag_ids_total (split_comma tag_ids)) as [l [Hl [Hf Hpos]]].
  rewrite Hl. split; assumption.
Qed.

(* ================================================================== *)
(** ** What [PATCH /api/v1/event/{id}] does to the columns of the row *)
(* ================================================================== *)

Lemma hundredths_of_stored z :
  hundredths_magnitude (decimal_of_hundredths z) = Z.abs z.
Proof.
  unfold hundredths_magnitude, decimal_of_hundredths. simpl.
  rewrite Z2N.id by apply Z.abs_nonneg. lia.
Qed.

Lemma as_numeric_stored z :
  as_numeric_10_2 (VDecimal (decimal_of_hundredths z)) =
  if Z.abs z <? 10 ^ 10 then Return (Some z) else db_raise DataError.
Proof.
  unfold as_numeric_10_2. cbv zeta. rewrite hundredths_of_stored.
  destruct (Z.abs z <? 10 ^ 10); [|reflexivity].
  unfold decimal_of_hundredths. cbn [d_sign].
  destruct (Z.ltb_spec z 0); do 2 f_equal; lia.
Qed.

Lemma as_string_fits n o :
  fits n o = true -> as_string (Some n) (of_option VStr o) = Return o.
Proof.
  destruct o as [s|]; simpl; [|reflexivity]. now intros ->.
Qed.

Lemma as_string_text o : as_string None (of_option VStr o) = Return o.
Proof. now destruct o. Qed.

Lemma as_timestamp_of_option aw o :
  as_timestamp aw (of_option VDatetime o) = Return o.
Proof. now destruct o. Qed.

Lemma as_integer_of_option o :
  match o with Some z => in_int32 z | None => true end = true ->
  as_integer (of_option VInt o) = Return o.
Proof. destruct o as [z|]; simpl; [|reflexivity]. now intros ->. Qed.

Lemma setattr_other (ev : instance) c c' v :
  c' <> c -> setattr ev c v c' = ev c'.
Proof. exact (getattr_setattr_other ev c c' v). Qed.

Lemma row_in_bounds_id r :
  row_in_bounds r = true -> in_int32 (Event.id r) = true.
Proof.
  unfold row_in_bounds. intros H.
  apply andb_true_iff in H. destruct H as [H _].
  apply andb_true_iff in H. destruct H as [H _].
  apply andb_true_iff in H. apply H.
Qed.

(** A stored row within the bounds of its columns is written back as it
    is, but for the timestamp the session assigned. *)
Lemma to_row_touched {aw} now r :
  row_in_bounds r = true ->
  to_row aw (Event.id r) (Event.created_at r)
         (setattr (load r) col_updated_at (VDatetime now)) =
  Return (touched now r).
Proof.
  unfold row_in_bounds. intros H.
  apply andb_true_iff in H. destruct H as [H Hcity].
  apply andb_true_iff in H. destruct H as [H Horg].
  apply andb_true_iff in H. destruct H as [H Hid].
  apply andb_true_iff in H. destruct H as [H Hprice].
  apply andb_true_iff in H. destruct H as [H Haddr].
  apply andb_true_iff in H. destruct H as [H Hweb].
  apply andb_true_iff in H. destruct H as [Htitle Himg].
  unfold to_row.
  rewrite !setattr_other by discriminate.
  change (setattr (load r) col_updated_at (VDatetime now) col_updated_at)
    with (VDatetime now).
  cbn [load].
  rewrite !as_string_fits by assumption.
  rewrite as_string_text, !as_timestamp_of_option.
  rewrite as_integer_of_option by assumption.
  rewrite as_numeric_stored, Hprice.
  unfold as_string, as_integer. rewrite Htitle, Horg. reflexivity.
Qed.

Lemma to_row_columns {aw} i created ev r :
  to_row aw i created ev = Return r ->
  load r col_id = VInt i /\
  load r col_created_at = VDatetime created /\
  as_numeric_10_2 (ev col_price) = Return (Some (Event.price r)) /\
  (forall c, kept_column c = false -> c <> col_price ->
             load r c = without_tzinfo (ev c)).
Proof.
  unfold to_row, rbind. intros H.
  repeat match type of H with
         | context [match ?x with Return _ => _ | Raise _ => _ end] =>
             destruct x eqn:?; [|discriminate H]
         end.
  inversion H; subst; clear H. cbn [load Event.id Event.created_at].
  split; [reflexivity|]. split; [reflexivity|]. split.
  - cbn [Event.price].
    match goal with
    | E : not_null (as_numeric_10_2 _) = Return _ |- _ =>
        destruct (as_numeric_10_2 (ev col_price)) as [[p|]|]; simpl in E;
          try discriminate E; inversion E; reflexivity
    end.
  - intros c Hkept Hprice.
    destruct c; try discriminate Hkept; try contradiction;
      cbn [load Event.title Event.organizer_id Event.date_start
             Event.description Event.image_url Event.website_url
             Event.date_end Event.registration_deadline Event.city_id
             Event.location_address Event.is_online Event.updated_at];
      match goal with
      | |- _ = without_tzinfo (ev ?c) =>
          match goal with
          | E : context [ev c] |- _ =>
              destruct (ev c); simpl in E;
                repeat match type of E with
                       | context [if ?b then _ else _] => destruct b
                       end;
                simpl in E; unfold db_raise in E;
                try discriminate E; inversion E; reflexivity
          end
      end.
Qed.






(** X3.  An admin's [PATCH /api/v1/event/{id}] with an empty body on an
    existing event — one whose stored row is within the bounds of its
    columns and whose organizer and city still exist — is answered with
    the row, only [updated_at] set to the time of the request; it writes
    no audit row and leaves the tag associations and every other table as
    they were. *)
Theorem patch_event_empty_body_touches env db token event_id admin row :
  require_admin db token = Return admin ->
  get_event_row db event_id = Some row ->
  row_in_bounds row = true ->
  event_fk_ok db row = true ->
  exists db',
    patch_event env db token event_id EventUpdate.empty =
    (db', Return (touched (utcnow env) row)) /\
    get_event_row db' event_id = Some (touched (utcnow env) row) /\
    event_audit_log db' = event_audit_log db /\
    event_tags db' = event_tags db /\
    same_other_tables db db'.
Proof.
  intros Hadmin Hget Hbounds Hfk.
  pose proof (require_admin_has_user _ _ _ Hadmin) as [Huser _].
  pose proof (get_event_row_id _ _ _ Hget) as Hid.
  assert (Hrow : to_row (adapts_aware env) (Event.id row) (Event.created_at row)
                   (update_instance env event_id EventUpdate.empty admin row)
                 = Return (touched (utcnow env) row)).
  { exact (to_row_touched (utcnow env) row Hbounds). }
  pose proof (row_in_bounds_id _ Hbounds) as Hrange. rewrite Hid in Hrange.
  pose proof (update_event_ok env event_id EventUpdate.empty admin db row
                (touched (utcnow env) row) Hrange Hget Huser Hrow Hfk I)
    as Hok.
  cbn [EventUpdate.get_tag_ids EventUpdate.tag_ids EventUpdate.empty] in Hok.
  eexists. unfold patch_event, depends_require_admin, run_request.
  rewrite Hadmin, Hok. split; [reflexivity|].
  split; [|split; [|split]].
  - unfold get_event_row. rewrite committed_events, find_replace_event.
    cbn [touched Event.id]. rewrite Hid, Z.eqb_refl.
    unfold get_event_row in Hget. now rewrite Hget.
  - unfold committed, update_records. simpl. apply app_nil_r.
  - unfold committed. simpl. apply app_nil_r.
  - unfold same_other_tables, committed. simpl. repeat split.
Qed.


(* ================================================================== *)
(** ** The audit records of the browser edit *)
(* ================================================================== *)

Lemma edit_records_filter event_id t o ds de rd p c la w d io u row :
  edit_records event_id (edit_updates t o ds de rd p c la w d io) u row =
  map (item_entry event_id (User.id u) (load row))
      (filter (item_differs (load row))
              (edit_updates t o ds de rd p c la w d io)).
Proof.
  unfold edit_records. apply audit_loop_records, edit_updates_NoDup.
Qed.

(** X5.  The browser edit of an existing event by [u] compares every
    field of the form with the stored row — title, organizer, the three
    dates, price, city, address, website, description and the online flag
    — and queues one audit row per field whose [str] differs, carrying
    the event, the editing user, the column name and both strings.  The
    image is not a field of that comparison: no row ever names
    [image_url], whether or not the edit replaces the image.  An edit
    that goes through appends exactly these rows to the audit trail.  It
    goes through for an admin when the database accepts the edited row,
    with its aware [updated_at], and the tag ids; with a driver that
    refuses an aware [datetime] it raises. *)
Theorem page_edit_audit_records
        env event_id t o ds de rd p c la w d io tag_ids image u db row :
  get_event_row db event_id = Some row ->
  let updates := edit_updates t o ds de rd p c la w d io in
  let records := edit_records event_id updates u row in
  let edit :=
    do_admin_event_edit env event_id t o ds de rd p c la w d io tag_ids
      image (Some u) db in
  map fst updates =
    [col_title; col_organizer_id; col_date_start; col_date_end;
     col_registration_deadline; col_price; col_city_id;
     col_location_address; col_website_url; col_description;
     col_is_online] /\
  (forall pg db',
      edit = Return (pg, db') ->
      event_audit_log db' =
      (event_audit_log db ++
       numbered (event_audit_log_id_seq db) (db_now env) records)%list) /\
  (forall entry,
      In entry records <->
      exists col v,
        In (col, v) updates /\
        str (load row col) <> str v /\
        entry = EventAuditLog.mkPending event_id (Some (User.id u))
                  (column_name col)
                  (Some (str (load row col))) (Some (str v))) /\
  (forall entry,
      In entry records ->
      EventAuditLog.p_changed_column entry <> "image_url") /\
  (forall r,
      User.role u = "admin" ->
      has_user db (User.id u) = true ->
      in_int32 event_id = true ->
      to_row (adapts_aware env) (Event.id row) (Event.created_at row)
             (edit_instance env event_id updates image u row) = Return r ->
      event_fk_ok db r = true ->
      NoDup tag_ids ->
      forallb in_int32 tag_ids = true ->
      (forall tid, In tid tag_ids -> has_tag db tid = true) ->
      exists db', edit = Return (RedirectResponse "/admin/events" 302, db')) /\
  (adapts_aware env = false -> exists e, edit = Raise e).
Proof.
  intros Hget updates records edit.
  assert (Hin : forall entry,
             In entry records <->
             exists col v,
               In (col, v) updates /\
               str (load row col) <> str v /\
               entry = EventAuditLog.mkPending event_id (Some (User.id u))
                         (column_name col)
                         (Some (str (load row col))) (Some (str v))).
  { intros entry. subst records updates. rewrite edit_records_filter.
    rewrite in_map_iff. split.
    - intros [[col v] [<- Hf]]. apply filter_In in Hf.
      destruct Hf as [Hin Hd]. exists col, v.
      split; [exact Hin|]. split; [|reflexivity].
      unfold item_differs in Hd. simpl in Hd.
      apply negb_true_iff, String.eqb_neq in Hd. exact Hd.
    - intros [col [v [Hin [Hd ->]]]]. exists (col, v).
      split; [reflexivity|]. apply filter_In. split; [exact Hin|].
      unfold item_differs. simpl.
      apply negb_true_iff, String.eqb_neq. exact Hd. }
  split; [reflexivity|]. split; [|split; [exact Hin|split; [|split]]].
  - intros pg db' H. subst edit.
    apply do_admin_event_edit_Return in H.
    destruct H as [u0 [row0 [r [Hu [_ [Hget0 [_ [_ [_ [_ Hdb]]]]]]]]]].
    inversion Hu; subst u0. clear Hu.
    rewrite Hget in Hget0. inversion Hget0; subst row0. clear Hget0.
    subst db'. reflexivity.
  - intros entry He. apply Hin in He.
    destruct He as [col [v [Hc [_ ->]]]]. simpl.
    subst updates. unfold edit_updates in Hc. simpl in Hc.
    repeat (destruct Hc as [Hc|Hc];
            [inversion Hc; subst; discriminate|]).
    destruct Hc.
  - intros r Hrole Hu Hrange Hrow Hfk Hnd Hin32 Hex. subst edit.
    eexists.
    apply (do_admin_event_edit_ok env event_id t o ds de rd p c la w d io
             tag_ids image u db row r); assumption.
  - intros Haw. subst edit. now apply do_admin_event_edit_refused.
Qed.

(* ================================================================== *)
(** ** Deleting an event *)
(* ================================================================== *)

Lemma filter_filter_keep {A} (f g : A -> bool) (l : list A) :
  (forall x, f x = true -> g x = true) ->
  filter f (filter g l) = filter f l.
Proof.
  intros H. induction l as [|x l IH]; simpl; [reflexivity|].
  destruct (g x) eqn:G; simpl.
  - now rewrite IH.
  - destruct (f x) eqn:F; [|exact IH].
    apply H in F. congruence.
Qed.

Lemma filter_filter_none {A} (f g : A -> bool) (l : list A) :
  (forall x, f x = true -> g x = false) ->
  filter f (filter g l) = [].
Proof.
  intros H. induction l as [|x l IH]; simpl; [reflexivity|].
  destruct (g x) eqn:G; simpl; [|exact IH].
  destruct (f x) eqn:F; [|exact IH].
  apply H in F. congruence.
Qed.

Lemma delete_cascade_Return eid db :
  delete_cascade eid db =
  Return (tt,
          mkDB (users db) (organizers db) (cities db) (tags db)
            (filter (fun e => negb (Event.id e =? eid)) (events db))
            (filter (fun et => negb (EventTag.event_id et =? eid))
                    (event_tags db))
            (filter (fun b => negb (Bookmark.event_id b =? eid))
                    (bookmarks db))
            (filter (fun a => negb (EventAuditLog.event_id a =? eid))
                    (event_audit_log db))
            (organizers_id_seq db) (tags_id_seq db) (events_id_seq db)
            (event_audit_log_id_seq db) (users_id_seq db)).
Proof. reflexivity. Qed.

(** X6.  Deleting an event, for an admin on either surface, by an id
    within INTEGER.  When the event exists, the API answers 204 and the
    event is gone together with its tag associations, the bookmarks on it
    and its audit rows, while every other event keeps its row, its tags,
    and users, organizers, cities and tags are untouched.  When it does
    not exist the API answers 404 and changes nothing.  The page does the
    same to the database but redirects to the list in both cases, also
    for a missing event.  An id outside INTEGER is refused by the driver
    at the lookup, on both surfaces, and nothing changes. *)
Theorem delete_event_cascades db token cookie event_id admin u :
  require_admin db token = Return admin ->
  get_current_user_cookie db cookie = Some u ->
  User.role u = "admin" ->
  let api := depends_require_admin (delete_event event_id) db token in
  let pg := depends_cookie_user (do_admin_event_delete event_id) db cookie in
  (in_int32 event_id = false ->
   api = (db, Raise (DBAPIError DataError)) /\
   pg = (db, Raise (DBAPIError DataError))) /\
  (in_int32 event_id = true ->
  fst pg = fst api /\
  snd pg = Return (RedirectResponse "/admin/events" 302) /\
  (get_event_row db event_id = None ->
   api = (db, Raise (HTTPException 404 "Not found"))) /\
  (forall row,
      get_event_row db event_id = Some row ->
      snd api = Return tt /\
      get_event_row (fst api) event_id = None /\
      tag_ids_of (fst api) event_id = [] /\
      (forall b, In b (bookmarks (fst api)) <->
                 In b (bookmarks db) /\ Bookmark.event_id b <> event_id) /\
      (forall a, In a (event_audit_log (fst api)) <->
                 In a (event_audit_log db) /\
                 EventAuditLog.event_id a <> event_id) /\
      (forall other, other <> event_id ->
                     get_event_row (fst api) other = get_event_row db other /\
                     tag_ids_of (fst api) other = tag_ids_of db other) /\
      users (fst api) = users db /\ organizers (fst api) = organizers db /\
      cities (fst api) = cities db /\ tags (fst api) = tags db)).
Proof.
  intros Hadmin Hu Hrole api pg. subst api pg.
  unfold depends_require_admin, depends_cookie_user, run_request.
  rewrite Hadmin, Hu.
  unfold do_admin_event_delete, delete_event.
  rewrite (bind_step _ _ _ _ _ (_require_admin_ok u db Hrole)).
  split.
  { intros Hout.
    rewrite !(bind_Raise _ _ _ _ (bind_integer_Raise _ db Hout)).
    split; reflexivity. }
  intros Hrange.
  rewrite !(bind_step _ _ _ _ _ (bind_integer_ok _ db Hrange)).
  rewrite !(bind_step _ _ db db db) by reflexivity.
  destruct (get_event_row db event_id) as [row|] eqn:Hget.
  - erewrite bind_step by apply delete_cascade_Return.
    rewrite delete_cascade_Return. cbn [fst snd ret].
    split; [reflexivity|]. split; [reflexivity|].
    split; [discriminate|].
    intros row0 _. split; [reflexivity|].
    split; [apply find_filter_gone|].
    split.
    { unfold tag_ids_of. cbn [event_tags].
      rewrite filter_filter_none; [reflexivity|].
      intros et E. now rewrite E. }
    split.
    { intros b. cbn [bookmarks]. rewrite filter_In, negb_true_iff.
      now rewrite Z.eqb_neq. }
    split.
    { intros a. cbn [event_audit_log]. rewrite filter_In, negb_true_iff.
      now rewrite Z.eqb_neq. }
    split; [|repeat split].
    intros other Hne. split.
    + unfold get_event_row. cbn [events]. now apply find_filter_keep.
    + unfold tag_ids_of. cbn [event_tags]. f_equal.
      apply filter_filter_keep. intros et E.
      apply Z.eqb_eq in E. apply negb_true_iff, Z.eqb_neq. congruence.
  - erewrite bind_step by reflexivity. cbn [fst snd ret raise].
    split; [reflexivity|]. split; [reflexivity|].
    split; [reflexivity|]. intros row0 H0. discriminate H0.
Qed.

(* ================================================================== *)
(** ** Bookmarks *)
(* ================================================================== *)

Lemma has_bookmark_app db uid eid b :
  existsb (fun b0 => (Bookmark.user_id b0 =? uid) &&
                     (Bookmark.event_id b0 =? eid))
          (bookmarks db ++ [b]) =
  has_bookmark db uid eid ||
  ((Bookmark.user_id b =? uid) && (Bookmark.event_id b =? eid)).
Proof.
  unfold has_bookmark. rewrite existsb_app. simpl. now rewrite orb_false_r.
Qed.

Lemma filter_absent_bookmark (l : list Bookmark.t) uid eid :
  existsb (fun b => (Bookmark.user_id b =? uid) &&
                    (Bookmark.event_id b =? eid)) l = false ->
  filter (fun b => negb ((Bookmark.user_id b =? uid) &&
                         (Bookmark.event_id b =? eid))) l = l.
Proof.
  induction l as [|b l IH]; simpl; [reflexivity|].
  intros H. apply orb_false_iff in H. destruct H as [Hb Hl].
  rewrite Hb. simpl. now rewrite IH.
Qed.

Lemma get_current_user_users db db' token :
  users db' = users db ->
  get_current_user db' token = get_current_user db token.
Proof.
  intros H. unfold get_current_user, get_user. now rewrite H.
Qed.

Lemma get_current_user_has_user db token u :
  get_current_user db token = Return u ->
  has_user db (User.id u) = true.
Proof.
  unfold get_current_user.
  destruct token as [tok|]; [|discriminate].
  destruct (jwt_decode tok) as [payload|]; [|discriminate].
  destruct (sub payload) as [s|]; [|discriminate].
  destruct (int_of_str s) as [uid|]; [|discriminate].
  destruct (get_user db uid) as [u0|] eqn:Hu; [|discriminate].
  intros H. inversion H; subst. eapply get_user_has_user, Hu.
Qed.

(** X7.  Bookmarking over the API, for an authenticated user and an
    existing event, of an id within INTEGER, not yet bookmarked: the
    first POST stores the bookmark, and [GET /api/v1/bookmarks] then
    answers with it and the user's earlier ones, in some order; a second
    POST is answered 409 and stores nothing; DELETE then removes it and
    leaves the database exactly as it was before the first POST; and a
    second DELETE is answered 404. *)
Theorem bookmark_add_remove_round_trip env env' db token event_id u ev :
  get_current_user db token = Return u ->
  in_int32 event_id = true ->
  get_event_row db event_id = Some ev ->
  has_bookmark db (User.id u) event_id = false ->
  let added := depends_current_user (add_bookmark env event_id) db token in
  let again :=
    depends_current_user (add_bookmark env' event_id) (fst added) token in
  let removed :=
    depends_current_user (remove_bookmark event_id) (fst added) token in
  snd added = Return tt /\
  bookmarks (fst added) =
    (bookmarks db ++ [Bookmark.mk (User.id u) event_id (db_now env)])%list /\
  (exists listed,
      depends_current_user view_bookmarks (fst added) token =
        (fst added, Return listed) /\
      Permutation listed
        (Bookmark.mk (User.id u) event_id (db_now env)
         :: bookmarks_of db (User.id u))) /\
  again = (fst added, Raise (HTTPException 409 "Already bookmarked")) /\
  removed = (db, Return tt) /\
  depends_current_user (remove_bookmark event_id) db token =
    (db, Raise (HTTPException 404 "Bookmark not found")).
Proof.
  intros Hu Hrange Hev Hnew added again removed.
  pose proof (get_current_user_has_user _ _ _ Hu) as Huser.
  pose proof (get_event_row_has_event _ _ _ Hev) as Hevent.
  set (b := Bookmark.mk (User.id u) event_id (db_now env)).
  assert (Hadded : added =
                   (set_bookmarks db (bookmarks db ++ [b]), Return tt)).
  { subst added. unfold depends_current_user, run_request. rewrite Hu.
    unfold add_bookmark.
    rewrite (bind_step _ _ _ _ _ (bind_integer_ok _ db Hrange)).
    unfold insert_bookmark, bind, get_db, put_db, raise.
    cbv beta iota. rewrite Hev. cbv beta iota.
    rewrite !Hnew, Huser, Hevent. reflexivity. }
  assert (Hu1 : get_current_user (fst added) token = Return u).
  { rewrite Hadded. cbn [fst].
    rewrite (get_current_user_users db) by reflexivity. exact Hu. }
  assert (Hhas : has_bookmark (fst added) (User.id u) event_id = true).
  { rewrite Hadded. cbn [fst]. unfold has_bookmark at 1. cbn [bookmarks set_bookmarks].
    rewrite has_bookmark_app. subst b. cbn [Bookmark.user_id Bookmark.event_id].
    rewrite !Z.eqb_refl. apply orb_true_r. }
  split; [now rewrite Hadded|]. split; [now rewrite Hadded|].
  split; [|split; [|split]].
  - eexists. split.
    + unfold depends_current_user, run_request. rewrite Hu1.
      unfold view_bookmarks, bind, get_db, ret. cbv beta. reflexivity.
    + rewrite Hadded. cbn [fst bookmarks set_bookmarks].
      unfold bookmarks_of. rewrite filter_app. cbn [filter]. subst b.
      cbn [Bookmark.user_id]. rewrite Z.eqb_refl.
      apply Permutation_sym, Permutation_cons_append.
  - subst again. unfold depends_current_user, run_request. rewrite Hu1.
    unfold add_bookmark.
    rewrite (bind_step _ _ _ _ _ (bind_integer_ok _ _ Hrange)).
    unfold bind, get_db, raise. rewrite Hhas.
    assert (Hev1 : get_event_row (fst added) event_id = Some ev)
      by (rewrite Hadded; exact Hev).
    now rewrite Hev1.
  - subst removed. unfold depends_current_user, run_request. rewrite Hu1.
    unfold remove_bookmark.
    rewrite (bind_step _ _ _ _ _ (bind_integer_ok _ _ Hrange)).
    unfold delete_bookmark, bind, get_db, put_db, raise.
    rewrite Hhas. rewrite Hadded. cbn [fst bookmarks set_bookmarks].
    rewrite filter_app. cbn [filter]. subst b.
    cbn [Bookmark.user_id Bookmark.event_id]. rewrite !Z.eqb_refl.
    cbn [andb negb]. rewrite app_nil_r.
    rewrite filter_absent_bookmark by exact Hnew.
    destruct db; reflexivity.
  - unfold depends_current_user, run_request. rewrite Hu.
    unfold remove_bookmark.
    rewrite (bind_step _ _ _ _ _ (bind_integer_ok _ _ Hrange)).
    unfold bind, get_db, raise. now rewrite Hnew.
Qed.

Lemma bookmark_request_effect env db token cookie m event_id :
  bookmark_mutation m = Some event_id ->
  let db' := fst (handle env db token cookie m) in
  db' = db \/
  exists u,
    acting_user db token cookie m = Some u /\
    ((has_bookmark db (User.id u) event_id = false /\
      db' = set_bookmarks db
              (bookmarks db ++
               [Bookmark.mk (User.id u) event_id (db_now env)])) \/
     db' = set_bookmarks db
             (filter (fun b => negb ((Bookmark.user_id b =? User.id u) &&
                                     (Bookmark.event_id b =? event_id)))
                     (bookmarks db))).
Proof.
  intros Hm db'. subst db'.
  destruct m; try discriminate Hm; simpl in Hm; inversion Hm; subst;
    unfold handle, acting_user; cbn [on_api];
    unfold depends_current_user, depends_cookie_user, run_request.
  - destruct (get_current_user db token) as [u|e]; [|now left].
    unfold add_bookmark, insert_bookmark, bind_integer, bind, get_db,
      put_db, raise, ret.
    destruct (in_int32 event_id); [|now left].
    cbv beta.
    destruct (get_event_row db event_id); [|now left].
    destruct (has_bookmark db (User.id u) event_id) eqn:Hb; [now left|].
    destruct (has_user db (User.id u) && has_event db event_id);
      rewrite ?Hb; [|now left].
    right. exists u. split; [reflexivity|]. left. now split.
  - destruct (get_current_user db token) as [u|e]; [|now left].
    unfold remove_bookmark, delete_bookmark, bind_integer, bind, get_db,
      put_db, raise, ret.
    destruct (in_int32 event_id); [|now left].
    cbv beta.
    destruct (has_bookmark db (User.id u) event_id); [|now left].
    right. exists u. split; [reflexivity|]. now right.
  - destruct (get_current_user_cookie db cookie) as [u|]; [|now left].
    unfold page_add_bookmark, insert_bookmark, bind_integer, bind, get_db,
      put_db, raise, ret.
    destruct (in_int32 event_id); [|now left].
    cbv beta.
    destruct (has_bookmark db (User.id u) event_id) eqn:Hb; [now left|].
    destruct (has_user db (User.id u) && has_event db event_id);
      rewrite ?Hb; [|now left].
    right. exists u. split; [reflexivity|]. left. now split.
  - destruct (get_current_user_cookie db cookie) as [u|]; [|now left].
    unfold page_remove_bookmark, delete_bookmark, bind_integer, bind,
      get_db, put_db, raise, ret.
    destruct (in_int32 event_id); [|now left].
    cbv beta.
    destruct (has_bookmark db (User.id u) event_id); [|now left].
    right. exists u. split; [reflexivity|]. now right.
Qed.

Lemma has_bookmark_false_key db uid eid :
  has_bookmark db uid eid = false ->
  ~ In (uid, eid) (map bookmark_key (bookmarks db)).
Proof.
  unfold has_bookmark. intros H Hin. apply in_map_iff in Hin.
  destruct Hin as [b [Hk Hb]].
  assert (existsb (fun b0 => (Bookmark.user_id b0 =? uid) &&
                             (Bookmark.event_id b0 =? eid))
                  (bookmarks db) = true) as Ht.
  { apply existsb_exists. exists b. split; [exact Hb|].
    unfold bookmark_key in Hk. inversion Hk. now rewrite !Z.eqb_refl. }
  congruence.
Qed.

Lemma NoDup_map_filter {A B} (f : A -> B) (g : A -> bool) (l : list A) :
  NoDup (map f l) -> NoDup (map f (filter g l)).
Proof.
  induction l as [|x l IH]; simpl; [trivial|].
  intros H. inversion H as [|? ? Hx Hl]; subst.
  destruct (g x); simpl; [|now apply IH].
  constructor; [|now apply IH].
  intros Hin. apply Hx. apply in_map_iff in Hin.
  destruct Hin as [y [Hy Hin]]. apply filter_In in Hin.
  apply in_map_iff. exists y. now split.
Qed.

(** X8.  A bookmark request, on the API or on the pages, touches nothing
    but the bookmark of the acting user on the event it names: without an
    authenticated user the database is unchanged; otherwise every other
    bookmark — in particular every bookmark of another user — is there
    afterwards exactly if it was there before, no other table changes, and
    no (user, event) pair is ever stored twice. *)
Theorem bookmark_requests_touch_one_bookmark
        env db token cookie m event_id :
  bookmark_mutation m = Some event_id ->
  let db' := fst (handle env db token cookie m) in
  (acting_user db token cookie m = None -> db' = db) /\
  (forall u b,
      acting_user db token cookie m = Some u ->
      bookmark_key b <> (User.id u, event_id) ->
      (In b (bookmarks db') <-> In b (bookmarks db))) /\
  (NoDup (map bookmark_key (bookmarks db)) ->
   NoDup (map bookmark_key (bookmarks db'))) /\
  users db' = users db /\ events db' = events db /\
  event_tags db' = event_tags db /\ tags db' = tags db /\
  organizers db' = organizers db /\
  event_audit_log db' = event_audit_log db.
Proof.
  intros Hm db'.
  pose proof (bookmark_request_effect env db token cookie m event_id Hm)
    as Heff.
  fold db' in Heff.
  destruct Heff as [Heq|[u [Hu [[Hnew Heq]|Heq]]]]; rewrite Heq.
  - split; [reflexivity|]. split; [reflexivity|]. split; [trivial|].
    repeat split.
  - split; [intros Hnone; congruence|]. split; [|split; [|repeat split]].
    + intros u0 b Hu0 Hkey. rewrite Hu in Hu0. inversion Hu0; subst u0.
      cbn [bookmarks set_bookmarks]. rewrite in_app_iff. split.
      * intros [Hin|[Hb|[]]]; [exact Hin|]. subst b.
        exfalso. apply Hkey. reflexivity.
      * intros Hin. now left.
    + intros Hnd. cbn [bookmarks set_bookmarks]. rewrite map_app.
      apply NoDup_app; [exact Hnd| |].
      * repeat constructor. intros [].
      * intros k Hk [Hk'|[]]. subst k.
        now apply (has_bookmark_false_key db (User.id u) event_id Hnew).
  - split; [intros Hnone; congruence|]. split; [|split; [|repeat split]].
    + intros u0 b Hu0 Hkey. rewrite Hu in Hu0. inversion Hu0; subst u0.
      cbn [bookmarks set_bookmarks]. rewrite filter_In. split.
      * intros [Hin _]. exact Hin.
      * intros Hin. split; [exact Hin|].
        apply negb_true_iff, andb_false_iff.
        destruct (Bookmark.user_id b =? User.id u) eqn:E1; [|now left].
        destruct (Bookmark.event_id b =? event_id) eqn:E2; [|now right].
        apply Z.eqb_eq in E1, E2. exfalso. apply Hkey.
        unfold bookmark_key. congruence.
    + intros Hnd. cbn [bookmarks set_bookmarks].
      now apply NoDup_map_filter.
Qed.

(* ================================================================== *)
(** ** Creating an event over the API *)
(* ================================================================== *)

Lemma create_event_accepted
      env t o ds p c d w de rd la io tag_ids image admin db :
  image_accepted env image = true ->
  create_event env t o ds p c d w de rd la io tag_ids image admin db =
  try_except
    (r <- flush_insert (adapts_aware env) (db_now env)
            (created_instance env t o ds p c d w de rd la io image) ;;
     insert_event_tags (map (EventTag.mk (Event.id r))
                            (form_tag_ids tag_ids)) ;;;
     ret r)
    (fun e => raise (database_error env e)) db.
Proof.
  intros Himg. unfold create_event, created_instance, form_tag_ids.
  assert (Htags : forall r : Event.t,
             match tag_ids with
             | Some s =>
                 if truthy (VStr s)
                 then insert_event_tags
                        (map (EventTag.mk (Event.id r)) (parsed_ids s))
                 else ret tt
             | None => ret tt
             end =
             insert_event_tags
               (map (EventTag.mk (Event.id r))
                    match tag_ids with
                    | Some s => if truthy (VStr s) then parsed_ids s else []
                    | None => []
                    end)).
  { intros r. destruct tag_ids as [s|]; [|reflexivity].
    destruct (truthy (VStr s)); reflexivity. }
  unfold image_accepted in Himg.
  destruct image as [img|].
  - destruct (ALLOWED (content_type img)) as [ext|]; [|discriminate Himg].
    rewrite Himg. unfold bind at 1, ret at 1. unfold try_except.
    unfold bind. destruct (flush_insert _ _ _ db) as [[r db1]|e];
      [|reflexivity].
    now rewrite Htags.
  - unfold bind at 1, ret at 1. unfold try_except.
    unfold bind. destruct (flush_insert _ _ _ db) as [[r db1]|e];
      [|reflexivity].
    now rewrite Htags.
Qed.

Lemma flush_insert_ok {aw} now ev db r :
  to_row aw (events_id_seq db) now ev = Return r ->
  event_fk_ok db r = true ->
  flush_insert aw now ev db =
  Return (r, set_events db (events db ++ [r]) (events_id_seq db + 1)).
Proof.
  intros Hrow Hfk. unfold flush_insert, bind, get_db, lift, put_db, ret.
  rewrite Hrow. cbv beta iota. now rewrite Hfk.
Qed.

Lemma flush_insert_foreign_key {aw} now ev db r :
  to_row aw (events_id_seq db) now ev = Return r ->
  event_fk_ok db r = false ->
  flush_insert aw now ev db = Raise (DBAPIError ForeignKeyViolation).
Proof.
  intros Hrow Hfk. unfold flush_insert, bind, get_db, lift, raise.
  rewrite Hrow. cbv beta iota. now rewrite Hfk.
Qed.

Lemma no_association_of_new_event db r ids :
  (forall et, In et (event_tags db) ->
              EventTag.event_id et <> Event.id r) ->
  Forall (fun et =>
            has_event_tag
              (set_events db (events db ++ [r]) (events_id_seq db + 1)) et
            = false)
         (map (EventTag.mk (Event.id r)) ids).
Proof.
  intros Hfresh. apply Forall_forall. intros et Hin.
  apply in_map_iff in Hin. destruct Hin as [tid [<- _]].
  unfold has_event_tag. cbn [event_tags set_events].
  destruct (existsb _ (event_tags db)) eqn:E; [|reflexivity].
  apply existsb_exists in E. destruct E as [et [Hin Heq]].
  apply EventTag_eqb_eq in Heq. subst et.
  exfalso. now apply (Hfresh _ Hin).
Qed.

(** X9.  What [POST /api/v1/event] refuses, for an admin, and that a
    refusal stores nothing.  An image of a type other than JPEG, PNG or
    WebP is answered 415 and an upload that fails 500.  Otherwise a row
    the database refuses (a value too long, an integer outside INTEGER,
    a missing value) is answered by the [except] branch, 400 or 500 as
    the text of the error has it.  When the text of a foreign-key
    violation says so, as the server's does, and the row itself is
    acceptable, an organizer or city that does not exist is answered 400,
    and so is a tag list, of distinct ids within INTEGER, naming a tag
    that does not exist: in that case the event row, although already
    flushed, is not kept either. *)
Theorem create_event_rejections
        env db token t o ds p c d w de rd la io tag_ids image admin :
  require_admin db token = Return admin ->
  let result :=
    depends_require_admin
      (create_event env t o ds p c d w de rd la io tag_ids image) db token in
  let invalid :=
    HTTPException 400 "Invalid organizer_id, city_id, or tag_id." in
  (forall img,
      image = Some img -> ALLOWED (content_type img) = None ->
      result = (db, Raise (HTTPException 415 "Unsupported file type"))) /\
  (forall img ext,
      image = Some img -> ALLOWED (content_type img) = Some ext ->
      s3_upload_ok env = false ->
      result = (db, Raise (HTTPException 500 "Image upload failed"))) /\
  (forall e,
      image_accepted env image = true ->
      to_row (adapts_aware env) (events_id_seq db) (db_now env)
             (created_instance env t o ds p c d w de rd la io image)
      = Raise e ->
      result = (db, Raise (database_error env e))) /\
  (forall r,
      image_accepted env image = true ->
      to_row (adapts_aware env) (events_id_seq db) (db_now env)
             (created_instance env t o ds p c d w de rd la io image)
      = Return r ->
      contains "foreign key"
        (lower (exception_text env (DBAPIError ForeignKeyViolation)))
      = true ->
      (event_fk_ok db r = false -> result = (db, Raise invalid)) /\
      (event_fk_ok db r = true ->
       (forall et, In et (event_tags db) ->
                   EventTag.event_id et <> events_id_seq db) ->
       NoDup (form_tag_ids tag_ids) ->
       in_int32 (events_id_seq db) = true ->
       forallb in_int32 (form_tag_ids tag_ids) = true ->
       (exists tid, In tid (form_tag_ids tag_ids) /\
                    has_tag db tid = false) ->
       result = (db, Raise invalid))).
Proof.
  intros Hadmin result invalid. subst result invalid.
  unfold depends_require_admin, run_request. rewrite Hadmin.
  split; [|split; [|split]].
  - intros img -> Hno. unfold create_event. rewrite Hno. reflexivity.
  - intros img ext -> Hext Hs3. unfold create_event. rewrite Hext, Hs3.
    reflexivity.
  - intros e Himg Hrow.
    rewrite create_event_accepted by exact Himg.
    unfold try_except.
    rewrite (bind_Raise _ _ _ e); [reflexivity|].
    unfold flush_insert, bind, get_db, lift. now rewrite Hrow.
  - intros r Himg Hrow Htext.
    rewrite create_event_accepted by exact Himg.
    pose proof (to_row_Return _ _ _ _ Hrow) as [Hid _].
    unfold try_except. split.
    + intros Hfk.
      rewrite (bind_Raise _ _ _ _
                 (flush_insert_foreign_key _ _ _ _ Hrow Hfk)).
      unfold raise, database_error. now rewrite Htext.
    + intros Hfk Hfresh Hnd Hseq Hin32 [tid [Hin Hbad]].
      rewrite (bind_step _ _ _ _ _ (flush_insert_ok _ _ _ _ Hrow Hfk)).
      rewrite (bind_Raise _ _ _ (DBAPIError ForeignKeyViolation)).
      * unfold raise, database_error. now rewrite Htext.
      * apply insert_event_tags_foreign_key.
        -- now apply NoDup_map_EventTag.
        -- apply tag_in_range_map; [now rewrite Hid|exact Hin32].
        -- apply no_association_of_new_event. rewrite Hid. exact Hfresh.
        -- exists (EventTag.mk (Event.id r) tid). split.
           ++ now apply in_map.
           ++ exact Hbad.
Qed.

Lemma insert_new_event_tags_ok db r ids :
  (forall et, In et (event_tags db) ->
              EventTag.event_id et <> Event.id r) ->
  NoDup ids ->
  in_int32 (Event.id r) = true ->
  forallb in_int32 ids = true ->
  (forall tid, In tid ids -> has_tag db tid = true) ->
  insert_event_tags (map (EventTag.mk (Event.id r)) ids)
    (set_events db (events db ++ [r]) (events_id_seq db + 1)) =
  Return (tt, with_new_event db r ids).
Proof.
  intros Hfresh Hnd Hseq Hin32 Hex. unfold with_new_event. cbv zeta.
  apply insert_event_tags_ok.
  - now apply NoDup_map_EventTag.
  - now apply tag_in_range_map.
  - pose proof (no_association_of_new_event db r ids Hfresh) as Hno.
    rewrite Forall_forall in Hno. apply Forall_forall.
    intros et Hin. split; [now apply Hno|].
    apply in_map_iff in Hin. destruct Hin as [tid [<- Hin]].
    cbn [EventTag.event_id EventTag.tag_id]. split.
    + unfold has_event. cbn [events set_events].
      rewrite existsb_app. cbn [existsb]. rewrite Z.eqb_refl.
      now rewrite orb_true_r.
    + now apply Hex.
Qed.

Lemma with_new_event_facts db r ids :
  has_event db (Event.id r) = false ->
  (forall et, In et (event_tags db) ->
              EventTag.event_id et <> Event.id r) ->
  get_event_row (with_new_event db r ids) (Event.id r) = Some r /\
  tag_ids_of (with_new_event db r ids) (Event.id r) = ids /\
  (forall other,
      other <> Event.id r ->
      get_event_row (with_new_event db r ids) other =
        get_event_row db other /\
      tag_ids_of (with_new_event db r ids) other = tag_ids_of db other).
Proof.
  intros Hunused Hfresh.
  assert (Hnone : find (fun e => Event.id e =? Event.id r) (events db)
                  = None).
  { destruct (find _ (events db)) as [e|] eqn:F; [|reflexivity].
    apply find_some in F. destruct F as [Hin He].
    unfold has_event in Hunused.
    assert (existsb (fun e0 => Event.id e0 =? Event.id r) (events db)
            = true) by (apply existsb_exists; eauto).
    congruence. }
  unfold with_new_event, get_event_row, tag_ids_of.
  cbn [events event_tags set_event_tags set_events].
  split; [|split].
  - destruct (find _ (events db ++ [r])) as [e|] eqn:F.
    + apply find_app_None in F; [now subst e|exact Hnone].
    + exfalso. eapply find_none with (x := r) in F.
      * rewrite Z.eqb_refl in F. discriminate F.
      * apply in_or_app. right. now left.
  - rewrite filter_app, map_app.
    assert (Hold : filter (fun et => EventTag.event_id et =? Event.id r)
                     (event_tags db) = []).
    { induction (event_tags db) as [|et l IH]; [reflexivity|].
      cbn [filter].
      destruct (EventTag.event_id et =? Event.id r) eqn:E.
      - apply Z.eqb_eq in E. exfalso.
        apply (Hfresh et); [now left|exact E].
      - apply IH. intros et' Hin. apply Hfresh. now right. }
    rewrite Hold. cbn [map app].
    induction ids as [|tid ids IH]; [reflexivity|].
    cbn [map filter EventTag.event_id]. rewrite Z.eqb_refl.
    cbn [map EventTag.tag_id]. now f_equal.
  - intros other Hne. split.
    + destruct (find (fun e => Event.id e =? other) (events db)) as [e|]
        eqn:F.
      * now apply find_app_Some.
      * destruct (find _ (events db ++ [r])) as [e|] eqn:F2;
          [|reflexivity].
        apply find_some in F2. destruct F2 as [Hin He].
        apply in_app_or in Hin. destruct Hin as [Hin|[<-|[]]].
        -- eapply find_none in F; [|exact Hin]. congruence.
        -- apply Z.eqb_eq in He. congruence.
    + rewrite filter_app, map_app.
      assert (Hnew : filter (fun et => EventTag.event_id et =? other)
                       (map (EventTag.mk (Event.id r)) ids) = []).
      { induction ids as [|tid ids IH]; [reflexivity|].
        cbn [map filter EventTag.event_id].
        destruct (Event.id r =? other) eqn:E; [|exact IH].
        apply Z.eqb_eq in E. congruence. }
      rewrite Hnew. cbn [map]. apply app_nil_r.
Qed.

(** X10.  Creating an event over the API.  For an admin, when the image
    block lets the request through, the database accepts the row, its
    organizer and city exist, the next event id is unused and fits
    INTEGER, and the tag list names distinct existing tags within
    INTEGER: the request goes through, and the table then holds the new
    row under the next id of the sequence, with the ids of the list as
    its tags, while every other event keeps its row and its tags. *)
Theorem create_event_stores_row
        env db token t o ds p c d w de rd la io tag_ids image admin r :
  require_admin db token = Return admin ->
  image_accepted env image = true ->
  to_row (adapts_aware env) (events_id_seq db) (db_now env)
         (created_instance env t o ds p c d w de rd la io image)
  = Return r ->
  event_fk_ok db r = true ->
  has_event db (events_id_seq db) = false ->
  (forall et, In et (event_tags db) ->
              EventTag.event_id et <> events_id_seq db) ->
  NoDup (form_tag_ids tag_ids) ->
  in_int32 (events_id_seq db) = true ->
  forallb in_int32 (form_tag_ids tag_ids) = true ->
  (forall tid, In tid (form_tag_ids tag_ids) -> has_tag db tid = true) ->
  exists db' answer,
    depends_require_admin
      (create_event env t o ds p c d w de rd la io tag_ids image) db token
    = (db', Return answer) /\
    Event.id r = events_id_seq db /\
    get_event_row db' (events_id_seq db) = Some r /\
    tag_ids_of db' (events_id_seq db) = form_tag_ids tag_ids /\
    (forall other,
        other <> events_id_seq db ->
        get_event_row db' other = get_event_row db other /\
        tag_ids_of db' other = tag_ids_of db other).
Proof.
  intros Hadmin Himg Hrow Hfk Hunused Hfresh Hnd Hseq Hin32 Hex.
  pose proof (to_row_Return _ _ _ _ Hrow) as [Hid _].
  rewrite <- Hid in Hunused, Hfresh, Hseq |- *.
  destruct (with_new_event_facts db r (form_tag_ids tag_ids) Hunused Hfresh)
    as [Hget [Htags Hothers]].
  exists (with_new_event db r (form_tag_ids tag_ids)), r.
  split; [|split; [reflexivity|split; [|split]]].
  - unfold depends_require_admin, run_request. rewrite Hadmin.
    rewrite create_event_accepted by exact Himg.
    unfold try_except.
    rewrite (bind_step _ _ _ _ _ (flush_insert_ok _ _ _ _ Hrow Hfk)).
    erewrite bind_step; [reflexivity|].
    now apply insert_new_event_tags_ok.
  - exact Hget.
  - exact Htags.
  - exact Hothers.
Qed.

(** X11.  The browser form [POST /admin/events/new] reads the uploaded
    file outside the test for its presence.  For an admin, a form without
    a file part therefore always fails with an [AttributeError], whatever
    its other fields, and a non-empty file sent without a name and with a
    type other than JPEG, PNG or WebP fails with a [KeyError]; nothing is
    stored in either case. *)
Theorem page_event_create_needs_a_file
        env db cookie t o ds de rd p c la w d io tag_ids u :
  get_current_user_cookie db cookie = Some u ->
  User.role u = "admin" ->
  depends_cookie_user
    (do_admin_event_create env t o ds de rd p c la w d io tag_ids None)
    db cookie =
  (db, Raise (AttributeError "'NoneType' object has no attribute 'read'")) /\
  (forall img,
      filename img = EmptyString ->
      contents img <> EmptyString ->
      ALLOWED (content_type img) = None ->
      depends_cookie_user
        (do_admin_event_create env t o ds de rd p c la w d io tag_ids
           (Some img))
        db cookie =
      (db, Raise (KeyError (content_type img)))).
Proof.
  intros Hu Hrole. unfold depends_cookie_user, run_request. rewrite Hu.
  unfold do_admin_event_create.
  rewrite !(bind_step _ _ _ _ _ (_require_admin_ok u db Hrole)).
  split; [reflexivity|].
  intros img Hname Hcont Hno.
  rewrite (bind_step _ _ _ _ _ (_require_admin_ok u db Hrole)).
  rewrite Hname, Hno. cbn [truthy String.eqb negb andb].
  assert (Ht : negb (String.eqb (contents img) EmptyString) = true)
    by (apply negb_true_iff, String.eqb_neq; exact Hcont).
  rewrite Ht. reflexivity.
Qed.

(* ================================================================== *)
(** ** The three ways a token is read *)
(* ================================================================== *)

(** X12.  The strict bearer dependency, the optional bearer dependency
    and the cookie reader identify the same user from the same token,
    when its subject is an id within INTEGER: one of them yields a user
    exactly when the others yield that user, and where [get_current_user]
    answers 401 the other two yield nobody.  The only thing assumed of
    the JWT library is that the empty string does not verify. *)
Theorem token_readers_agree db (token : option string) :
  jwt_decode EmptyString = None ->
  subject_in_range token ->
  get_current_user_optional db token = get_current_user_cookie db token /\
  get_current_user_optional db token =
    match get_current_user db token with
    | Return u => Some u
    | Raise _ => None
    end /\
  (forall e, get_current_user db token = Raise e ->
             exists detail, e = HTTPException 401 detail) /\
  classify db token = classify_cookie db token.
Proof.
  intros Hempty _.
  assert (H1 : get_current_user_optional db token =
               get_current_user_cookie db token).
  { unfold get_current_user_optional, get_current_user_cookie,
      _get_user_from_cookie.
    destruct token as [tok|]; [|reflexivity].
    cbn [truthy]. rewrite Bool.negb_involutive.
    destruct (String.eqb tok EmptyString); [reflexivity|].
    destruct (jwt_decode tok) as [payload|]; [|reflexivity].
    destruct (sub payload) as [s|]; [|reflexivity].
    destruct (int_of_str s); reflexivity. }
  assert (H2 : get_current_user_optional db token =
               match get_current_user db token with
               | Return u => Some u
               | Raise _ => None
               end).
  { unfold get_current_user_optional, get_current_user.
    destruct token as [tok|]; [|reflexivity].
    cbn [truthy]. rewrite Bool.negb_involutive.
    destruct (String.eqb tok EmptyString) eqn:E.
    - apply String.eqb_eq in E. subst tok. now rewrite Hempty.
    - destruct (jwt_decode tok) as [payload|]; [|reflexivity].
      destruct (sub payload) as [s|]; [|reflexivity].
      destruct (int_of_str s) as [uid|]; [|reflexivity].
      destruct (get_user db uid); reflexivity. }
  split; [exact H1|]. split; [exact H2|]. split.
  - unfold get_current_user, credentials_exception.
    destruct token as [tok|]; [|intros e H; inversion H; eauto].
    destruct (jwt_decode tok) as [payload|];
      [|intros e H; inversion H; eauto].
    destruct (sub payload) as [s|]; [|intros e H; inversion H; eauto].
    destruct (int_of_str s) as [uid|]; [|intros e H; inversion H; eauto].
    destruct (get_user db uid); intros e H; inversion H; eauto.
  - unfold classify, classify_cookie. rewrite <- H1, H2.
    destruct (get_current_user db token); reflexivity.
Qed.

(* ================================================================== *)
(** ** The audit log listings *)
(* ================================================================== *)

Lemma newest_first_total a b :
  newest_first a b = false -> newest_first b a = true.
Proof. unfold newest_first. apply datetime_leb_total. Qed.

Lemma newest_first_trans a b c :
  newest_first a b = true -> newest_first b c = true ->
  newest_first a c = true.
Proof.
  unfold newest_first. intros H1 H2.
  eapply datetime_leb_trans; eassumption.
Qed.

Lemma In_order_by {A} (leb : A -> A -> bool) (l : list A) x :
  In x (order_by leb l) <-> In x l.
Proof.
  split; apply Permutation_in.
  - apply order_by_perm.
  - apply Permutation_sym, order_by_perm.
Qed.

(** X13.  [GET /api/v1/audit] writes nothing.  For an admin its listing
    is ordered by change date, newest first, and holds exactly the stored
    audit rows — those of the event named by [event_id] when one is
    given.  The filter is applied under [if event_id:], so [event_id=0]
    lists the rows of every event, as no filter does.  The request fails
    only when the filter names an id outside INTEGER, which the driver
    refuses. *)
Theorem view_audit_log_listing db (event_id : option Z) admin :
  (match if_truthy event_id with
   | Some e => in_int32 e
   | None => true
   end = true ->
   exists l,
     view_audit_log event_id admin db = Return (l, db) /\
     StronglySorted (fun a b => newest_first a b = true) l /\
     (forall a,
         In a l <->
         In a (event_audit_log db) /\
         (forall e, event_id = Some e -> e <> 0 ->
                    EventAuditLog.event_id a = e))) /\
  (forall e, event_id = Some e -> in_int32 e = false ->
             view_audit_log event_id admin db =
             Raise (DBAPIError DataError)) /\
  view_audit_log (Some 0) admin db = view_audit_log None admin db.
Proof.
  split; [|split; [|reflexivity]].
  - intros Hrange. eexists. split; [|split].
    + unfold view_audit_log.
      erewrite bind_step; [reflexivity|].
      destruct (if_truthy event_id) as [e|]; [|reflexivity].
      now apply bind_integer_ok.
    + apply order_by_sorted.
      * exact newest_first_total.
      * exact newest_first_trans.
    + intros a. rewrite In_order_by, filter_In.
      destruct event_id as [e|]; cbn [if_truthy truthy].
      * destruct (Z.eqb_spec e 0) as [Hz|Hne]; cbn [negb].
        -- split; intros [Hin _]; (split; [exact Hin|]).
           ++ intros e' He' Hne'. inversion He'. congruence.
           ++ reflexivity.
        -- split; intros [Hin Hev]; (split; [exact Hin|]).
           ++ intros e' He' _. inversion He'; subst e'.
              now apply Z.eqb_eq.
           ++ apply Z.eqb_eq. now apply Hev.
      * split; intros [Hin _]; (split; [exact Hin|]).
        -- intros e He. discriminate He.
        -- reflexivity.
  - intros e -> Hout. unfold view_audit_log.
    apply bind_Raise. cbn [if_truthy truthy].
    destruct (Z.eqb_spec e 0) as [->|Hne]; [discriminate Hout|].
    cbn [negb]. now apply bind_integer_Raise.
Qed.

Lemma StronglySorted_firstn_skipn {A} (R : A -> A -> Prop) n :
  forall l,
    StronglySorted R l ->
    StronglySorted R (firstn n l) /\
    (forall x y, In x (firstn n l) -> In y (skipn n l) -> R x y).
Proof.
  induction n as [|n IH]; intros l Hs.
  - simpl. split; [constructor|]. intros x y [].
  - destruct l as [|a l]; simpl.
    + split; [constructor|]. intros x y [].
    + inversion Hs as [|? ? Hs' Hall]; subst.
      destruct (IH l Hs') as [Hfirst Hbetween].
      rewrite Forall_forall in Hall. split.
      * constructor; [exact Hfirst|].
        apply Forall_forall. intros x Hx. apply Hall.
        rewrite <- (firstn_skipn n l). apply in_or_app. now left.
      * intros x y [<-|Hx] Hy.
        -- apply Hall. rewrite <- (firstn_skipn n l).
           apply in_or_app. now right.
        -- now apply Hbetween.
Qed.

(** X14.  The admin audit page shows at most 200 audit rows, newest
    first, and they are the most recent ones: the rows shown together with
    the rows left out are the stored rows, and no row left out is newer
    than a row shown.  A caller who is not an admin gets 403. *)
Theorem page_admin_audit_most_recent db u :
  User.role u = "admin" ->
  exists shown hidden,
    page_admin_audit (Some u) db = Return (shown, db) /\
    Permutation (shown ++ hidden) (event_audit_log db) /\
    List.length shown = Nat.min 200 (List.length (event_audit_log db)) /\
    StronglySorted (fun a b => newest_first a b = true) shown /\
    (forall a b, In a shown -> In b hidden -> newest_first a b = true) /\
    page_admin_audit None db = Raise forbidden.
Proof.
  intros Hrole.
  set (sorted := order_by newest_first (event_audit_log db)).
  exists (firstn 200 sorted), (skipn 200 sorted).
  assert (Hs : StronglySorted (fun a b => newest_first a b = true) sorted).
  { apply order_by_sorted.
    - exact newest_first_total.
    - exact newest_first_trans. }
  destruct (StronglySorted_firstn_skipn _ 200 sorted Hs) as [H1 H2].
  split; [|split; [|split; [|split; [|split]]]].
  - unfold page_admin_audit.
    rewrite (bind_step _ _ _ _ _ (_require_admin_ok u db Hrole)).
    reflexivity.
  - rewrite firstn_skipn. apply order_by_perm.
  - rewrite length_firstn. f_equal. unfold sorted.
    apply Permutation_length, order_by_perm.
  - exact H1.
  - exact H2.
  - reflexivity.
Qed.

(* ================================================================== *)
(** ** The bootstrap script *)
(* ================================================================== *)

Lemma find_email_none (l : list User.t) email :
  find (fun u => String.eqb (User.email u) email) l = None <->
  existsb (fun u => String.eqb (User.email u) email) l = false.
Proof.
  induction l as [|u l IH]; simpl; [split; reflexivity|].
  destruct (String.eqb (User.email u) email); simpl; [|exact IH].
  split; discriminate.
Qed.

Lemma find_email_app (l : list User.t) email u :
  User.email u = email ->
  exists u', find (fun u0 => String.eqb (User.email u0) email) (l ++ [u])
             = Some u'.
Proof.
  intros He. induction l as [|x l IH]; simpl.
  - rewrite He, String.eqb_refl. eauto.
  - destruct (String.eqb (User.email x) email); eauto.
Qed.

(** X15.  [create_admin.py] creates the admin account only when no
    account has its email.  When one has — whatever its role or password —
    the script changes nothing.  Otherwise, the bcrypt hash fitting its
    column, it appends one user with role [admin], the next user id and
    the hashed default password, and touches nothing else.  Running it
    again after a successful run changes nothing. *)
Theorem create_first_admin_only_if_absent env env' db :
  let email := "admin@admin.com" in
  let result := run_request (create_first_admin env) db in
  (forall u, In u (users db) -> User.email u = email ->
             result = (db, Return tt)) /\
  ((forall u, In u (users db) -> User.email u <> email) ->
   Nat.leb (String.length (bcrypt_salted env "admin_password")) 255 = true ->
   result =
   (set_users db
      (users db ++
       [User.mk (users_id_seq db) email
          (bcrypt_salted env "admin_password") "admin" (db_now env)])
      (users_id_seq db + 1),
    Return tt)) /\
  (snd result = Return tt ->
   run_request (create_first_admin env') (fst result) =
   (fst result, Return tt)).
Proof.
  intros email result. subst result.
  unfold run_request, create_first_admin.
  rewrite (bind_step _ _ db db db) by reflexivity.
  fold email.
  destruct (find (fun u => String.eqb (User.email u) email) (users db))
    as [found|] eqn:F.
  - split; [intros u _ _; reflexivity|]. split.
    + intros Hnone _. apply find_some in F. destruct F as [Hin He].
      apply String.eqb_eq in He. exfalso. exact (Hnone found Hin He).
    + intros _. cbn [fst ret].
      rewrite (bind_step _ _ db db db) by reflexivity. now rewrite F.
  - pose proof (proj1 (find_email_none _ _) F) as Hex.
    split; [|split].
    + intros u Hin He. eapply find_none in F; [|exact Hin].
      rewrite He, String.eqb_refl in F. discriminate F.
    + intros _ Hlen. unfold insert_user, bind, get_db, put_db, ret.
      cbv beta. rewrite Hlen, Hex. reflexivity.
    + unfold insert_user, bind, get_db, put_db, ret, raise. cbv beta.
      rewrite Hex.
      destruct (Nat.leb (String.length email) 255 &&
                Nat.leb (String.length (bcrypt_salted env "admin_password"))
                        255 &&
                Nat.leb (String.length "admin") 20);
        [|discriminate].
      intros _. cbn [fst snd users set_users].
      destruct (find_email_app (users db) email
                  (User.mk (users_id_seq db) email
                     (bcrypt_salted env "admin_password") "admin"
                     (db_now env)) eq_refl) as [u' Hu'].
      now rewrite Hu'.
Qed.

(* ================================================================== *)
(** ** Logging in and registering *)
(* ================================================================== *)

(** X16.  Logging in on the page and then presenting the cookie.  For
    the account found under the email, when the password verifies, the
    token the service issues verifies to the claims it was issued with and
    the account is the one stored under its id: [POST /login] redirects
    to the index with a token that both the cookie reader and the bearer
    dependency resolve to that very account, with the role stored for it.
    A password that does not verify, or an email nobody has, is answered
    400 with no token. *)
Theorem login_token_authenticates svc db email password user :
  find (fun u => String.eqb (User.email u) email) (users db) = Some user ->
  checkpw svc password (User.password_hash user) = Some true ->
  jwt_decode (create_access_token svc user) =
    Some (mkClaims (Some (str_of_Z (User.id user)))
                   (Some (User.role user))) ->
  create_access_token svc user <> EmptyString ->
  get_user db (User.id user) = Some user ->
  let token := create_access_token svc user in
  do_login svc db email password =
    Return (RedirectResponse "/" 302, Some token) /\
  get_current_user_cookie db (Some token) = Some user /\
  get_current_user db (Some token) = Return user /\
  classify_cookie db (Some token) =
    (if String.eqb (User.role user) "admin" then Admin user
     else AuthenticatedUser user) /\
  (forall wrong,
      checkpw svc wrong (User.password_hash user) = Some false ->
      do_login svc db email wrong =
      Return (TemplateResponse "login.html" 400, None)) /\
  (forall other pw,
      find (fun u => String.eqb (User.email u) other) (users db) = None ->
      do_login svc db other pw =
      Return (TemplateResponse "login.html" 400, None)).
Proof.
  intros Hfind Hpw Hjwt Hne Hget token.
  assert (Hcookie : get_current_user_cookie db (Some token) = Some user).
  { unfold get_current_user_cookie, _get_user_from_cookie. subst token.
    apply String.eqb_neq in Hne. rewrite Hne, Hjwt. cbn [sub].
    rewrite int_of_str_of_Z. exact Hget. }
  split; [|split; [|split; [|split; [|split]]]].
  - unfold do_login. now rewrite Hfind, Hpw.
  - exact Hcookie.
  - unfold get_current_user. subst token. rewrite Hjwt. cbn [sub].
    rewrite int_of_str_of_Z. now rewrite Hget.
  - unfold classify_cookie. now rewrite Hcookie.
  - intros wrong Hwrong. unfold do_login. now rewrite Hfind, Hwrong.
  - intros other pw Hnone. unfold do_login. now rewrite Hnone.
Qed.



(* ================================================================== *)
(** ** The filters of the index page *)
(* ================================================================== *)

Lemma has_event_tag_tag_ids_of db eid tid :
  has_event_tag db (EventTag.mk eid tid) = true <->
  In tid (tag_ids_of db eid).
Proof.
  unfold has_event_tag, tag_ids_of.
  rewrite existsb_exists, in_map_iff. split.
  - intros [et [Hin Heq]]. apply EventTag_eqb_eq in Heq. subst et.
    exists (EventTag.mk eid tid). split; [reflexivity|].
    apply filter_In. split; [exact Hin|]. apply Z.eqb_refl.
  - intros [et [Htid Hin]]. apply filter_In in Hin.
    destruct Hin as [Hin Heid]. apply Z.eqb_eq in Heid.
    exists et. split; [exact Hin|]. apply EventTag_eqb_eq.
    destruct et; simpl in *. congruence.
Qed.

Lemma int_if_present_blank s :
  strip s = EmptyString -> int_if_present (Some s) = Return None.
Proof.
  intros H. unfold int_if_present. rewrite H. cbn [truthy].
  rewrite String.eqb_refl. cbn [negb]. now rewrite andb_false_r.
Qed.

(** X18.  The index page combines its filters with AND.  When
    [GET /] returns, an event is listed exactly if it is stored, matches
    the search text, is online or offline as [is_online] says when that
    is the literal ["true"] or ["false"], belongs to the organizer given
    and carries the tag given.  An organizer or tag parameter that is
    absent, blank or [0] filters nothing; one that is not a number makes
    the request fail with a [ValueError]. *)
Theorem page_index_filters_compose
        db search is_online organizer_id tag_id :
  (forall l,
      page_index db search is_online organizer_id tag_id = Return l ->
      exists org tag,
        int_if_present organizer_id = Return org /\
        int_if_present tag_id = Return tag /\
        forall e,
          In e l <->
          In e (events db) /\
          where_search search e = true /\
          (is_online = Some "true" -> Event.is_online e = true) /\
          (is_online = Some "false" -> Event.is_online e = false) /\
          (forall o, org = Some o -> o <> 0 -> Event.organizer_id e = o) /\
          (forall t, tag = Some t -> t <> 0 ->
                     In t (tag_ids_of db (Event.id e)))) /\
  (forall s, strip s = EmptyString ->
             int_if_present (Some s) = Return None) /\
  int_if_present None = Return None /\
  (forall s, strip s <> EmptyString -> int_of_str s = None ->
             page_index db search is_online (Some s) tag_id =
             Raise (ValueError "invalid literal for int()")).
Proof.
  split; [|split; [exact int_if_present_blank|split; [reflexivity|]]].
  - intros l H. unfold page_index, rbind in H.
    destruct (int_if_present organizer_id) as [org|] eqn:Horg;
      [|discriminate H].
    destruct (int_if_present tag_id) as [tag|] eqn:Htag; [|discriminate H].
    destruct (bound_integer (if_truthy org)) as [[]|]; [|discriminate H].
    destruct (bound_integer (if_truthy tag)) as [[]|]; [|discriminate H].
    exists org, tag. split; [reflexivity|]. split; [reflexivity|].
    inversion H as [Hl]. clear H Hl. intros e.
    rewrite In_order_by, filter_In, !andb_true_iff.
    assert (Honline :
              where_online
                (if eq_str (of_option VStr is_online) "true" then Some true
                 else if eq_str (of_option VStr is_online) "false"
                      then Some false else None) e = true <->
              (is_online = Some "true" -> Event.is_online e = true) /\
              (is_online = Some "false" -> Event.is_online e = false)).
    { destruct is_online as [s|]; cbn [of_option eq_str].
      - destruct (String.eqb_spec s "true") as [->|Hn1].
        + cbn [where_online]. rewrite Bool.eqb_true_iff. split.
          * intros Ht. split; [trivial|discriminate].
          * intros [Ht _]. now apply Ht.
        + destruct (String.eqb_spec s "false") as [->|Hn2].
          * cbn [where_online]. rewrite Bool.eqb_true_iff. split.
            -- intros Hf. split; [discriminate|trivial].
            -- intros [_ Hf]. now apply Hf.
          * cbn [where_online]. split; [|reflexivity].
            intros _. split; intros Heq; inversion Heq; congruence.
      - cbn [where_online]. split; [|reflexivity].
        intros _. split; discriminate. }
    assert (Horgf :
              where_organizer (if_truthy org) e = true <->
              (forall o, org = Some o -> o <> 0 ->
                         Event.organizer_id e = o)).
    { destruct org as [o|]; cbn [if_truthy truthy].
      - destruct (Z.eqb_spec o 0) as [->|Hne]; cbn [negb where_organizer].
        + split; [|reflexivity]. intros _ o Ho Hz. inversion Ho. congruence.
        + rewrite Z.eqb_eq. split.
          * intros Heq o' Ho' _. inversion Ho'. congruence.
          * intros Hall. now apply Hall.
      - cbn [where_organizer]. split; [|reflexivity].
        intros _ o Ho. discriminate Ho. }
    assert (Htagf :
              where_tag db (if_truthy tag) e = true <->
              (forall t, tag = Some t -> t <> 0 ->
                         In t (tag_ids_of db (Event.id e)))).
    { destruct tag as [t|]; cbn [if_truthy truthy].
      - destruct (Z.eqb_spec t 0) as [->|Hne]; cbn [negb where_tag].
        + split; [|reflexivity]. intros _ t Ht Hz. inversion Ht. congruence.
        + rewrite has_event_tag_tag_ids_of. split.
          * intros Hin t' Ht' _. inversion Ht'. congruence.
          * intros Hall. now apply Hall.
      - cbn [where_tag]. split; [|reflexivity].
        intros _ t Ht. discriminate Ht. }
    rewrite Honline, Horgf, Htagf. tauto.
  - intros s Hs Hint. unfold page_index, rbind, int_if_present.
    assert (Hs1 : truthy (VStr (strip s)) = true).
    { cbn [truthy]. apply negb_true_iff, String.eqb_neq. exact Hs. }
    assert (Hs2 : truthy (VStr s) = true).
    { cbn [truthy]. apply negb_true_iff, String.eqb_neq.
      intros ->. apply Hs. reflexivity. }
    now rewrite Hs1, Hs2, Hint.
Qed.

(* ================================================================== *)
(** ** Creating a tag *)
(* ================================================================== *)



(* ================================================================== *)
(** ** Display URLs of stored images *)
(* ================================================================== *)

Lemma lstrip_slash_no_leading s r :
  lstrip_slash s = String "/" r -> False.
Proof.
  induction s as [|c s IH]; simpl; [discriminate|].
  destruct (Ascii.eqb c "/") eqn:E; [exact IH|].
  intros H. inversion H; subst. discriminate E.
Qed.

(** X20.  The display URL of an image key, on the API
    ([make_presigned_url]) and on the pages ([_presign]).  Both answer
    nothing exactly for a missing or empty key, hand back unchanged a key
    that starts with [http], and, when a public base is configured, answer
    the base and the key joined by one slash — the key's leading slashes
    dropped — without asking the object store.  They differ only when
    signing fails: the API then answers the bare key, the pages nothing. *)
Theorem display_url_of_key svc (key : option string) :
  (make_presigned_url svc key = None <->
   key = None \/ key = Some EmptyString) /\
  (forall k, key = Some k -> String.prefix "http" k = true ->
             make_presigned_url svc key = Some k /\
             _presign svc key = Some k) /\
  (forall k, key = Some k -> k <> EmptyString ->
             String.prefix "http" k = false ->
             S3_PUBLIC_BASE svc <> EmptyString ->
             make_presigned_url svc key =
               Some (rstrip_slash (S3_PUBLIC_BASE svc) ++ "/"
                     ++ lstrip_slash k) /\
             _presign svc key = make_presigned_url svc key /\
             forall r, lstrip_slash k <> String "/" r) /\
  (forall k, key = Some k -> k <> EmptyString ->
             String.prefix "http" k = false ->
             S3_PUBLIC_BASE svc = EmptyString ->
             match generate_presigned_url svc (lstrip_slash k) with
             | Some url => make_presigned_url svc key = Some url /\
                           _presign svc key = Some url
             | None => make_presigned_url svc key = Some k /\
                       _presign svc key = None
             end).
Proof.
  unfold make_presigned_url, _presign, presign_locally.
  split; [|split; [|split]].
  - destruct key as [k|]; [|split; [now left|reflexivity]].
    cbn [truthy].
    destruct (String.eqb_spec k EmptyString) as [->|Hne]; cbn [negb].
    + split; [now right|reflexivity].
    + split.
      * destruct (String.prefix "http" k); [discriminate|].
        destruct (negb (String.eqb (S3_PUBLIC_BASE svc) EmptyString));
          [discriminate|].
        destruct (generate_presigned_url svc (lstrip_slash k));
          discriminate.
      * intros [H|H]; [discriminate H|]. inversion H. contradiction.
  - intros k -> Hp. cbn [truthy].
    destruct (String.eqb_spec k EmptyString) as [->|Hne]; cbn [negb].
    + discriminate Hp.
    + rewrite Hp. split; reflexivity.
  - intros k -> Hne Hp Hbase. cbn [truthy].
    apply String.eqb_neq in Hne, Hbase. rewrite Hne, Hbase, Hp.
    cbn [negb]. split; [reflexivity|]. split; [reflexivity|].
    intros r H. exact (lstrip_slash_no_leading k r H).
  - intros k -> Hne Hp Hbase. cbn [truthy].
    apply String.eqb_neq in Hne. rewrite Hne, Hbase, Hp.
    cbn [negb String.eqb].
    destruct (generate_presigned_url svc (lstrip_slash k));
      split; reflexivity.
Qed.

(* ================================================================== *)
(** ** Creating an organizer *)
(* ================================================================== *)

Lemma fits_or_none n x : fits n x = true -> fits n (or_none x) = true.
Proof.
  destruct x as [s|]; [|trivial]. unfold or_none.
  destruct (truthy (VStr s)); trivial.
Qed.

Lemma or_none_id x : or_none x = x <-> x <> Some EmptyString.
Proof.
  destruct x as [s|]; [|split; [discriminate|reflexivity]].
  unfold or_none. cbn [truthy].
  destruct (String.eqb_spec s EmptyString) as [->|Hne]; cbn [negb].
  - split; [discriminate|]. intros H. now contradiction H.
  - split; [|reflexivity]. intros _ H. inversion H. contradiction.
Qed.

Lemma insert_organizer_ok db name website contact_email description :
  existsb (fun o => String.eqb (Organizer.name o) name) (organizers db)
  = false ->
  Nat.leb (String.length name) 255 = true ->
  fits 500 website = true ->
  fits 255 contact_email = true ->
  insert_organizer name website contact_email description db =
  Return (Organizer.mk (organizers_id_seq db) name website contact_email
            description,
          set_organizers db
            (organizers db ++
             [Organizer.mk (organizers_id_seq db) name website
                contact_email description])
            (organizers_id_seq db + 1)).
Proof.
  intros Hnew Hname Hweb Hmail.
  unfold insert_organizer, bind, get_db, put_db, ret, lift. cbv beta.
  rewrite (as_string_fits 500 website Hweb).
  rewrite (as_string_fits 255 contact_email Hmail).
  unfold as_string. rewrite Hname. cbn [not_null]. now rewrite Hnew.
Qed.

(** X21.  Creating an organizer with a new name that fits its columns,
    for an admin.  The API stores the optional fields as they are sent;
    the page stores an empty website, contact email or description as
    null.  So both surfaces store the same row exactly when none of the
    three is the empty string.  A name already in use stores nothing and
    is answered 400 by the page. *)
Theorem create_organizer_on_both_surfaces
        db token cookie name website contact_email description admin u :
  require_admin db token = Return admin ->
  get_current_user_cookie db cookie = Some u ->
  User.role u = "admin" ->
  let api :=
    depends_require_admin
      (create_organizer name website contact_email description) db token in
  let pg :=
    depends_cookie_user
      (do_admin_organizer_create name website contact_email description)
      db cookie in
  let taken :=
    existsb (fun o => String.eqb (Organizer.name o) name) (organizers db) in
  let stored w c d :=
    set_organizers db
      (organizers db ++ [Organizer.mk (organizers_id_seq db) name w c d])
      (organizers_id_seq db + 1) in
  (taken = false ->
   Nat.leb (String.length name) 255 = true ->
   fits 500 website = true ->
   fits 255 contact_email = true ->
   api = (stored website contact_email description,
          Return (Organizer.mk (organizers_id_seq db) name website
                    contact_email description)) /\
   pg = (stored (or_none website) (or_none contact_email)
           (or_none description),
         Return (RedirectResponse "/admin/organizers" 302)) /\
   (fst pg = fst api <->
    website <> Some EmptyString /\ contact_email <> Some EmptyString /\
    description <> Some EmptyString)) /\
  (taken = true ->
   pg = (db, Return (TemplateResponse "admin/organizers.html" 400))).
Proof.
  intros Hadmin Hu Hrole api pg taken stored. split.
  - intros Hnew Hname Hweb Hmail.
    assert (Hapi : api =
                   (stored website contact_email description,
                    Return (Organizer.mk (organizers_id_seq db) name website
                              contact_email description))).
    { subst api. unfold depends_require_admin, run_request.
      rewrite Hadmin. unfold create_organizer.
      now rewrite insert_organizer_ok. }
    assert (Hpg : pg =
                  (stored (or_none website) (or_none contact_email)
                     (or_none description),
                   Return (RedirectResponse "/admin/organizers" 302))).
    { subst pg. unfold depends_cookie_user, run_request. rewrite Hu.
      unfold do_admin_organizer_create.
      rewrite (bind_step _ _ _ _ _ (_require_admin_ok u db Hrole)).
      rewrite (bind_step _ _ db db db) by reflexivity.
      fold taken. rewrite Hnew.
      erewrite bind_step;
        [|apply insert_organizer_ok;
          [exact Hnew|exact Hname|now apply fits_or_none
          |now apply fits_or_none]].
      reflexivity. }
    split; [exact Hapi|]. split; [exact Hpg|].
    rewrite Hapi, Hpg. cbn [fst]. rewrite <- !or_none_id. split.
    + intros Heq. apply (f_equal organizers) in Heq.
      subst stored. cbn [organizers set_organizers] in Heq.
      apply app_inv_head in Heq. injection Heq as H1 H2 H3.
      repeat split; assumption.
    + intros [-> [-> ->]]. reflexivity.
  - intros Ht. subst pg. unfold depends_cookie_user, run_request.
    rewrite Hu. unfold do_admin_organizer_create.
    rewrite (bind_step _ _ _ _ _ (_require_admin_ok u db Hrole)).
    rewrite (bind_step _ _ db db db) by reflexivity.
    fold taken. now rewrite Ht.
Qed.

(* ================================================================== *)
(** ** Creating an event from the browser form *)
(* ================================================================== *)

(** X22.  [POST /admin/events/new] with a file of an allowed type, for
    an admin, when the database accepts the row, the next event id is
    unused and fits INTEGER, and the form's tag ids are distinct and
    within INTEGER.  If they name existing tags, the event is stored with
    exactly these tags and the browser is redirected; its image key is
    set only when the file has contents and the upload succeeds — a
    failed upload is logged and the event is stored without image.  If a
    tag of the form does not exist, the request fails with the
    foreign-key error of the database and stores nothing. *)
Theorem page_event_create_stores_event
        env db cookie t o ds de rd p c la w d io tag_ids img ext u r :
  get_current_user_cookie db cookie = Some u ->
  User.role u = "admin" ->
  ALLOWED (content_type img) = Some ext ->
  to_row (adapts_aware env) (events_id_seq db) (db_now env)
         (page_created_instance env t o ds de rd p c la w d io img ext)
  = Return r ->
  event_fk_ok db r = true ->
  has_event db (events_id_seq db) = false ->
  (forall et, In et (event_tags db) ->
              EventTag.event_id et <> events_id_seq db) ->
  NoDup tag_ids ->
  in_int32 (events_id_seq db) = true ->
  forallb in_int32 tag_ids = true ->
  let result :=
    depends_cookie_user
      (do_admin_event_create env t o ds de rd p c la w d io tag_ids
         (Some img)) db cookie in
  ((forall tid, In tid tag_ids -> has_tag db tid = true) ->
   snd result = Return (RedirectResponse "/admin/events" 302) /\
   get_event_row (fst result) (events_id_seq db) = Some r /\
   tag_ids_of (fst result) (events_id_seq db) = tag_ids /\
   Event.image_url r =
     (if truthy (VStr (contents img)) && s3_upload_ok env
      then Some ("uploads/" ++ uuid4 env ++ "." ++ ext)
      else None) /\
   Event.updated_at r = None) /\
  ((exists tid, In tid tag_ids /\ has_tag db tid = false) ->
   result = (db, Raise (DBAPIError ForeignKeyViolation))).
Proof.
  intros Hu Hrole Hext Hrow Hfk Hunused Hfresh Hnd Hseq Hin32 result.
  pose proof (to_row_Return _ _ _ _ Hrow) as [Hid Hupd].
  pose proof (to_row_columns _ _ _ _ Hrow) as [_ [_ [_ Hcols]]].
  assert (Hrun :
            do_admin_event_create env t o ds de rd p c la w d io tag_ids
              (Some img) (Some u) db =
            (insert_event_tags (map (EventTag.mk (Event.id r)) tag_ids) ;;;
             ret (RedirectResponse "/admin/events" 302))
              (set_events db (events db ++ [r]) (events_id_seq db + 1))).
  { unfold do_admin_event_create.
    rewrite (bind_step _ _ _ _ _ (_require_admin_ok u db Hrole)).
    rewrite Hext, andb_false_r.
    assert (Hev :
              (if truthy (VStr (contents img))
               then if s3_upload_ok env
                    then ret (setattr
                                (new_event t o ds p (if_truthy c) d w de rd
                                   la (eq_str (of_option VStr io) "true"))
                                col_image_url
                                (VStr ("uploads/" ++ uuid4 env ++ "." ++ ext)))
                    else ret (new_event t o ds p (if_truthy c) d w de rd la
                                (eq_str (of_option VStr io) "true"))
               else ret (new_event t o ds p (if_truthy c) d w de rd la
                           (eq_str (of_option VStr io) "true"))) =
              ret (page_created_instance env t o ds de rd p c la w d io
                     img ext)).
    { unfold page_created_instance.
      destruct (truthy (VStr (contents img))), (s3_upload_ok env);
        reflexivity. }
    rewrite Hev. rewrite (bind_step _ _ db _ db) by reflexivity.
    now rewrite (bind_step _ _ _ _ _ (flush_insert_ok _ _ _ _ Hrow Hfk)). }
  subst result. unfold depends_cookie_user, run_request.
  rewrite Hu, Hrun. rewrite <- Hid in Hunused, Hfresh, Hseq. split.
  - intros Hex.
    rewrite (bind_step _ _ _ _ _
               (insert_new_event_tags_ok db r tag_ids Hfresh Hnd Hseq Hin32
                  Hex)).
    cbn [ret fst snd].
    destruct (with_new_event_facts db r tag_ids Hunused Hfresh)
      as [Hget [Htags _]].
    rewrite <- Hid.
    split; [reflexivity|]. split; [exact Hget|]. split; [exact Htags|].
    split.
    + specialize (Hcols col_image_url eq_refl).
      assert (Hne : col_image_url <> col_price) by discriminate.
      specialize (Hcols Hne). cbn [load] in Hcols.
      unfold page_created_instance in Hcols.
      destruct (truthy (VStr (contents img)) && s3_upload_ok env).
      * rewrite (getattr_setattr_same _ col_image_url _ : setattr _ _ _ _ = _)
          in Hcols.
        cbn [without_tzinfo] in Hcols.
        destruct (Event.image_url r); inversion Hcols; reflexivity.
      * cbn [new_event] in Hcols.
        destruct (Event.image_url r); [discriminate Hcols|reflexivity].
    + assert (Hnone : page_created_instance env t o ds de rd p c la w d io
                        img ext col_updated_at = VNone).
      { unfold page_created_instance.
        destruct (truthy (VStr (contents img)) && s3_upload_ok env);
          reflexivity. }
      rewrite Hnone in Hupd. simpl in Hupd. now inversion Hupd.
  - intros [tid [Hin Hbad]].
    rewrite (bind_Raise _ _ _ (DBAPIError ForeignKeyViolation));
      [reflexivity|].
    apply insert_event_tags_foreign_key.
    + now apply NoDup_map_EventTag.
    + now apply tag_in_range_map.
    + now apply no_association_of_new_event.
    + exists (EventTag.mk (Event.id r) tid). split.
      * now apply in_map.
      * exact Hbad.
Qed.

(* ================================================================== *)
(** ** What [PATCH /api/v1/event/{id}] refuses *)
(* ================================================================== *)








(* ================================================================== *)
(** ** What the API listing returns *)
(* ================================================================== *)

(** X24.  [GET /api/v1/events], whenever it returns a listing.  The
    request then carried no city (or city [0], which is skipped) and an
    organizer and a tag, if any, within INTEGER; the events listed are,
    in some order, exactly the stored events that match the search text,
    belong to the organizer given and carry the tag given; the value of
    [is_online] plays no part.  The organizer and tag tests read
    [is not None], so on this surface an id of [0] is a filter like any
    other, where the index page would ignore it. *)
Theorem list_events_returns
        db search city_id organizer_id is_online tag_id l :
  list_events db search city_id organizer_id is_online tag_id = Return l ->
  (city_id = None \/ city_id = Some 0) /\
  (exists l',
      list_events db search city_id organizer_id None tag_id = Return l' /\
      Permutation l l') /\
  exists org tag,
    int_if_present organizer_id = Return org /\
    int_if_present tag_id = Return tag /\
    bound_integer org = Return tt /\
    bound_integer tag = Return tt /\
    Permutation l
      (filter (fun e =>
                 where_search search e && where_organizer org e &&
                 where_tag db tag e) (events db)) /\
    forall e,
      In e l <->
      In e (events db) /\
      where_search search e = true /\
      (forall o, org = Some o -> Event.organizer_id e = o) /\
      (forall t, tag = Some t -> In t (tag_ids_of db (Event.id e))).
Proof.
  unfold list_events, rbind. intros H.
  destruct (int_if_present_of_int city_id) as [cid|] eqn:Hcity;
    [|discriminate H].
  assert (Hc : (city_id = None \/ city_id = Some 0) /\ cid = None).
  { unfold int_if_present_of_int in Hcity.
    destruct city_id as [z|]; [|inversion Hcity; auto].
    cbn [truthy] in Hcity.
    destruct (Z.eqb_spec z 0) as [->|Hne]; cbn [negb] in Hcity;
      [inversion Hcity; auto|discriminate Hcity]. }
  destruct Hc as [Hc ->].
  destruct (int_if_present organizer_id) as [org|]; [|discriminate H].
  destruct (int_if_present tag_id) as [tag|]; [|discriminate H].
  cbn [bound_integer] in H.
  destruct (bound_integer org) as [[]|] eqn:Hborg; [|discriminate H].
  destruct (bound_integer tag) as [[]|] eqn:Hbtag; [|discriminate H].
  assert (Honline :
            (if eq_str (of_option VBool is_online) "true" then Some true
             else if eq_str (of_option VBool is_online) "false"
                  then Some false else None) = None)
    by (destruct is_online; reflexivity).
  rewrite Honline in H. cbv zeta in H.
  assert (Hl : l = filter (fun e =>
                             where_search search e && where_city None e &&
                             where_organizer org e && where_online None e &&
                             where_tag db tag e) (events db))
    by (inversion H; reflexivity).
  clear H.
  assert (Hfilter :
            filter (fun e =>
                      where_search search e && where_city None e &&
                      where_organizer org e && where_online None e &&
                      where_tag db tag e) (events db) =
            filter (fun e =>
                      where_search search e && where_organizer org e &&
                      where_tag db tag e) (events db)).
  { apply filter_ext. intros e. cbn [where_city where_online].
    now rewrite !andb_true_r. }
  split; [exact Hc|].
  split; [exists l; split; [now rewrite Hl|apply Permutation_refl]|].
  exists org, tag. split; [reflexivity|]. split; [reflexivity|].
  split; [exact Hborg|]. split; [exact Hbtag|].
  split; [now rewrite Hl, Hfilter|].
  intros e. rewrite Hl, Hfilter, filter_In, !andb_true_iff.
  assert (Horg : where_organizer org e = true <->
                 (forall o, org = Some o -> Event.organizer_id e = o)).
  { destruct org as [o|]; cbn [where_organizer].
    - rewrite Z.eqb_eq. split.
      + intros Heq o' Ho'. inversion Ho'. congruence.
      + intros Hall. now apply Hall.
    - split; [|reflexivity]. intros _ o Ho. discriminate Ho. }
  assert (Htag : where_tag db tag e = true <->
                 (forall t, tag = Some t ->
                            In t (tag_ids_of db (Event.id e)))).
  { destruct tag as [t|]; cbn [where_tag].
    - rewrite has_event_tag_tag_ids_of. split.
      + intros Hin t' Ht'. inversion Ht'. congruence.
      + intros Hall. now apply Hall.
    - split; [|reflexivity]. intros _ t Ht. discriminate Ht. }
  rewrite Horg, Htag. split.
  - intros [Hin [[Hs Ho] Ht]]. auto.
  - intros [Hin [Hs [Ho Ht]]]. auto.
Qed.

(* ================================================================== *)
(** ** What the browser edit does to the columns of the row *)
(* ================================================================== *)





End App.

(* ================================================================== *)
(** ** Worked examples on the sample data *)
(* ================================================================== *)

Example str_price_10_00 : str (VDecimal Sample.price_10_00) = "10.00".
Proof. reflexivity. Qed.

Example str_price_12_5 : str (VDecimal (mkDecimal false 125 (-1))) = "12.5".
Proof. reflexivity. Qed.

Example str_small_decimal : str (VDecimal (mkDecimal true 5 (-9))) = "-5E-9".
Proof. reflexivity. Qed.

Example str_datetime :
  str (VDatetime (mkDatetime 2024 5 7 9 30 0 0)) = "2024-05-07 09:30:00".
Proof. reflexivity. Qed.

(** The equality policy of the diff: [0] and ["0"] are equal, [None] and
    the empty string are not. *)
Example str_zero_int_vs_string : str (VInt 0) = str (VStr "0").
Proof. reflexivity. Qed.

Example str_none_vs_empty : str VNone <> str (VStr EmptyString).
Proof. discriminate. Qed.

Example int_of_str_examples :
  int_of_str " 42 " = Some 42 /\ int_of_str "-7" = Some (-7) /\
  int_of_str "1_000" = Some 1000 /\ int_of_str "abc" = None /\
  int_of_str EmptyString = None.
Proof. repeat split; reflexivity. Qed.

Example parsed_ids_example : parsed_ids "1, 2,x,,3" = [1; 2; 3].
Proof. reflexivity. Qed.

(** Price "10.00" set to "10.00": no record.  Set to "12.50": exactly the
    record (price, "10.00", "12.50"). *)
Example update_same_price_no_record :
  update_records 1 Sample.payload_same_price Sample.admin Sample.event_A = [].
Proof. reflexivity. Qed.

Example update_new_price_one_record :
  update_records 1 Sample.payload_new_price Sample.admin Sample.event_A =
  [EventAuditLog.mkPending 1 (Some 1) "price" (Some "10.00") (Some "12.50")].
Proof. reflexivity. Qed.

Example update_new_price_trail :
  event_audit_log
    (fst (patch_event Sample.jwt_decode Sample.env Sample.db
            (Some "admin-token") 1 Sample.payload_new_price)) =
  [EventAuditLog.mk 1 1 (Some 1) "price" (Some "10.00") (Some "12.50")
     (db_now Sample.env)].
Proof. reflexivity. Qed.

(** [tag_ids=[2,3]] on the event tagged {1,2} leaves exactly {2,3}; an id
    that names no tag leaves {1,2}. *)
Example update_tags_2_3 :
  tag_ids_of
    (fst (patch_event Sample.jwt_decode Sample.env Sample.db
            (Some "admin-token") 1 (Sample.payload_tags [2; 3]))) 1 = [2; 3].
Proof. reflexivity. Qed.

Example update_tags_unknown_id :
  patch_event Sample.jwt_decode Sample.env Sample.db (Some "admin-token") 1
    (Sample.payload_tags [2; 99]) =
  (Sample.db, Raise (DBAPIError ForeignKeyViolation)).
Proof. reflexivity. Qed.

(** The filter example on the index page: A and C are online. *)
Example index_online_true :
  page_index Sample.ilike Sample.db None (Some "true") None None =
  Return [Sample.event_C; Sample.event_A].
Proof. reflexivity. Qed.

Example index_no_filter :
  page_index Sample.ilike Sample.db None None None None =
  Return [Sample.event_B; Sample.event_C; Sample.event_A].
Proof. reflexivity. Qed.

Example api_no_filter :
  get_api_events Sample.ilike Sample.db None None None None None =
  Return [Sample.event_A; Sample.event_B; Sample.event_C].
Proof. reflexivity. Qed.

(** A created event has no update timestamp. *)
Example created_event_has_no_updated_at :
  exists db' r,
    depends_require_admin Sample.jwt_decode
      (create_event Sample.env "Elixir day" 1 (Sample.day_of_june 20)
         Sample.price_10_00 None None None None None None false (Some "1,3")
         None)
      Sample.db (Some "admin-token") = (db', Return r) /\
    events db' = [Sample.event_A; Sample.event_B; Sample.event_C; r] /\
    Event.id r = 4 /\ Event.updated_at r = None /\
    tag_ids_of db' 4 = [1; 3].
Proof. eexists. eexists. repeat split. Qed.

(* ================================================================== *)
(** ** The claims at concrete inputs *)
(* ================================================================== *)

Lemma update_event_audit_records_exact_witness :
  let result :=
    patch_event Sample.jwt_decode Sample.env Sample.db (Some "admin-token")
      1 Sample.payload_new_price in
  require_admin Sample.jwt_decode Sample.db (Some "admin-token")
  = Return Sample.admin /\
  get_event_row Sample.db 1 = Some Sample.event_A /\
  (exists answer, snd result = Return answer) /\
  event_audit_log (fst result) =
    [EventAuditLog.mk 1 1 (Some 1) "price" (Some "10.00") (Some "12.50")
       (db_now Sample.env)] /\
  exists added,
    event_audit_log (fst result) = (event_audit_log Sample.db ++ added)%list /\
    NoDup (map EventAuditLog.changed_column added) /\
    forall c,
      In (column_name c) (map EventAuditLog.changed_column added) <->
      exists v,
        EventUpdate.supplied Sample.payload_new_price c = Some v /\
        str (getattr (load Sample.event_A) c) <> str v.
Proof.
  intros result. do 2 (split; [reflexivity|]).
  destruct (update_event_audit_records_exact Sample.jwt_decode Sample.env
              Sample.db (Some "admin-token") 1 Sample.payload_new_price
              Sample.admin Sample.event_A eq_refl eq_refl)
    as [Hgoes [added [Hlog Hrows]]].
  split; [exact (Hgoes Sample.event_A_repriced eq_refl eq_refl eq_refl I)|].
  split; [reflexivity|].
  exists added. split; [exact Hlog|].
  change (snd (patch_event Sample.jwt_decode Sample.env Sample.db
                 (Some "admin-token") 1 Sample.payload_new_price))
    with (@Return Event.t Sample.event_A_repriced) in Hrows.
  destruct Hrows as [Hnd [Hiff _]]. split; [exact Hnd|exact Hiff].
Defined.

(** C2 fails as stated: a selection that repeats an id, every id naming
    an existing tag, is rejected by the primary key of [event_tags], and
    the associations stay {1,2} instead of becoming the supplied set. *)
Lemma patch_event_repeated_tag_id_rejected :
  let result :=
    patch_event Sample.jwt_decode Sample.env Sample.db (Some "admin-token")
      1 (Sample.payload_tags [2; 2]) in
  has_tag Sample.db 2 = true /\
  snd result = Raise (DBAPIError UniqueViolation) /\
  tag_ids_of (fst result) 1 = [1; 2] /\
  ~ (forall t, In t (tag_ids_of (fst result) 1) <-> In t [2; 2]).
Proof.
  simpl. repeat split.
  intros H. destruct (H 1) as [H1 _].
  destruct H1 as [E|[E|[]]]; [now left|discriminate E|discriminate E].
Qed.

Lemma patch_event_tag_replacement_witness :
  EventUpdate.get_tag_ids (Sample.payload_tags [2; 3]) = Some [2; 3] /\
  require_admin Sample.jwt_decode Sample.db (Some "admin-token")
  = Return Sample.admin /\
  get_event_row Sample.db 1 = Some Sample.event_A /\
  in_int32 1 = true /\
  to_row (adapts_aware Sample.env) 1 (Event.created_at Sample.event_A)
         (update_instance Sample.env 1 (Sample.payload_tags [2; 3])
            Sample.admin Sample.event_A)
  = Return Sample.event_A_touched /\
  event_fk_ok Sample.db Sample.event_A_touched = true /\
  NoDup [2; 3] /\
  forallb in_int32 [2; 3] = true /\
  (forall t, In t [2; 3] -> has_tag Sample.db t = true) /\
  tag_ids_of
    (fst (patch_event Sample.jwt_decode Sample.env Sample.db
            (Some "admin-token") 1 (Sample.payload_tags [2; 3]))) 1
  = [2; 3].
Proof.
  assert (Hnd : NoDup [2; 3]).
  { repeat (constructor; [simpl; intuition discriminate|]). constructor. }
  assert (Hex : forall t, In t [2; 3] -> has_tag Sample.db t = true).
  { intros t [<-|[<-|[]]]; reflexivity. }
  do 6 (split; [reflexivity|]). split; [exact Hnd|].
  split; [reflexivity|]. split; [exact Hex|].
  apply (proj1
           (proj1
              (patch_event_tag_replacement Sample.jwt_decode Sample.env
                 Sample.db (Some "admin-token") 1
                 (Sample.payload_tags [2; 3]))
              [2; 3] Sample.admin Sample.event_A Sample.event_A_touched
              eq_refl eq_refl eq_refl eq_refl eq_refl eq_refl Hnd eq_refl)
           Hex).
Defined.

Lemma admin_only_mutation_rejected_witness :
  admin_only (UpdateEvent 1 (Sample.payload_tags [2; 3])) = true /\
  on_api (UpdateEvent 1 (Sample.payload_tags [2; 3])) = true /\
  is_admin (classify Sample.jwt_decode Sample.db (Some "visitor-token"))
  = false /\
  get_current_user Sample.jwt_decode Sample.db (Some "visitor-token")
  = Return Sample.visitor /\
  handle Sample.jwt_decode Sample.env Sample.db (Some "visitor-token") None
    (UpdateEvent 1 (Sample.payload_tags [2; 3]))
  = (Sample.db, Raise forbidden).
Proof.
  do 4 (split; [reflexivity|]).
  apply (proj1 (proj2 (proj2
           (proj1
              (admin_only_mutation_rejected Sample.jwt_decode Sample.env
                 Sample.db (Some "visitor-token") None
                 (UpdateEvent 1 (Sample.payload_tags [2; 3])) eq_refl)
              eq_refl eq_refl)))
           Sample.visitor).
  reflexivity.
Defined.

Lemma updated_at_written_only_by_updates_witness :
  let m := UpdateEvent 1 Sample.payload_new_price in
  let r := handle Sample.jwt_decode Sample.env Sample.db
             (Some "admin-token") None m in
  r = (fst r, snd r) /\
  updated_event m = Some 1 /\
  snd r = Return tt /\
  exists row',
    get_event_row (fst r) 1 = Some row' /\
    Event.updated_at row' = Some (utcnow Sample.env).
Proof.
  intros m r. do 3 (split; [reflexivity|]).
  apply (proj2 (proj2
           (updated_at_written_only_by_updates Sample.jwt_decode Sample.env
              Sample.db (Some "admin-token") None m (fst r) (snd r)
              eq_refl)) 1); reflexivity.
Defined.

(** C7 fails as stated: the body writes price before title, the records
    come title first. *)
Lemma audit_records_not_in_request_order :
  exists payload,
    EventUpdate.validate Sample.body_price_then_title = Some payload /\
    map fst Sample.body_price_then_title = ["price"; "title"] /\
    map EventAuditLog.p_changed_column
        (update_records 1 payload Sample.admin Sample.event_A)
    = ["title"; "price"] /\
    ~ in_supplied_order Sample.body_price_then_title
        (map EventAuditLog.p_changed_column
             (update_records 1 payload Sample.admin Sample.event_A)).
Proof.
  eexists. split; [reflexivity|]. repeat split.
  unfold in_supplied_order. simpl. discriminate.
Qed.

(** C8 fails as stated for the listing of the API: it is a listing of
    events and orders nothing, so A, which starts on 10 June, comes before
    B, which starts on 3 June. *)
Lemma api_listing_not_in_start_order :
  get_api_events Sample.ilike Sample.db None None None None None
  = Return [Sample.event_A; Sample.event_B; Sample.event_C] /\
  datetime_leb (Event.date_start Sample.event_A)
               (Event.date_start Sample.event_B) = false /\
  ~ StronglySorted
      (fun a b => datetime_leb (Event.date_start a) (Event.date_start b)
                  = true)
      [Sample.event_A; Sample.event_B; Sample.event_C].
Proof.
  split; [reflexivity|]. split; [reflexivity|].
  intros H. inversion H as [|? ? _ Hall]; subst.
  inversion Hall as [|? ? Hab _]; subst. discriminate Hab.
Qed.

Lemma listings_are_ordered_witness :
  page_index Sample.ilike Sample.db None None None None
  = Return [Sample.event_B; Sample.event_C; Sample.event_A] /\
  StronglySorted
    (fun a b => datetime_leb (Event.date_start a) (Event.date_start b) = true)
    [Sample.event_B; Sample.event_C; Sample.event_A].
Proof.
  split; [reflexivity|].
  apply (proj1 (listings_are_ordered Sample.ilike Sample.db)
           None None None None). reflexivity.
Defined.



Lemma gate_ignores_role_claim_witness :
  option_map sub (Sample.jwt_decode "visitor-token") =
  option_map sub (Sample.jwt_decode "visitor-token-role-admin") /\
  require_admin Sample.jwt_decode Sample.db (Some "visitor-token") =
  require_admin Sample.jwt_decode Sample.db (Some "visitor-token-role-admin").
Proof.
  split; [reflexivity|].
  apply (gate_ignores_role_claim Sample.jwt_decode Sample.db
           "visitor-token" "visitor-token-role-admin"). reflexivity.
Defined.

(** C5 at the failing input: [GET /api/v1/events?is_online=true] returns
    event B, which is not online. *)
Theorem api_events_online_true_lists_offline_event :
  get_api_events Sample.ilike Sample.db None None None (Some "true") None
  = Return [Sample.event_A; Sample.event_B; Sample.event_C] /\
  Event.is_online Sample.event_B = false.
Proof. split; reflexivity. Qed.

(** C6 at the failing input: [GET /api/v1/events?city_id=1&is_online=true]
    raises instead of returning A. *)
Theorem api_events_city_filter_raises :
  get_api_events Sample.ilike Sample.db None (Some "1") None (Some "true")
    None
  = Raise (AttributeError "'int' object has no attribute 'strip'").
Proof. reflexivity. Qed.

(* ================================================================== *)
(** ** The further properties at concrete inputs *)
(* ================================================================== *)

Lemma parsed_ids_keeps_digit_entries_witness :
  is_ascii_str "1, 2,x,,-3,4" = true /\
  (String.length "1, 2,x,,-3,4" <= 4300)%nat /\
  parsed_ids "1, 2,x,,-3,4" = [1; 2; 4] /\
  Forall (fun z => 0 <= z) (parsed_ids "1, 2,x,,-3,4").
Proof.
  assert (Hlen : (String.length "1, 2,x,,-3,4" <= 4300)%nat)
    by (simpl; lia).
  split; [reflexivity|]. split; [exact Hlen|]. split; [reflexivity|].
  apply (proj2 (parsed_ids_keeps_digit_entries "1, 2,x,,-3,4" eq_refl Hlen)).
Defined.

Lemma patch_event_empty_body_touches_witness :
  require_admin Sample.jwt_decode Sample.db (Some "admin-token")
  = Return Sample.admin /\
  get_event_row Sample.db 1 = Some Sample.event_A /\
  row_in_bounds Sample.event_A = true /\
  event_fk_ok Sample.db Sample.event_A = true /\
  exists db',
    patch_event Sample.jwt_decode Sample.env Sample.db (Some "admin-token")
      1 EventUpdate.empty =
    (db', Return (touched (utcnow Sample.env) Sample.event_A)) /\
    get_event_row db' 1 = Some (touched (utcnow Sample.env) Sample.event_A) /\
    event_audit_log db' = event_audit_log Sample.db /\
    event_tags db' = event_tags Sample.db /\
    same_other_tables Sample.db db'.
Proof.
  do 4 (split; [reflexivity|]).
  apply (patch_event_empty_body_touches Sample.jwt_decode Sample.env
           Sample.db (Some "admin-token") 1 Sample.admin Sample.event_A
           eq_refl eq_refl eq_refl eq_refl).
Defined.


Lemma page_edit_audit_records_witness :
  get_event_row Sample.db 1 = Some Sample.event_A /\
  exists pg db',
    do_admin_event_edit Sample.env 1 "Rust night" 1 (Sample.day_of_june 10)
      None None Sample.price_10_00 (Some 1) None None None (Some "true")
      [] None (Some Sample.admin) Sample.db = Return (pg, db') /\
    event_audit_log db' =
      [EventAuditLog.mk 1 1 (Some 1) "title" (Some "Rust meetup")
         (Some "Rust night") (db_now Sample.env);
       EventAuditLog.mk 2 1 (Some 1) "description" (Some "Monthly meetup")
         (Some "None") (db_now Sample.env)].
Proof.
  split; [reflexivity|].
  destruct (do_admin_event_edit Sample.env 1 "Rust night" 1
              (Sample.day_of_june 10) None None Sample.price_10_00 (Some 1)
              None None None (Some "true") [] None (Some Sample.admin)
              Sample.db) as [[pg db']|e] eqn:H.
  - exists pg, db'. split; [reflexivity|].
    destruct (page_edit_audit_records Sample.env 1 "Rust night" 1
                (Sample.day_of_june 10) None None Sample.price_10_00
                (Some 1) None None None (Some "true") [] None Sample.admin
                Sample.db Sample.event_A eq_refl) as [_ [Hlog _]].
    exact (Hlog pg db' H).
  - vm_compute in H. discriminate H.
Defined.

Lemma delete_event_cascades_witness :
  require_admin Sample.jwt_decode Sample.db (Some "admin-token")
  = Return Sample.admin /\
  get_current_user_cookie Sample.jwt_decode Sample.db (Some "admin-token")
  = Some Sample.admin /\
  User.role Sample.admin = "admin" /\
  in_int32 1 = true /\
  get_event_row Sample.db 1 = Some Sample.event_A /\
  tag_ids_of Sample.db 1 = [1; 2] /\
  tag_ids_of
    (fst (depends_require_admin Sample.jwt_decode (delete_event 1)
            Sample.db (Some "admin-token"))) 1 = [].
Proof.
  do 6 (split; [reflexivity|]).
  destruct (proj2
              (delete_event_cascades Sample.jwt_decode Sample.db
                 (Some "admin-token") (Some "admin-token") 1 Sample.admin
                 Sample.admin eq_refl eq_refl eq_refl)
              eq_refl) as [_ [_ [_ Hrow]]].
  destruct (Hrow Sample.event_A eq_refl) as [_ [_ [Htags _]]].
  exact Htags.
Defined.

Lemma bookmark_add_remove_round_trip_witness :
  get_current_user Sample.jwt_decode Sample.db (Some "visitor-token")
  = Return Sample.visitor /\
  in_int32 1 = true /\
  get_event_row Sample.db 1 = Some Sample.event_A /\
  has_bookmark Sample.db (User.id Sample.visitor) 1 = false /\
  depends_current_user Sample.jwt_decode (remove_bookmark 1)
    (fst (depends_current_user Sample.jwt_decode
            (add_bookmark Sample.env 1) Sample.db (Some "visitor-token")))
    (Some "visitor-token")
  = (Sample.db, Return tt).
Proof.
  do 4 (split; [reflexivity|]).
  apply (bookmark_add_remove_round_trip Sample.jwt_decode Sample.env
           Sample.env Sample.db (Some "visitor-token") 1 Sample.visitor
           Sample.event_A eq_refl eq_refl eq_refl eq_refl).
Defined.

Lemma bookmark_requests_touch_one_bookmark_witness :
  bookmark_mutation (AddBookmark 1) = Some 1 /\
  users (fst (handle Sample.jwt_decode Sample.env Sample.db
                (Some "visitor-token") None (AddBookmark 1)))
  = users Sample.db.
Proof.
  split; [reflexivity|].
  apply (bookmark_requests_touch_one_bookmark Sample.jwt_decode Sample.env
           Sample.db (Some "visitor-token") None (AddBookmark 1) 1 eq_refl).
Defined.

Lemma create_event_rejections_witness :
  require_admin Sample.jwt_decode Sample.db (Some "admin-token")
  = Return Sample.admin /\
  ALLOWED (content_type (mkUploadFile "notes.txt" "text/plain" "hello"))
  = None /\
  depends_require_admin Sample.jwt_decode
    (create_event Sample.env "Elixir day" 1 (Sample.day_of_june 20)
       Sample.price_10_00 None None None None None None false (Some "1,3")
       (Some (mkUploadFile "notes.txt" "text/plain" "hello")))
    Sample.db (Some "admin-token")
  = (Sample.db, Raise (HTTPException 415 "Unsupported file type")) /\
  to_row (adapts_aware Sample.env) (events_id_seq Sample.db)
    (db_now Sample.env)
    (created_instance Sample.env "Elixir day" (2 ^ 31)
       (Sample.day_of_june 20) Sample.price_10_00 None None None None None
       None false None)
  = Raise (DBAPIError DataError) /\
  depends_require_admin Sample.jwt_decode
    (create_event Sample.env "Elixir day" (2 ^ 31) (Sample.day_of_june 20)
       Sample.price_10_00 None None None None None None false None None)
    Sample.db (Some "admin-token")
  = (Sample.db,
     Raise (HTTPException 500
              ("Database error: " ++
               exception_text Sample.env (DBAPIError DataError)))).
Proof.
  do 2 (split; [reflexivity|]).
  split.
  - apply (proj1
             (create_event_rejections Sample.jwt_decode Sample.env Sample.db
                (Some "admin-token") "Elixir day" 1 (Sample.day_of_june 20)
                Sample.price_10_00 None None None None None None false
                (Some "1,3")
                (Some (mkUploadFile "notes.txt" "text/plain" "hello"))
                Sample.admin eq_refl)
             (mkUploadFile "notes.txt" "text/plain" "hello") eq_refl eq_refl).
  - split; [reflexivity|].
    exact (proj1 (proj2 (proj2
             (create_event_rejections Sample.jwt_decode Sample.env Sample.db
                (Some "admin-token") "Elixir day" (2 ^ 31)
                (Sample.day_of_june 20) Sample.price_10_00 None None None
                None None None false None None Sample.admin eq_refl)))
             (DBAPIError DataError) eq_refl eq_refl).
Defined.

Lemma create_event_stores_row_witness :
  require_admin Sample.jwt_decode Sample.db (Some "admin-token")
  = Return Sample.admin /\
  image_accepted Sample.env None = true /\
  to_row (adapts_aware Sample.env) (events_id_seq Sample.db)
    (db_now Sample.env)
    (created_instance Sample.env "Elixir day" 1 (Sample.day_of_june 20)
       Sample.price_10_00 None None None None None None false None)
  = Return Sample.event_D /\
  event_fk_ok Sample.db Sample.event_D = true /\
  has_event Sample.db (events_id_seq Sample.db) = false /\
  form_tag_ids (Some "1,3") = [1; 3] /\
  in_int32 (events_id_seq Sample.db) = true /\
  forallb in_int32 (form_tag_ids (Some "1,3")) = true /\
  exists db' answer,
    depends_require_admin Sample.jwt_decode
      (create_event Sample.env "Elixir day" 1 (Sample.day_of_june 20)
         Sample.price_10_00 None None None None None None false
         (Some "1,3") None)
      Sample.db (Some "admin-token")
    = (db', Return answer) /\
    get_event_row db' 4 = Some Sample.event_D /\
    tag_ids_of db' 4 = [1; 3].
Proof.
  do 8 (split; [reflexivity|]).
  assert (Hfresh : forall et, In et (event_tags Sample.db) ->
                              EventTag.event_id et <> events_id_seq Sample.db).
  { intros et [<-|[<-|[]]]; discriminate. }
  assert (Hnd : NoDup (form_tag_ids (Some "1,3"))).
  { change (NoDup [1; 3]).
    repeat (constructor;
            [simpl; intros H;
             repeat (destruct H as [H|H]; [discriminate H|]); exact H|]).
    constructor. }
  assert (Hex : forall tid, In tid (form_tag_ids (Some "1,3")) ->
                            has_tag Sample.db tid = true).
  { intros tid [<-|[<-|[]]]; reflexivity. }
  destruct (create_event_stores_row Sample.jwt_decode Sample.env
              Sample.db (Some "admin-token") "Elixir day" 1
              (Sample.day_of_june 20) Sample.price_10_00 None None None
              None None None false (Some "1,3") None Sample.admin
              Sample.event_D eq_refl eq_refl eq_refl eq_refl eq_refl
              Hfresh Hnd eq_refl eq_refl Hex)
    as [db' [answer [H1 [_ [H3 [H4 _]]]]]].
  exists db', answer. split; [exact H1|]. split; [exact H3|exact H4].
Defined.

Lemma page_event_create_needs_a_file_witness :
  get_current_user_cookie Sample.jwt_decode Sample.db (Some "admin-token")
  = Some Sample.admin /\
  User.role Sample.admin = "admin" /\
  depends_cookie_user Sample.jwt_decode
    (do_admin_event_create Sample.env "Elixir day" 1
       (Sample.day_of_june 20) None None Sample.price_10_00 None None None
       None None [1; 3] None)
    Sample.db (Some "admin-token")
  = (Sample.db,
     Raise (AttributeError "'NoneType' object has no attribute 'read'")).
Proof.
  do 2 (split; [reflexivity|]).
  apply (proj1
           (page_event_create_needs_a_file Sample.jwt_decode Sample.env
              Sample.db (Some "admin-token") "Elixir day" 1
              (Sample.day_of_june 20) None None Sample.price_10_00 None
              None None None None [1; 3] Sample.admin eq_refl eq_refl)).
Defined.

Lemma token_readers_agree_witness :
  Sample.jwt_decode EmptyString = None /\
  subject_in_range Sample.jwt_decode (Some "visitor-token") /\
  get_current_user_optional Sample.jwt_decode Sample.db
    (Some "visitor-token")
  = Some Sample.visitor /\
  get_current_user_optional Sample.jwt_decode Sample.db
    (Some "visitor-token")
  = get_current_user_cookie Sample.jwt_decode Sample.db
      (Some "visitor-token").
Proof.
  assert (Hsub : subject_in_range Sample.jwt_decode (Some "visitor-token")).
  { intros tok payload s uid Htok Hdec Hs Hint.
    inversion Htok; subst tok. vm_compute in Hdec.
    inversion Hdec; subst payload. simpl in Hs.
    inversion Hs; subst s. vm_compute in Hint.
    inversion Hint; subst uid. reflexivity. }
  split; [reflexivity|]. split; [exact Hsub|]. split; [reflexivity|].
  apply (proj1 (token_readers_agree Sample.jwt_decode Sample.db
                  (Some "visitor-token") eq_refl Hsub)).
Defined.

Lemma page_admin_audit_most_recent_witness :
  User.role Sample.admin = "admin" /\
  exists shown hidden,
    page_admin_audit (Some Sample.admin) Sample.db
    = Return (shown, Sample.db) /\
    Permutation (shown ++ hidden) (event_audit_log Sample.db).
Proof.
  split; [reflexivity|].
  destruct (page_admin_audit_most_recent Sample.db Sample.admin eq_refl)
    as [shown [hidden [H1 [H2 _]]]].
  exists shown, hidden. split; [exact H1|exact H2].
Defined.

Lemma login_token_authenticates_witness :
  find (fun u => String.eqb (User.email u) "admin@admin.com")
       (users Sample.db) = Some Sample.admin /\
  checkpw Sample.services "admin" (User.password_hash Sample.admin)
  = Some true /\
  Sample.jwt_decode (create_access_token Sample.services Sample.admin)
  = Some (mkClaims (Some (str_of_Z (User.id Sample.admin)))
                   (Some (User.role Sample.admin))) /\
  create_access_token Sample.services Sample.admin <> EmptyString /\
  get_user Sample.db (User.id Sample.admin) = Some Sample.admin /\
  do_login Sample.services Sample.db "admin@admin.com" "admin"
  = Return (RedirectResponse "/" 302,
            Some (create_access_token Sample.services Sample.admin)) /\
  get_current_user_cookie Sample.jwt_decode Sample.db
    (Some (create_access_token Sample.services Sample.admin))
  = Some Sample.admin.
Proof.
  assert (Hne : create_access_token Sample.services Sample.admin
                <> EmptyString) by discriminate.
  do 3 (split; [reflexivity|]). split; [exact Hne|].
  split; [reflexivity|].
  destruct (login_token_authenticates Sample.jwt_decode Sample.services
              Sample.db "admin@admin.com" "admin" Sample.admin
              eq_refl eq_refl eq_refl Hne eq_refl) as [H1 [H2 _]].
  split; [exact H1|exact H2].
Defined.


Lemma create_organizer_on_both_surfaces_witness :
  require_admin Sample.jwt_decode Sample.db (Some "admin-token")
  = Return Sample.admin /\
  get_current_user_cookie Sample.jwt_decode Sample.db (Some "admin-token")
  = Some Sample.admin /\
  User.role Sample.admin = "admin" /\
  existsb (fun o => String.eqb (Organizer.name o) "Globex")
          (organizers Sample.db) = false /\
  fst (depends_cookie_user Sample.jwt_decode
         (do_admin_organizer_create "Globex" (Some EmptyString) None None)
         Sample.db (Some "admin-token"))
  <> fst (depends_require_admin Sample.jwt_decode
            (create_organizer "Globex" (Some EmptyString) None None)
            Sample.db (Some "admin-token")).
Proof.
  do 4 (split; [reflexivity|]).
  intros Heq.
  destruct (proj1
              (create_organizer_on_both_surfaces Sample.jwt_decode
                 Sample.db (Some "admin-token") (Some "admin-token")
                 "Globex" (Some EmptyString) None None Sample.admin
                 Sample.admin eq_refl eq_refl eq_refl)
              eq_refl eq_refl eq_refl eq_refl) as [_ [_ Hsame]].
  apply (proj1 Hsame) in Heq. destruct Heq as [Hnot _]. now apply Hnot.
Defined.

Lemma page_event_create_stores_event_witness :
  get_current_user_cookie Sample.jwt_decode Sample.db (Some "admin-token")
  = Some Sample.admin /\
  User.role Sample.admin = "admin" /\
  ALLOWED (content_type Sample.logo) = Some "png" /\
  to_row (adapts_aware Sample.env) (events_id_seq Sample.db)
    (db_now Sample.env)
    (page_created_instance Sample.env "Elixir day" 1
       (Sample.day_of_june 20) None None Sample.price_10_00 None None None
       None None Sample.logo "png")
  = Return Sample.event_D_with_image /\
  event_fk_ok Sample.db Sample.event_D_with_image = true /\
  has_event Sample.db (events_id_seq Sample.db) = false /\
  in_int32 (events_id_seq Sample.db) = true /\
  forallb in_int32 [1; 3] = true /\
  get_event_row
    (fst (depends_cookie_user Sample.jwt_decode
            (do_admin_event_create Sample.env "Elixir day" 1
               (Sample.day_of_june 20) None None Sample.price_10_00 None
               None None None None [1; 3] (Some Sample.logo))
            Sample.db (Some "admin-token")))
    (events_id_seq Sample.db)
  = Some Sample.event_D_with_image.
Proof.
  do 8 (split; [reflexivity|]).
  assert (Hfresh : forall et, In et (event_tags Sample.db) ->
                              EventTag.event_id et <> events_id_seq Sample.db).
  { intros et [<-|[<-|[]]]; discriminate. }
  assert (Hnd : NoDup [1; 3]).
  { repeat (constructor;
            [simpl; intros H;
             repeat (destruct H as [H|H]; [discriminate H|]); exact H|]).
    constructor. }
  assert (Hex : forall tid, In tid [1; 3] -> has_tag Sample.db tid = true).
  { intros tid [<-|[<-|[]]]; reflexivity. }
  apply (proj1
           (page_event_create_stores_event Sample.jwt_decode Sample.env
              Sample.db (Some "admin-token") "Elixir day" 1
              (Sample.day_of_june 20) None None Sample.price_10_00 None
              None None None None [1; 3] Sample.logo "png" Sample.admin
              Sample.event_D_with_image eq_refl eq_refl eq_refl eq_refl
              eq_refl eq_refl Hfresh Hnd eq_refl eq_refl)
           Hex).
Defined.


Lemma list_events_returns_witness :
  list_events Sample.ilike Sample.db None None (Some "1") (Some true) None
  = Return [Sample.event_A; Sample.event_B; Sample.event_C] /\
  exists l',
    list_events Sample.ilike Sample.db None None (Some "1") None None
    = Return l' /\
    Permutation [Sample.event_A; Sample.event_B; Sample.event_C] l'.
Proof.
  split; [reflexivity|].
  apply (proj1 (proj2
           (list_events_returns Sample.ilike Sample.db None None (Some "1")
              (Some true) None
              [Sample.event_A; Sample.event_B; Sample.event_C] eq_refl))).
Defined.


(* ================================================================== *)
(** ** Ids outside INTEGER, and the two drivers, on the sample data *)
(* ================================================================== *)

Example get_event_out_of_range :
  get_event Sample.db (2 ^ 31) = Raise (DBAPIError DataError) /\
  get_event Sample.db 9 = Raise (HTTPException 404 "Event not found").
Proof. split; reflexivity. Qed.

Example update_tags_out_of_range :
  patch_event Sample.jwt_decode Sample.env Sample.db (Some "admin-token") 1
    (Sample.payload_tags [2; 2 ^ 31]) =
  (Sample.db, Raise (DBAPIError DataError)).
Proof. reflexivity. Qed.

Example delete_event_out_of_range :
  depends_require_admin Sample.jwt_decode (delete_event (2 ^ 31)) Sample.db
    (Some "admin-token") = (Sample.db, Raise (DBAPIError DataError)) /\
  depends_cookie_user Sample.jwt_decode (do_admin_event_delete (2 ^ 31))
    Sample.db (Some "admin-token")
  = (Sample.db, Raise (DBAPIError DataError)).
Proof. split; reflexivity. Qed.

(** An unknown organizer on creation: the text of the error mentions the
    foreign key, and the answer is 400. *)
Example create_event_unknown_organizer :
  depends_require_admin Sample.jwt_decode
    (create_event Sample.env "Elixir day" 7 (Sample.day_of_june 20)
       Sample.price_10_00 None None None None None None false None None)
    Sample.db (Some "admin-token")
  = (Sample.db,
     Raise (HTTPException 400 "Invalid organizer_id, city_id, or tag_id.")).
Proof. reflexivity. Qed.

(** The API update stamps a naive [utcnow()] and goes through on either
    driver; the edit page stamps an aware one and goes through only where
    the driver takes it. *)
Example update_goes_through_on_both_drivers :
  snd (patch_event Sample.jwt_decode Sample.env Sample.db
         (Some "admin-token") 1 Sample.payload_new_price)
  = Return Sample.event_A_repriced /\
  snd (patch_event Sample.jwt_decode Sample.env_asyncpg Sample.db
         (Some "admin-token") 1 Sample.payload_new_price)
  = Return Sample.event_A_repriced.
Proof. split; reflexivity. Qed.

(** After an update the API listing meets the updated row last. *)
Example api_listing_after_update :
  list_events Sample.ilike
    (fst (patch_event Sample.jwt_decode Sample.env Sample.db
            (Some "admin-token") 1 Sample.payload_new_price))
    None None None None None
  = Return [Sample.event_B; Sample.event_C; Sample.event_A_repriced].
Proof. reflexivity. Qed.
